(** * PrivateApp backends: a shallow embedding and its properties

    The development follows three source files:
    - [apps/finviz-market/backend/routes.py]  (module [Finviz]),
    - [apps/arxiv-kb/backend/routes.py]       (module [ArxivKB]),
    - [scripts/commons/openclaw_client.py]    (module [OpenClaw]).

    Python values are modelled as the code uses them: [str] as a byte
    string (its UTF-8 encoding), [int] as [Z], [dict]s used as maps as
    [gmap], SQL tables as lists of rows, exceptions as an error sum.
    The definitions come first; the theorems follow in the second half. *)

From Stdlib Require Import ZArith List String Ascii Bool Lia.
From Stdlib Require Import DecimalString Sorting.Sorted OrderedTypeEx.
From stdpp Require Import base option list gmap strings.

Local Open Scope Z_scope.

(* ================================================================== *)
(** * Python primitives used by the three modules *)
(* ================================================================== *)

Module Py.

(** Exceptions: FastAPI's [HTTPException(status, detail)] and any other
    [Exception] carrying its message. *)
Inductive exn : Type :=
| HTTPException (status : Z) (detail : string)
| Exception (msg : string).

Inductive result (A : Type) : Type :=
| Ok (a : A)
| Raise (e : exn).
Arguments Ok {A} a.
Arguments Raise {A} e.

Definition bind {A B} (r : result A) (k : A -> result B) : result B :=
  match r with Ok a => k a | Raise e => Raise e end.

(** [int.__str__]: decimal digits, with a minus sign below zero. *)
Definition str_of_int (z : Z) : string := NilZero.string_of_int (Z.to_int z).

(** [str(e)]: Starlette prints an HTTPException as "status: detail". *)
Definition exn_str (e : exn) : string :=
  match e with
  | HTTPException st d => str_of_int st +:+ ": " +:+ d
  | Exception m => m
  end.

(** Truthiness of a [str]: the empty string is false. *)
Definition truthy (s : string) : bool :=
  match s with EmptyString => false | String _ _ => true end.

(** Truthiness of an optional [str] ([None] is false). *)
Definition truthy_opt (o : option string) : bool :=
  match o with None => false | Some s => truthy s end.

(** ASCII white space as [str.isspace] sees it: TAB..CR, FS..US, SPACE.
    (The byte-string model leaves non-ASCII white space alone.) *)
Definition isspace (c : ascii) : bool :=
  let n := Z.of_nat (nat_of_ascii c) in
  ((9 <=? n) && (n <=? 13)) || ((28 <=? n) && (n <=? 32)).

Fixpoint lstrip (s : string) : string :=
  match s with
  | EmptyString => EmptyString
  | String c r => if isspace c then lstrip r else s
  end.

Fixpoint rstrip (s : string) : string :=
  match s with
  | EmptyString => EmptyString
  | String c r =>
      match rstrip r with
      | EmptyString => if isspace c then EmptyString else String c EmptyString
      | r' => String c r'
      end
  end.

(** [str.strip()] *)
Definition strip (s : string) : string := rstrip (lstrip s).

(** [str.rstrip(ch)] for a one-character argument. *)
Fixpoint rstrip_char (ch : ascii) (s : string) : string :=
  match s with
  | EmptyString => EmptyString
  | String c r =>
      match rstrip_char ch r with
      | EmptyString => if Ascii.eqb c ch then EmptyString else String c EmptyString
      | r' => String c r'
      end
  end.

Definition upper_char (c : ascii) : ascii :=
  let n := nat_of_ascii c in
  if ((97 <=? n) && (n <=? 122))%nat then ascii_of_nat (n - 32) else c.

Definition lower_char (c : ascii) : ascii :=
  let n := nat_of_ascii c in
  if ((65 <=? n) && (n <=? 90))%nat then ascii_of_nat (n + 32) else c.

Fixpoint map_str (f : ascii -> ascii) (s : string) : string :=
  match s with
  | EmptyString => EmptyString
  | String c r => String (f c) (map_str f r)
  end.

(** [str.upper()] and [str.lower()] on the ASCII letters. *)
Definition upper : string -> string := map_str upper_char.
Definition lower : string -> string := map_str lower_char.

(** [s.split(sep)] for a one-character separator: never an empty list. *)
Fixpoint split (sep : ascii) (s : string) : list string :=
  match s with
  | EmptyString => [EmptyString]
  | String c r =>
      if Ascii.eqb c sep then EmptyString :: split sep r
      else match split sep r with
           | [] => [String c EmptyString]
           | w :: ws => String c w :: ws
           end
  end.

(** [s[:n]] for [0 <= n]. *)
Fixpoint slice_to (n : nat) (s : string) : string :=
  match n, s with
  | O, _ => EmptyString
  | S _, EmptyString => EmptyString
  | S k, String c r => String c (slice_to k r)
  end.

Definition startswith_char (ch : ascii) (s : string) : bool :=
  match s with String c _ => Ascii.eqb c ch | EmptyString => false end.

Fixpoint endswith_char (ch : ascii) (s : string) : bool :=
  match s with
  | EmptyString => false
  | String c EmptyString => Ascii.eqb c ch
  | String _ r => endswith_char ch r
  end.

(** [posixpath.join(a, *p)] *)
Definition path_join2 (path b : string) : string :=
  if startswith_char "/" b then b
  else if negb (truthy path) || endswith_char "/" path then path +:+ b
  else path +:+ "/" +:+ b.

Definition path_join (a : string) (p : list string) : string :=
  fold_left path_join2 p a.

(** ["%0<w>d" % n] for [0 <= n]. *)
Definition zfill (w : nat) (n : Z) : string :=
  let d := str_of_int n in
  string_of_list_ascii (repeat "0"%char (w - String.length d)) +:+ d.

(** SQLite's BINARY collation on TEXT: byte-wise, shorter prefix first. *)
Definition text_le (a b : string) : bool := String.leb a b.

End Py.

(* ================================================================== *)
(** * [datetime] in UTC, as far as the routes use it *)
(* ================================================================== *)

Module DateTime.

(** A timezone-aware [datetime] whose zone is UTC. *)
Record datetime : Type := mk_datetime {
  year : Z; month : Z; day : Z;
  hour : Z; minute : Z; second : Z; microsecond : Z
}.

Definition is_leap (y : Z) : bool :=
  (y mod 4 =? 0) && (negb (y mod 100 =? 0) || (y mod 400 =? 0)).

Definition days_before_year (y : Z) : Z :=
  let y := y - 1 in y * 365 + y / 4 - y / 100 + y / 400.

Definition days_in_month_tbl : list Z :=
  [31; 28; 31; 30; 31; 30; 31; 31; 30; 31; 30; 31].

Definition days_in_month (m : Z) : Z :=
  nth (Z.to_nat (m - 1)) days_in_month_tbl 0.

(** [_DAYS_BEFORE_MONTH[m]] *)
Definition days_before_month_tbl (m : Z) : Z :=
  fold_left Z.add (firstn (Z.to_nat (m - 1)) days_in_month_tbl) 0.

Definition days_before_month (y m : Z) : Z :=
  days_before_month_tbl m + (if (2 <? m) && is_leap y then 1 else 0).

(** [_ymd2ord]: 0001-01-01 is day 1. *)
Definition ymd2ord (y m d : Z) : Z :=
  days_before_year y + days_before_month y m + d.

Definition DI400Y : Z := 146097.
Definition DI100Y : Z := 36524.
Definition DI4Y : Z := 1461.

(** [_ord2ymd] *)
Definition ord2ymd (n : Z) : Z * Z * Z :=
  let n := n - 1 in
  let n400 := n / DI400Y in let n := n mod DI400Y in
  let y := n400 * 400 + 1 in
  let n100 := n / DI100Y in let n := n mod DI100Y in
  let n4 := n / DI4Y in let n := n mod DI4Y in
  let n1 := n / 365 in let n := n mod 365 in
  let y := y + n100 * 100 + n4 * 4 + n1 in
  if (n1 =? 4) || (n100 =? 4) then (y - 1, 12, 31)
  else
    let leapyear := (n1 =? 3) && (negb (n4 =? 24) || (n100 =? 3)) in
    let m := Z.shiftr (n + 50) 5 in
    let preceding :=
      days_before_month_tbl m + (if (2 <? m) && leapyear then 1 else 0) in
    if n <? preceding then
      let m := m - 1 in
      let preceding :=
        preceding - (days_in_month m + (if (m =? 2) && leapyear then 1 else 0)) in
      (y, m, n - preceding + 1)
    else (y, m, n - preceding + 1).

(** [_isoweek1monday] *)
Definition isoweek1monday (y : Z) : Z :=
  let firstday := ymd2ord y 1 1 in
  let firstweekday := (firstday + 6) mod 7 in
  let week1monday := firstday - firstweekday in
  if 3 <? firstweekday then week1monday + 7 else week1monday.

(** [isocalendar()[1]]: the ISO week number. *)
Definition isoweek (t : datetime) : Z :=
  let y := year t in
  let today := ymd2ord y (month t) (day t) in
  let week := (today - isoweek1monday y) / 7 in
  if week <? 0 then (today - isoweek1monday (y - 1)) / 7 + 1
  else if (52 <=? week) && (isoweek1monday (y + 1) <=? today) then 1
  else week + 1.

(** [t - timedelta(hours=h)]: the fields are carried through ordinal days
    and seconds of the day, as [datetime.__add__] does.  The clock reads
    dates far from year 1, so the library's OverflowError is left out. *)
Definition sub_hours (t : datetime) (h : Z) : datetime :=
  let secs := hour t * 3600 + minute t * 60 + second t - h * 3600 in
  let days := ymd2ord (year t) (month t) (day t) + secs / 86400 in
  let secs := secs mod 86400 in
  let '(y, m, d) := ord2ymd days in
  {| year := y; month := m; day := d;
     hour := secs / 3600; minute := (secs mod 3600) / 60;
     second := (secs mod 3600) mod 60; microsecond := microsecond t |}.

(** [strftime('%Y-%m-%d')] *)
Definition strftime_ymd (t : datetime) : string :=
  Py.zfill 4 (year t) +:+ "-" +:+ Py.zfill 2 (month t) +:+ "-" +:+ Py.zfill 2 (day t).

(** [isoformat()]: microseconds are printed only when non-zero. *)
Definition isoformat (t : datetime) : string :=
  strftime_ymd t +:+ "T" +:+ Py.zfill 2 (hour t) +:+ ":" +:+ Py.zfill 2 (minute t)
    +:+ ":" +:+ Py.zfill 2 (second t)
    +:+ (if microsecond t =? 0 then "" else "." +:+ Py.zfill 6 (microsecond t))
    +:+ "+00:00".

End DateTime.

(* ================================================================== *)
(** * [hashlib.md5(...).hexdigest()] (RFC 1321) on 32-bit words in [Z] *)
(* ================================================================== *)

Module MD5.

Definition mask32 (x : Z) : Z := Z.land x 0xffffffff.

Definition rotl32 (x c : Z) : Z :=
  mask32 (Z.lor (Z.shiftl x c) (Z.shiftr (mask32 x) (32 - c))).

Definition not32 (x : Z) : Z := Z.lxor (mask32 x) 0xffffffff.

Definition shifts : list Z :=
  [7; 12; 17; 22; 7; 12; 17; 22; 7; 12; 17; 22; 7; 12; 17; 22;
   5; 9; 14; 20; 5; 9; 14; 20; 5; 9; 14; 20; 5; 9; 14; 20;
   4; 11; 16; 23; 4; 11; 16; 23; 4; 11; 16; 23; 4; 11; 16; 23;
   6; 10; 15; 21; 6; 10; 15; 21; 6; 10; 15; 21; 6; 10; 15; 21].

Definition sines : list Z :=
  [0xd76aa478; 0xe8c7b756; 0x242070db; 0xc1bdceee;
   0xf57c0faf; 0x4787c62a; 0xa8304613; 0xfd469501;
   0x698098d8; 0x8b44f7af; 0xffff5bb1; 0x895cd7be;
   0x6b901122; 0xfd987193; 0xa679438e; 0x49b40821;
   0xf61e2562; 0xc040b340; 0x265e5a51; 0xe9b6c7aa;
   0xd62f105d; 0x02441453; 0xd8a1e681; 0xe7d3fbc8;
   0x21e1cde6; 0xc33707d6; 0xf4d50d87; 0x455a14ed;
   0xa9e3e905; 0xfcefa3f8; 0x676f02d9; 0x8d2a4c8a;
   0xfffa3942; 0x8771f681; 0x6d9d6122; 0xfde5380c;
   0xa4beea44; 0x4bdecfa9; 0xf6bb4b60; 0xbebfbc70;
   0x289b7ec6; 0xeaa127fa; 0xd4ef3085; 0x04881d05;
   0xd9d4d039; 0xe6db99e5; 0x1fa27cf8; 0xc4ac5665;
   0xf4292244; 0x432aff97; 0xab9423a7; 0xfc93a039;
   0x655b59c3; 0x8f0ccc92; 0xffeff47d; 0x85845dd1;
   0x6fa87e4f; 0xfe2ce6e0; 0xa3014314; 0x4e0811a1;
   0xf7537e82; 0xbd3af235; 0x2ad7d2bb; 0xeb86d391].

Definition bytes_of_string (s : string) : list Z :=
  map (fun c => Z.of_nat (nat_of_ascii c)) (list_ascii_of_string s).

(** Little-endian bytes of a word, [n] of them. *)
Fixpoint le_bytes (n : nat) (x : Z) : list Z :=
  match n with
  | O => []
  | S k => x mod 256 :: le_bytes k (x / 256)
  end.

Fixpoint le_word (bs : list Z) : Z :=
  match bs with
  | [] => 0
  | b :: r => b + 256 * le_word r
  end.

(** Message, 0x80, zeros up to 56 mod 64, then the bit length on 8 bytes. *)
Definition pad (msg : list Z) : list Z :=
  let len := Z.of_nat (List.length msg) in
  let zeros := Z.to_nat ((55 - len) mod 64) in
  msg ++ [0x80] ++ repeat 0 zeros ++ le_bytes 8 ((len * 8) mod 2 ^ 64).

Fixpoint words (n : nat) (bs : list Z) : list Z :=
  match n with
  | O => []
  | S k => le_word (firstn 4 bs) :: words k (skipn 4 bs)
  end.

Definition round (M : list Z) (st : Z * Z * Z * Z) (i : Z) : Z * Z * Z * Z :=
  let '(A, B, C, D) := st in
  let '(F, g) :=
    if i <? 16 then (Z.lor (Z.land B C) (Z.land (not32 B) D), i)
    else if i <? 32 then (Z.lor (Z.land D B) (Z.land (not32 D) C), (5 * i + 1) mod 16)
    else if i <? 48 then (Z.lxor (Z.lxor B C) D, (3 * i + 5) mod 16)
    else (Z.lxor C (Z.lor B (not32 D)), (7 * i) mod 16) in
  let F := mask32 (F + A + nth (Z.to_nat i) sines 0 + nth (Z.to_nat g) M 0) in
  (D, mask32 (B + rotl32 F (nth (Z.to_nat i) shifts 0)), B, C).

Definition block (st : Z * Z * Z * Z) (chunk : list Z) : Z * Z * Z * Z :=
  let M := words 16 chunk in
  let '(a0, b0, c0, d0) := st in
  let '(A, B, C, D) := fold_left (round M) (map Z.of_nat (seq 0 64)) st in
  (mask32 (a0 + A), mask32 (b0 + B), mask32 (c0 + C), mask32 (d0 + D)).

Fixpoint blocks (n : nat) (st : Z * Z * Z * Z) (bs : list Z) : Z * Z * Z * Z :=
  match n with
  | O => st
  | S k => blocks k (block st (firstn 64 bs)) (skipn 64 bs)
  end.

Definition digest (msg : list Z) : Z * Z * Z * Z :=
  let p := pad msg in
  blocks (List.length p / 64)%nat (0x67452301, 0xefcdab89, 0x98badcfe, 0x10325476) p.

Definition hex_digit (n : Z) : ascii :=
  nth (Z.to_nat n) (list_ascii_of_string "0123456789abcdef") "0"%char.

Definition hex_byte (b : Z) (k : string) : string :=
  String (hex_digit ((b / 16) mod 16)) (String (hex_digit (b mod 16)) k).

(** Eight hexadecimal digits of a word, least significant byte first. *)
Definition hex_word (w : Z) (k : string) : string :=
  hex_byte (w mod 256) (hex_byte ((w / 256) mod 256)
    (hex_byte ((w / 65536) mod 256) (hex_byte ((w / 16777216) mod 256) k))).

Definition hexdigest (s : string) : string :=
  let '(a, b, c, d) := digest (bytes_of_string s) in
  hex_word a (hex_word b (hex_word c (hex_word d EmptyString))).

End MD5.

(* ================================================================== *)
(** * JSON values as [json.loads] yields them *)
(* ================================================================== *)

Module Json.

#[warnings="-register-all"]
Inductive json : Type :=
| JNull
| JBool (b : bool)
| JInt (z : Z)
| JFloat (repr : string)
| JStr (s : string)
| JArr (items : list json)
| JObj (members : list (string * json)).

(** Members of an object in document order; a repeated name keeps its
    last value, as the [dict] built by [json.loads] does. *)
Fixpoint assoc_last (k : string) (kv : list (string * json)) : option json :=
  match kv with
  | [] => None
  | (k', v) :: r =>
      match assoc_last k r with
      | Some v' => Some v'
      | None => if String.eqb k' k then Some v else None
      end
  end.

End Json.

(* ================================================================== *)
(** * SQL fragments shared by the two route files *)
(* ================================================================== *)

Module Sql.

Section Rows.
Context {A : Type}.

(** [ORDER BY key DESC] on a TEXT column: stable insertion. *)
Fixpoint insert_desc (key : A -> string) (x : A) (l : list A) : list A :=
  match l with
  | [] => [x]
  | y :: t =>
      if Py.text_le (key y) (key x) then x :: l
      else y :: insert_desc key x t
  end.

Fixpoint order_by_desc (key : A -> string) (l : list A) : list A :=
  match l with
  | [] => []
  | x :: t => insert_desc key x (order_by_desc key t)
  end.

(** [LIMIT n]: a negative bound means no bound in SQLite. *)
Definition limit (n : Z) (l : list A) : list A :=
  if n <? 0 then l else firstn (Z.to_nat n) l.

(** [fetchone()] *)
Definition fetchone (l : list A) : option A := head l.
End Rows.

End Sql.

(* ================================================================== *)
(** * apps/finviz-market/backend/routes.py *)
(* ================================================================== *)

Module Finviz.
Import Py DateTime.

(** ** Stored data *)

(** A row of the [articles] table ([ticker] and [article_path] may be NULL). *)
Record article_row : Type := {
  title : string;
  url : string;
  publish_at : string;
  ticker : option string;
  status : string;
  article_path : option string
}.

(** A row of the [tickers] table; [symbol] is its primary key. *)
Record ticker_row : Type := {
  keywords : Json.json;
  added_at : string
}.

(** The dictionary written by [_save_cached_summary]. *)
Record summary_data : Type := {
  sd_period : string;
  sd_language : string;
  sd_topic : string;
  sd_summary : string;
  sd_article_count : Z;
  sd_generated_at : string
}.

(** A file of the summary cache: the JSON document of a [summary_data],
    or bytes that [json.loads] rejects. *)
Inductive cache_file : Type :=
| Doc (d : summary_data)
| Garbled.

(** Everything the routes read and write. *)
Record world : Type := {
  db : option (list article_row);        (* finviz.db, [None] when the file is missing *)
  files : gmap string string;            (* text files, by path *)
  tickers : gmap string ticker_row;      (* the tickers table *)
  cache : gmap string cache_file;        (* SUMMARY_CACHE_DIR, by file name *)
  _generating : gmap string bool         (* the module-level guard *)
}.

Definition set_cache (c : gmap string cache_file) (w : world) : world :=
  {| db := db w; files := files w; tickers := tickers w;
     cache := c; _generating := _generating w |}.

Definition set_generating (g : gmap string bool) (w : world) : world :=
  {| db := db w; files := files w; tickers := tickers w;
     cache := cache w; _generating := g |}.

Definition set_tickers (t : gmap string ticker_row) (w : world) : world :=
  {| db := db w; files := files w; tickers := t;
     cache := cache w; _generating := _generating w |}.

(** What a call reads from outside: the articles directory, the rows of
    the [preferences] table ([None] when privateapp.db is missing or
    unreadable) and the answer of the LLM endpoint to a summary
    request (the prompt text itself is not modelled). *)
Record env : Type := {
  articles_dir : string;
  preferences : option (list (string * string));
  llm_reply : result string
}.

Definition _db_conn (w : world) : result (list article_row) :=
  match db w with
  | Some rows => Ok rows
  | None => Raise (HTTPException 404 "Finviz database not found.")
  end.

(** [prefs.get(k, default)] on the dictionary filled row by row. *)
Fixpoint prefs_get (k : string) (rows : list (string * string)) : option string :=
  match rows with
  | [] => None
  | (k', v) :: r =>
      match prefs_get k r with
      | Some v' => Some v'
      | None => if String.eqb k' k then Some v else None
      end
  end.

(** [_get_preferences()["language"]] *)
Definition prefs_language (e : env) : string :=
  match preferences e with
  | None => "English"
  | Some rows => default "English" (prefs_get "language" rows)
  end.

(** ** Tickers *)

Record ticker_item : Type := {
  ti_symbol : option string;
  ti_keywords : option Json.json
}.

Record add_response : Type := { add_ok : bool; added : list string }.

(** One turn of the loop of [add_tickers]; [now] is the clock reading
    taken for the row. *)
Definition add_one (now : datetime) (acc : gmap string ticker_row * list string)
    (t : ticker_item) : gmap string ticker_row * list string :=
  let '(tbl, added) := acc in
  let sym := upper (strip (default "" (ti_symbol t))) in
  if negb (truthy sym) || String.eqb sym "MARKET" then acc
  else
    let kw := default (Json.JArr [Json.JStr (lower sym)]) (ti_keywords t) in
    (<[sym := {| keywords := kw; added_at := isoformat now |}]> tbl, added ++ [sym]).

Fixpoint add_loop (clock : nat -> datetime) (i : nat)
    (acc : gmap string ticker_row * list string) (ts : list ticker_item)
    : gmap string ticker_row * list string :=
  match ts with
  | [] => acc
  | t :: r => add_loop clock (S i) (add_one (clock i) acc t) r
  end.

(** POST /tickers; the body is [{"tickers": [...]}] or lacks the entry. *)
Definition add_tickers (clock : nat -> datetime) (data : option (list ticker_item))
    (w : world) : result add_response * world :=
  match default [] data with
  | [] => (Raise (HTTPException 400 "No tickers provided"), w)
  | ts =>
      let '(tbl, added) := add_loop clock 0 (tickers w, []) ts in
      (Ok {| add_ok := true; added := added |}, set_tickers tbl w)
  end.



(** ** Articles and summaries *)

Definition _period_to_hours (period : string) : Z :=
  if String.eqb period "12h" then 12
  else if String.eqb period "24h" then 24
  else if String.eqb period "weekly" then 168
  else 24.

Record article : Type := {
  a_title : string;
  a_url : string;
  a_date : string;
  a_content : option string
}.

(** [(now - timedelta(hours=hours)).isoformat()] *)
Definition cutoff (now : datetime) (hours : Z) : string :=
  isoformat (sub_hours now hours).

(** The WHERE clause of [_get_articles_for_period]. *)
Definition period_filter (cut topic : string) (r : article_row) : bool :=
  text_le cut (publish_at r)
  && (if String.eqb topic "Market"
      then match ticker r with None => true | Some t => String.eqb t "" end
      else match ticker r with None => false | Some t => String.eqb t topic end)
  && String.eqb (status r) "done".

(** The cached text of an article, if its path is set and the file exists. *)
Definition read_article (e : env) (w : world) (r : article_row) : option string :=
  match article_path r with
  | Some p =>
      if truthy p then files w !! path_join (articles_dir e) [p] else None
  | None => None
  end.

Definition _get_articles_for_period (e : env) (w : world) (now : datetime)
    (hours : Z) (topic : string) (limit : Z) : result (list article) :=
  bind (_db_conn w) (fun tbl =>
    let rows :=
      Sql.limit limit
        (Sql.order_by_desc publish_at
           (List.filter (period_filter (cutoff now hours) topic) tbl)) in
    Ok (map (fun r =>
               {| a_title := title r; a_url := url r; a_date := publish_at r;
                  a_content := slice_to 3000 <$> read_article e w r |})
            rows)).

(** The time bucket of [_cache_key]. *)
Definition bucket (period : string) (now : datetime) : string :=
  if String.eqb period "weekly" then
    str_of_int (year now) +:+ "-W" +:+ str_of_int (isoweek now)
  else if String.eqb period "24h" then
    strftime_ymd now +:+ "-" +:+ str_of_int (hour now / 6)
  else
    strftime_ymd now +:+ "-" +:+ str_of_int (hour now / 3).

Definition _cache_key (now : datetime) (period language topic : string) : string :=
  let raw := period +:+ ":" +:+ language +:+ ":" +:+ topic +:+ ":" +:+ bucket period now in
  slice_to 12 (MD5.hexdigest raw).

Definition cache_file_name (key : string) : string := key +:+ ".json".

Definition _get_cached_summary (now : datetime) (w : world)
    (period language topic : string) : option summary_data :=
  match cache w !! cache_file_name (_cache_key now period language topic) with
  | Some (Doc d) => Some d
  | Some Garbled => None
  | None => None
  end.

(** The file is written by a plain update of the cache directory; the
    clock is read once for the key and the [generated_at] stamp. *)
Definition _save_cached_summary (now : datetime) (w : world)
    (period language summary : string) (article_count : Z) (topic : string)
    : summary_data * world :=
  let key := _cache_key now period language topic in
  let data := {| sd_period := period; sd_language := language; sd_topic := topic;
                 sd_summary := summary; sd_article_count := article_count;
                 sd_generated_at := isoformat now |} in
  (data, set_cache (<[cache_file_name key := Doc data]> (cache w)) w).

Definition generating_key (period language topic : string) : string :=
  period +:+ ":" +:+ language +:+ ":" +:+ topic.

Definition no_articles_message (topic : string) : string :=
  "No articles found for " +:+ topic +:+
  " in this period. The crawler may not have ingested articles for this ticker yet — try again after the next crawl cycle.".

(** The [try] block of [_do_generate]: [t_fetch] is the clock when the
    articles are selected, [t_save] when the result is written. *)
Definition generate_try (e : env) (t_fetch t_save : datetime) (w : world)
    (period language topic : string) : result world :=
  let hours := _period_to_hours period in
  bind (_get_articles_for_period e w t_fetch hours topic 200) (fun articles =>
    match articles with
    | [] =>
        Ok (snd (_save_cached_summary t_save w period language
                   (no_articles_message topic) 0 topic))
    | _ =>
        bind (llm_reply e) (fun summary =>
          Ok (snd (_save_cached_summary t_save w period language summary
                     (Z.of_nat (List.length articles)) topic)))
    end).

(** [try] and [except Exception as e]. *)
Definition generate_body (e : env) (t_fetch t_save : datetime) (w : world)
    (period language topic : string) : world :=
  match generate_try e t_fetch t_save w period language topic with
  | Ok w' => w'
  | Raise ex =>
      snd (_save_cached_summary t_save w period language
             ("Error: " +:+ exn_str ex) 0 topic)
  end.

(** The [finally] clause: [_generating.pop(key, None)]. *)
Definition generate_finally (w : world) (period language topic : string) : world :=
  set_generating (delete (generating_key period language topic) (_generating w)) w.

Definition _do_generate (e : env) (t_fetch t_save : datetime) (w : world)
    (period language topic : string) : world :=
  generate_finally (generate_body e t_fetch t_save w period language topic)
    period language topic.

(** ** GET /summary/{period} *)

Inductive summary_response : Type :=
| Ready (d : summary_data) (generating : bool)
| InProgress (period language topic : string).

(** The [status] entry of the response. *)
Definition response_status (r : summary_response) : string :=
  match r with
  | Ready _ _ => "ready"
  | InProgress _ _ _ => "generating"
  end.

Definition valid_period (period : string) : bool :=
  String.eqb period "12h" || String.eqb period "24h" || String.eqb period "weekly".

(** [key in _generating] *)
Definition is_generating (key : string) (w : world) : bool :=
  match _generating w !! key with Some _ => true | None => false end.

(** The handler returns its response, the world it leaves, and the
    arguments of the background thread it started, if any. *)
Definition finviz_summary (e : env) (now : datetime) (w : world)
    (period : string) (regenerate : Z) (topic : string)
    : result summary_response * world * option (string * string * string) :=
  if negb (valid_period period) then
    (Raise (HTTPException 400 "Period must be 12h, 24h, or weekly"), w, None)
  else
    let language := prefs_language e in
    let key := generating_key period language topic in
    let w1 :=
      if regenerate =? 0 then w
      else set_cache
             (delete (cache_file_name (_cache_key now period language topic)) (cache w)) w in
    match _get_cached_summary now w1 period language topic, regenerate =? 0 with
    | Some cached, true => (Ok (Ready cached (is_generating key w1)), w1, None)
    | _, _ =>
        if is_generating key w1 then
          (Ok (InProgress period language topic), w1, None)
        else
          (Ok (InProgress period language topic),
           set_generating (<[key := true]> (_generating w1)) w1,
           Some (period, language, topic))
    end.

(** ** GET /headlines *)

Record headline : Type := {
  h_title : string;
  h_url : string;
  h_date : string;
  has_content : bool
}.

Record headlines_response : Type := {
  count : Z;
  headlines : list headline
}.

(** [Query(default, ge=lo, le=hi)]: FastAPI answers 422 outside the range. *)
Definition query_int (lo hi v : Z) : result Z :=
  if (lo <=? v) && (v <=? hi) then Ok v
  else Raise (HTTPException 422 "Unprocessable Entity").

Definition finviz_headlines (now : datetime) (w : world) (hours limit : Z)
    : result headlines_response :=
  bind (query_int 1 720 hours) (fun hours =>
  bind (query_int 1 500 limit) (fun limit =>
  bind (_db_conn w) (fun tbl =>
    let rows :=
      Sql.limit limit
        (Sql.order_by_desc publish_at
           (List.filter (fun r => text_le (cutoff now hours) (publish_at r)) tbl)) in
    Ok {| count := Z.of_nat (List.length rows);
          headlines :=
            map (fun r =>
                   {| h_title := title r; h_url := url r; h_date := publish_at r;
                      has_content := match article_path r with
                                     | Some _ => true | None => false end |})
                rows |}))).

(** ** GET /article *)

Record article_response : Type := {
  ar_title : string;
  ar_url : string;
  ar_date : string;
  ar_content : option string
}.

Definition finviz_article (e : env) (w : world) (u : string)
    : result article_response :=
  bind (_db_conn w) (fun tbl =>
    match Sql.fetchone (List.filter (fun r => String.eqb (url r) u) tbl) with
    | None => Raise (HTTPException 404 "Article not found")
    | Some row =>
        Ok {| ar_title := title row; ar_url := url row; ar_date := publish_at row;
              ar_content := read_article e w row |}
    end).

(** ** The server with its background threads

    A request runs its coroutine to the end without a suspension
    point; a generation thread first runs the [try]/[except] part of
    [_do_generate] and later its [finally] clause.  Requests and thread
    steps interleave freely, and the crawler may replace the database
    and the article files at any time. *)

Inductive phase : Type := Working | Saved.

Record thread : Type := {
  th_period : string;
  th_language : string;
  th_topic : string;
  th_phase : phase
}.

Definition th_key (t : thread) : string :=
  generating_key (th_period t) (th_language t) (th_topic t).

Record system : Type := {
  sys_world : world;
  sys_threads : list thread
}.

Inductive event : Type :=
| Request (e : env) (now : datetime) (period : string) (regenerate : Z) (topic : string)
| ThreadBody (i : nat) (e : env) (t_fetch t_save : datetime)
| ThreadExit (i : nat)
| Crawl (db' : option (list article_row)) (files' : gmap string string).

Definition spawned (o : option (string * string * string)) : list thread :=
  match o with
  | Some (p, l, t) =>
      [{| th_period := p; th_language := l; th_topic := t; th_phase := Working |}]
  | None => []
  end.

(** One event; [None] when the event is not enabled in [s]. *)
Definition exec (s : system) (ev : event) : option system :=
  match ev with
  | Request e now period regenerate topic =>
      let '(_, w', sp) := finviz_summary e now (sys_world s) period regenerate topic in
      Some {| sys_world := w'; sys_threads := sys_threads s ++ spawned sp |}
  | ThreadBody i e t_fetch t_save =>
      match sys_threads s !! i with
      | Some {| th_period := p; th_language := l; th_topic := t; th_phase := Working |} =>
          Some {| sys_world := generate_body e t_fetch t_save (sys_world s) p l t;
                  sys_threads :=
                    <[i := {| th_period := p; th_language := l; th_topic := t;
                              th_phase := Saved |}]> (sys_threads s) |}
      | _ => None
      end
  | ThreadExit i =>
      match sys_threads s !! i with
      | Some {| th_period := p; th_language := l; th_topic := t; th_phase := Saved |} =>
          Some {| sys_world := generate_finally (sys_world s) p l t;
                  sys_threads := delete i (sys_threads s) |}
      | _ => None
      end
  | Crawl db' files' =>
      Some {| sys_world :=
                {| db := db'; files := files';
                   tickers := tickers (sys_world s); cache := cache (sys_world s);
                   _generating := _generating (sys_world s) |};
              sys_threads := sys_threads s |}
  end.

Fixpoint run (s : system) (evs : list event) : option system :=
  match evs with
  | [] => Some s
  | ev :: r => match exec s ev with Some s' => run s' r | None => None end
  end.

(** The server starts with an empty guard and no thread. *)
Definition boot (w : world) : system :=
  {| sys_world := set_generating ∅ w; sys_threads := [] |}.

Definition reachable (s : system) : Prop :=
  exists w evs, run (boot w) evs = Some s.

(** Threads whose generation for [key] is in progress. *)
Definition in_progress (key : string) (s : system) : list thread :=
  List.filter (fun t => String.eqb (th_key t) key) (sys_threads s).

End Finviz.

(* ================================================================== *)
(** * apps/arxiv-kb/backend/routes.py *)
(* ================================================================== *)

Module ArxivKB.
Import Py.

(** A row of [papers] and a row of [translations]; TEXT columns that
    the code tests for NULL are optional. *)
Record paper_row : Type := {
  id : Z;
  arxiv_id : string;
  title : string;
  abstract : option string;
  published : string
}.

Record translation_row : Type := {
  paper_id : Z;
  language : string;
  tr_abstract : option string
}.

Record database : Type := {
  papers : list paper_row;
  translations : list translation_row
}.

Record world : Type := {
  db : option database;            (* arxivkb.db, [None] when the file is missing *)
  files : gmap string string       (* files on disk, by path *)
}.

(** What a call reads from outside: the data directory, the rows of
    [SELECT value FROM preferences WHERE key = 'language'] ([None] when
    the settings database is missing or the query fails), and the
    content the LLM endpoint answers for a text and a target language
    ([None] when the request fails or is not OK). *)
Record env : Type := {
  data_dir : string;
  language_rows : option (list (option string));
  llm_content : string -> string -> option string
}.

Definition _get_data_dir (e : env) : string := data_dir e.

Definition _db_conn (w : world) : result database :=
  match db w with
  | Some d => Ok d
  | None => Raise (HTTPException 404 "ArXivKB database not found. Run: skb ingest")
  end.

Definition _get_translate_language (e : env) : string :=
  match language_rows e with
  | None => ""
  | Some rows =>
      match Sql.fetchone rows with
      | Some (Some v) => if truthy v then strip v else ""
      | _ => ""
      end
  end.

Definition _translate (e : env) (text target_lang : string) : option string :=
  strip <$> llm_content e text target_lang.

Definition _pdf_path (e : env) (aid : string) : string :=
  path_join (_get_data_dir e) ["pdfs"; aid +:+ ".pdf"].

Definition exists_file (w : world) (p : string) : bool :=
  match files w !! p with Some _ => true | None => false end.

Definition find_paper (d : database) (aid : string) : option paper_row :=
  Sql.fetchone (List.filter (fun r => String.eqb (arxiv_id r) aid) (papers d)).

Definition find_translation (d : database) (pid : Z) (lang : string)
    : option translation_row :=
  Sql.fetchone
    (List.filter (fun r => (paper_id r =? pid) && String.eqb (language r) lang)
                 (translations d)).

(** ** GET /paper/{arxiv_id} *)

Record paper_response : Type := {
  pr_arxiv_id : string;
  pr_title : string;
  pr_abstract : option string;
  pr_abstract_translated : option string;
  pr_translate_language : option string;
  pr_published : string;
  pr_has_pdf : bool
}.

Definition science_paper (e : env) (w : world) (aid : string) : result paper_response :=
  bind (_db_conn w) (fun d =>
    match find_paper d aid with
    | None => Raise (HTTPException 404 "Paper not found")
    | Some row =>
        let has_pdf := exists_file w (_pdf_path e (arxiv_id row)) in
        let target_lang := _get_translate_language e in
        let abstract_translated :=
          if truthy target_lang && truthy_opt (abstract row) then
            match find_translation d (id row) target_lang with
            | Some tr => tr_abstract tr
            | None => None
            end
          else None in
        Ok {| pr_arxiv_id := arxiv_id row; pr_title := title row;
              pr_abstract := abstract row;
              pr_abstract_translated := abstract_translated;
              pr_translate_language :=
                if truthy target_lang then Some target_lang else None;
              pr_published := published row; pr_has_pdf := has_pdf |}
    end).

(** ** GET /paper/{arxiv_id}/translate *)

(** [{"translated": ..}] with or without a ["language"] entry. *)
Record translate_response : Type := {
  translated : option string;
  tr_language : option string
}.

(** [INSERT INTO translations ...] and [commit].  On the table model the
    statement cannot fail, so the handler's [except Exception: pass] around
    it has no case of its own. *)
Definition insert_translation (d : database) (r : translation_row) : database :=
  {| papers := papers d; translations := translations d ++ [r] |}.

(** The handler returns its response, the world it leaves and the
    requests it sent to the LLM endpoint as (text, language) pairs. *)
Definition science_paper_translate (e : env) (w : world) (aid : string)
    : result translate_response * world * list (string * string) :=
  match _db_conn w with
  | Raise ex => (Raise ex, w, [])
  | Ok d =>
      match find_paper d aid with
      | None => (Ok {| translated := None; tr_language := None |}, w, [])
      | Some row =>
          if negb (truthy_opt (abstract row)) then
            (Ok {| translated := None; tr_language := None |}, w, [])
          else
            let text := default "" (abstract row) in
            let target_lang := _get_translate_language e in
            if negb (truthy target_lang) then
              (Ok {| translated := None; tr_language := None |}, w, [])
            else
              match find_translation d (id row) target_lang with
              | Some tr =>
                  (Ok {| translated := tr_abstract tr;
                         tr_language := Some target_lang |}, w, [])
              | None =>
                  let t := _translate e text target_lang in
                  let w' :=
                    if truthy_opt t then
                      {| db := Some (insert_translation d
                                       {| paper_id := id row; language := target_lang;
                                          tr_abstract := t |});
                         files := files w |}
                    else w in
                  (Ok {| translated := t; tr_language := Some target_lang |},
                   w', [(text, target_lang)])
              end
      end
  end.

(** ** GET /pdf/{arxiv_id} *)

Record file_response : Type := {
  fr_path : string;
  fr_media_type : string;
  fr_filename : string;
  fr_headers : list (string * string)
}.

Definition science_pdf (e : env) (w : world) (aid : string) : result file_response :=
  let pdf_file := _pdf_path e aid in
  if negb (exists_file w pdf_file) then Raise (HTTPException 404 "PDF not found")
  else Ok {| fr_path := pdf_file; fr_media_type := "application/pdf";
             fr_filename := aid +:+ ".pdf";
             fr_headers := [("Content-Disposition", "inline")] |}.

End ArxivKB.

(* ================================================================== *)
(** * scripts/commons/openclaw_client.py *)
(* ================================================================== *)

Module OpenClaw.
Import Py Json.

(** The process environment and the file ~/.openclaw/openclaw.json:
    [None] when it does not exist, [Some (Raise _)] when reading or
    parsing it raises, [Some (Ok j)] when it parses to [j]. *)
Record env : Type := {
  OPENCLAW_GATEWAY_URL : option string;
  config_file : option (result json)
}.

Section Discovery.
(** Python's [repr] of a list or a dict, used when such a value is
    formatted into the URL. *)
Variable repr : json -> string.

(** [str(v)] as an f-string field prints it. *)
Definition py_str (v : json) : string :=
  match v with
  | JNull => "None"
  | JBool true => "True"
  | JBool false => "False"
  | JInt z => str_of_int z
  | JFloat r => r
  | JStr s => s
  | JArr _ | JObj _ => repr v
  end.

(** [v.get(k, dflt)]: only a dict has the method. *)
Definition dict_get (v : json) (k : string) (dflt : json) : result json :=
  match v with
  | JObj kv => Ok (default dflt (assoc_last k kv))
  | _ => Raise (Exception "AttributeError: object has no attribute 'get'")
  end.

(** The body of the [try] block once the file has been parsed. *)
Definition url_of_config (cfg : json) : result string :=
  bind (dict_get cfg "gateway" (JObj [])) (fun g =>
  bind (dict_get g "port" (JInt 18789)) (fun port =>
  bind (dict_get cfg "gateway" (JObj [])) (fun g' =>
  bind (dict_get g' "host" (JStr "127.0.0.1")) (fun host =>
    Ok ("http://" +:+ py_str host +:+ ":" +:+ py_str port))))).

Definition get_gateway_url (e : env) : string :=
  match OPENCLAW_GATEWAY_URL e with
  | Some (String c r) => rstrip_char "/" (String c r)
  | _ =>
      match config_file e with
      | Some content =>
          match bind content url_of_config with
          | Ok u => u
          | Raise _ => "http://localhost:18789"
          end
      | None => "http://localhost:18789"
      end
  end.
End Discovery.

End OpenClaw.

(* ================================================================== *)
(** * Vocabulary of the properties *)
(* ================================================================== *)

Module Props.
Import Py DateTime.

(** ** Tickers *)


(** The symbols of a request body that [add_tickers] stores, in order. *)
Definition accepted (ts : list Finviz.ticker_item) : list string :=
  List.filter (fun s => truthy s && negb (String.eqb s "MARKET"))
              (map (fun t => upper (strip (default "" (Finviz.ti_symbol t)))) ts).

(** The symbol a body item stands for: [t.get("symbol", "").strip().upper()]. *)
Definition normalise (t : Finviz.ticker_item) : string :=
  upper (strip (default "" (Finviz.ti_symbol t))).



(** ** The summary cache *)

(** Two clock readings in the same time bucket of a period, as the
    description of the cache has it: year and ISO week for "weekly",
    the calendar date with the hour divided by 6 for "24h", the calendar
    date with the hour divided by 3 otherwise. *)
Definition same_date (t1 t2 : datetime) : Prop :=
  year t1 = year t2 /\ month t1 = month t2 /\ day t1 = day t2.

Definition same_bucket (period : string) (t1 t2 : datetime) : Prop :=
  if String.eqb period "weekly" then
    year t1 = year t2 /\ isoweek t1 = isoweek t2
  else if String.eqb period "24h" then
    same_date t1 t2 /\ hour t1 / 6 = hour t2 / 6
  else
    same_date t1 t2 /\ hour t1 / 3 = hour t2 / 3.

(** The cache entry that [_do_generate] is expected to leave for each
    outcome of fetching the articles and asking the LLM. *)
Definition expected_summary (topic : string)
    (fetched : result (list Finviz.article)) (reply : result string) : string * Z :=
  match fetched with
  | Raise ex => ("Error: " +:+ exn_str ex, 0)
  | Ok [] => (Finviz.no_articles_message topic, 0)
  | Ok articles =>
      match reply with
      | Ok summary => (summary, Z.of_nat (List.length articles))
      | Raise ex => ("Error: " +:+ exn_str ex, 0)
      end
  end.

(** ** Listings *)

(** [a] may come before [b] in a listing by descending [key]. *)
Definition above {A : Type} (key : A -> string) (a b : A) : Prop :=
  text_le (key b) (key a) = true.

(** TEXT values in descending order of SQLite's BINARY collation. *)
Definition descending (l : list string) : Prop :=
  StronglySorted (fun a b => text_le b a = true) l.

(** ** The generation guard *)

Definition thread_keys (s : Finviz.system) : list string :=
  map Finviz.th_key (Finviz.sys_threads s).

(** The keys marked in [_generating] are the keys of the running
    threads, and no two running threads share a key. *)
Definition guard_invariant (s : Finviz.system) : Prop :=
  List.NoDup (thread_keys s) /\
  (forall key, Finviz.is_generating key (Finviz.sys_world s) = true
               <-> In key (thread_keys s)).

(** ** Gateway discovery *)

(** Whether the environment variable decides the URL: set and not empty. *)
Definition env_url_set (e : OpenClaw.env) : Prop :=
  exists url, OpenClaw.OPENCLAW_GATEWAY_URL e = Some url /\ url <> "".

(** An entry of the configuration's gateway section, with its default
    when the section or the entry is absent. *)
Definition gateway_entry (cfg : Json.json) (k : string) (dflt : Json.json)
    : Json.json :=
  match cfg with
  | Json.JObj kv =>
      match Json.assoc_last "gateway" kv with
      | Some (Json.JObj g) => default dflt (Json.assoc_last k g)
      | _ => dflt
      end
  | _ => dflt
  end.

(** The URL the description promises for a configuration that parses. *)
Definition config_url (repr : Json.json -> string) (cfg : Json.json) : string :=
  "http://" +:+ OpenClaw.py_str repr (gateway_entry cfg "host" (Json.JStr "127.0.0.1"))
    +:+ ":" +:+ OpenClaw.py_str repr (gateway_entry cfg "port" (Json.JInt 18789)).

(** A configuration the [try] block gets through: an object whose
    gateway entry, when present, is an object too. *)
Definition well_shaped (cfg : Json.json) : Prop :=
  match cfg with
  | Json.JObj kv =>
      match Json.assoc_last "gateway" kv with
      | Some (Json.JObj _) | None => True
      | Some _ => False
      end
  | _ => False
  end.

End Props.

(* ================================================================== *)
(** * Sample data, used to run the definitions on concrete inputs *)
(* ================================================================== *)

Module Samples.
Import Py DateTime.

(** 2026-11-04 07:21:00 UTC and a later reading of the same 3-hour bucket. *)
Definition t0 : datetime := mk_datetime 2026 11 4 7 21 0 0.
Definition t1 : datetime := mk_datetime 2026 11 4 8 59 59 250000.

Definition rows : list Finviz.article_row :=
  [ {| Finviz.title := "Fed holds rates"; Finviz.url := "https://n.example/a";
       Finviz.publish_at := "2026-11-04T05:00:00+00:00"; Finviz.ticker := None;
       Finviz.status := "done"; Finviz.article_path := Some "a.txt" |};
    {| Finviz.title := "Chip rally"; Finviz.url := "https://n.example/b";
       Finviz.publish_at := "2026-11-04T06:30:00+00:00"; Finviz.ticker := Some "NVDA";
       Finviz.status := "done"; Finviz.article_path := None |};
    {| Finviz.title := "Old story"; Finviz.url := "https://n.example/c";
       Finviz.publish_at := "2026-10-01T00:00:00+00:00"; Finviz.ticker := None;
       Finviz.status := "done"; Finviz.article_path := Some "" |};
    {| Finviz.title := "Oil slips"; Finviz.url := "https://n.example/d";
       Finviz.publish_at := "2026-11-03T22:10:00+00:00"; Finviz.ticker := Some "";
       Finviz.status := "done"; Finviz.article_path := Some "d.txt" |} ].

Definition world0 : Finviz.world :=
  {| Finviz.db := Some rows;
     Finviz.files := {[ "/srv/articles/a.txt" := "The Federal Reserve held rates." ]};
     Finviz.tickers := ∅; Finviz.cache := ∅; Finviz._generating := ∅ |}.

Definition env0 : Finviz.env :=
  {| Finviz.articles_dir := "/srv/articles"; Finviz.preferences := None;
     Finviz.llm_reply := Ok "Markets were calm." |}.

(** A world in which a generation for 12h/English/Market is marked. *)
Definition world_marked : Finviz.world :=
  Finviz.set_generating {[ "12h:English:Market" := true ]} world0.

(** A request starts a generation and its thread has saved the result
    but not yet run its [finally] clause. *)
Definition trace_saved : list Finviz.event :=
  [ Finviz.Request env0 t0 "12h" 0 "Market"; Finviz.ThreadBody 0 env0 t0 t0 ].


Definition paper : ArxivKB.paper_row :=
  {| ArxivKB.id := 7; ArxivKB.arxiv_id := "2401.00001"; ArxivKB.title := "On caches";
     ArxivKB.abstract := Some "We study caches."; ArxivKB.published := "2024-01-01" |}.

Definition kb_database : ArxivKB.database :=
  {| ArxivKB.papers := [paper]; ArxivKB.translations := [] |}.

Definition kb_world : ArxivKB.world :=
  {| ArxivKB.db := Some kb_database;
     ArxivKB.files := {[ "/srv/kb/pdfs/2401.00001.pdf" := "%PDF-1.7" ]} |}.

Definition kb_env : ArxivKB.env :=
  {| ArxivKB.data_dir := "/srv/kb";
     ArxivKB.language_rows := Some [Some " German "];
     ArxivKB.llm_content := fun _ _ => Some " Wir untersuchen Caches. " |}.

(** No list or dict is printed in the samples. *)
Definition repr0 (v : Json.json) : string := "".

(** openclaw.json holding [{"gateway": {"port": 9000}}]. *)
Definition cfg_port : Json.json :=
  Json.JObj [("gateway", Json.JObj [("port", Json.JInt 9000)])].

Definition env_cfg_port : OpenClaw.env :=
  {| OpenClaw.OPENCLAW_GATEWAY_URL := None;
     OpenClaw.config_file := Some (Ok cfg_port) |}.

(** openclaw.json holding [{"gateway": null}]. *)
Definition cfg_null_gateway : Json.json := Json.JObj [("gateway", Json.JNull)].

Definition env_null_gateway : OpenClaw.env :=
  {| OpenClaw.OPENCLAW_GATEWAY_URL := None;
     OpenClaw.config_file := Some (Ok cfg_null_gateway) |}.

Definition env_url : OpenClaw.env :=
  {| OpenClaw.OPENCLAW_GATEWAY_URL := Some "http://gw.example:8080//";
     OpenClaw.config_file := None |}.

End Samples.

(* ================================================================== *)
(** * Python dicts in insertion order, and more SQL *)
(* ================================================================== *)

Module PyDict.
Section Dict.
Context {V : Type}.

(** [d[k] = v]: an existing key keeps its place, a new one goes last. *)
Fixpoint set (k : string) (v : V) (d : list (string * V)) : list (string * V) :=
  match d with
  | [] => [(k, v)]
  | (k', v') :: r =>
      if String.eqb k' k then (k', v) :: r else (k', v') :: set k v r
  end.

(** [d.get(k)] *)
Fixpoint get (k : string) (d : list (string * V)) : option V :=
  match d with
  | [] => None
  | (k', v) :: r => if String.eqb k' k then Some v else get k r
  end.

(** The dict that [json.loads] builds from the members of an object. *)
Definition of_members (kv : list (string * V)) : list (string * V) :=
  fold_left (fun d '(k, v) => set k v d) kv [].
End Dict.
End PyDict.

Module SqlExt.
Section Rows.
Context {A : Type}.

(** [ORDER BY key] (ascending) on a TEXT column: stable insertion. *)
Fixpoint insert_asc (key : A -> string) (x : A) (l : list A) : list A :=
  match l with
  | [] => [x]
  | y :: t =>
      if Py.text_le (key x) (key y) then x :: l
      else y :: insert_asc key x t
  end.

Fixpoint order_by_asc (key : A -> string) (l : list A) : list A :=
  match l with
  | [] => []
  | x :: t => insert_asc key x (order_by_asc key t)
  end.
End Rows.

(** [GROUP BY col]: the distinct values of the column, first seen first. *)
Fixpoint distinct (l : list string) : list string :=
  match l with
  | [] => []
  | x :: t => x :: List.filter (fun y => negb (String.eqb y x)) (distinct t)
  end.

(** SQLite's [text LIKE pattern]: [%] stands for any run of characters,
    [_] for one character, ASCII letters match without regard to case. *)
Fixpoint like (p t : string) {struct p} : bool :=
  match p with
  | EmptyString => match t with EmptyString => true | _ => false end
  | String c p' =>
      if Ascii.eqb c "%" then
        (fix star (t : string) : bool :=
           like p' t || match t with
                        | EmptyString => false
                        | String _ t' => star t'
                        end) t
      else
        match t with
        | EmptyString => false
        | String d t' =>
            (Ascii.eqb c "_" || Ascii.eqb (Py.lower_char c) (Py.lower_char d))
            && like p' t'
        end
  end.

End SqlExt.

(* ================================================================== *)
(** * finviz-market routes outside the summary path *)
(* ================================================================== *)

Module FinvizExt.
Import Py DateTime Finviz.

(** ** GET /tickers *)

Record ticker_entry : Type := {
  te_symbol : string;
  te_keywords : Json.json
}.

(** The rows of [SELECT symbol, keywords FROM tickers ORDER BY symbol]. *)
Definition get_tickers (w : world) : list ticker_entry :=
  map (fun r => {| te_symbol := fst r; te_keywords := keywords (snd r) |})
      (SqlExt.order_by_asc fst (map_to_list (tickers w))).

(** ** GET /stats *)

Record stats_response : Type := {
  total : Z;
  with_content : Z;
  last_24h : Z
}.

(** [SELECT COUNT( * ) FROM articles WHERE ...] *)
Definition count_where (f : article_row -> bool) (tbl : list article_row) : Z :=
  Z.of_nat (List.length (List.filter f tbl)).

Definition finviz_stats (now : datetime) (w : world) : result stats_response :=
  bind (_db_conn w) (fun tbl =>
    Ok {| total := Z.of_nat (List.length tbl);
          with_content :=
            count_where (fun r => match article_path r with
                                  | Some _ => true | None => false end) tbl;
          last_24h :=
            count_where (fun r => text_le (cutoff now 24) (publish_at r)) tbl |}).

(** ** GET /article-counts *)

(** [ticker IS NULL OR ticker = ''] and [ticker IS NOT NULL AND ticker != '']. *)
Definition untickered (r : article_row) : bool :=
  match ticker r with None => true | Some t => String.eqb t "" end.

Definition tickered (r : article_row) : bool :=
  match ticker r with None => false | Some t => negb (String.eqb t "") end.

Definition is_done (r : article_row) : bool := String.eqb (status r) "done".

(** The window of the request: all time when [hours] is 0. *)
Definition in_window (now : datetime) (hours : Z) (r : article_row) : bool :=
  if 0 <? hours then text_le (cutoff now hours) (publish_at r) else true.

Definition has_ticker (t : string) (r : article_row) : bool :=
  match ticker r with Some t' => String.eqb t' t | None => false end.

(** [SELECT ticker, COUNT( * ) ... GROUP BY ticker ORDER BY ticker] *)
Definition ticker_counts (now : datetime) (hours : Z) (tbl : list article_row)
    : list (string * Z) :=
  let sel := List.filter (fun r => in_window now hours r && tickered r && is_done r) tbl in
  map (fun t => (t, count_where (has_ticker t) sel))
      (SqlExt.order_by_asc id (SqlExt.distinct (map (fun r => default "" (ticker r)) sel))).

(** The handler answers the dict [counts], here in insertion order. *)
Definition finviz_article_counts (now : datetime) (w : world) (hours : Z)
    : result (list (string * Z)) :=
  bind (query_int 0 8760 hours) (fun hours =>
  bind (_db_conn w) (fun tbl =>
    let market_count :=
      count_where (fun r => in_window now hours r && untickered r && is_done r) tbl in
    Ok (fold_left (fun counts r => PyDict.set (fst r) (snd r) counts)
                  (ticker_counts now hours tbl)
                  [("Market", market_count)]))).

(** ** Helpers to state properties of the listings *)

(** The entry of [finviz_headlines] for a row. *)
Definition headline_of_row (r : article_row) : headline :=
  {| h_title := title r; h_url := url r; h_date := publish_at r;
     has_content := match article_path r with Some _ => true | None => false end |}.

End FinvizExt.

(* ================================================================== *)
(** * arxiv-kb: LLM configuration and search *)
(* ================================================================== *)

Module ArxivExt.
Import Py Json ArxivKB.

(** ** [_get_llm_config] *)

(** Truthiness of a value read from JSON. *)
Definition json_truthy (v : json) : bool :=
  match v with
  | JNull => false
  | JBool b => b
  | JInt z => negb (z =? 0)
  | JFloat r => negb (String.eqb r "0.0" || String.eqb r "-0.0")
  | JStr s => truthy s
  | JArr l => match l with [] => false | _ => true end
  | JObj kv => match kv with [] => false | _ => true end
  end.

(** [needle in hay] on strings. *)
Fixpoint contains (needle hay : string) : bool :=
  String.prefix needle hay
  || match hay with
     | EmptyString => false
     | String _ r => contains needle r
     end.

(** What [for m in v] goes through; [None] when [v] is not iterable. *)
Definition iter_json (v : json) : option (list json) :=
  match v with
  | JArr l => Some l
  | JObj kv => Some (map (fun r => JStr (fst r)) (PyDict.of_members kv))
  | JStr s => Some (map (fun c => JStr (String c EmptyString)) (list_ascii_of_string s))
  | _ => None
  end.

(** The inner loop over the models of a provider.  [model] is the value
    of the variable so far; an exception ([m] is no dict, its id no
    string) leaves the loop with the variable as it is. *)
Fixpoint pick_model (ms : list json) (model : string) : string :=
  match ms with
  | [] => model
  | JObj kv :: r =>
      match default (JStr "") (assoc_last "id" kv) with
      | JStr mid =>
          if contains "sonnet" (lower mid) then mid else pick_model r mid
      | _ => model
      end
  | _ :: _ => model
  end.

(** The outer loop over [providers.items()], on the variables
    [(endpoint, model)]. *)
Fixpoint pick_provider (items : list (string * json)) (st : json * string)
    : json * string :=
  match items with
  | [] => st
  | (_, JObj kv) :: r =>
      let base := default (JStr "") (assoc_last "baseUrl" kv) in
      if json_truthy base then
        (base,
         match iter_json (default (JArr []) (assoc_last "models" kv)) with
         | Some ms => pick_model ms (snd st)
         | None => snd st
         end)
      else pick_provider r st
  | (_, _) :: _ => st
  end.

Definition default_endpoint : json := JStr "http://localhost:4000".
Definition default_model : string := "claude-sonnet-4-6".

(** The [try] block: [content] is the configuration file, [None] when it
    does not exist, [Some (Raise _)] when reading or parsing raises. *)
Definition discover (content : option (result json)) : json * string :=
  let st := (default_endpoint, default_model) in
  match content with
  | Some (Ok (JObj kv)) =>
      match default (JObj []) (assoc_last "models" kv) with
      | JObj mk =>
          match default (JObj []) (assoc_last "providers" mk) with
          | JObj pk => pick_provider (PyDict.of_members pk) st
          | _ => st
          end
      | _ => st
      end
  | _ => st
  end.

(** The module-level [_llm_cache]. *)
Record llm_cache : Type := {
  lc_ts : Z;
  lc_endpoint : json;
  lc_model : string
}.

Definition initial_llm_cache : llm_cache :=
  {| lc_ts := 0; lc_endpoint := JStr ""; lc_model := "" |}.

Section Clock.
(** [time.time()] counted in ticks, [tick] of them to the second. *)
Variable tick : Z.

(** [_get_llm_config]: the dict returned is the cache itself, so the
    function returns the cache it leaves. *)
Definition _get_llm_config (now : Z) (content : option (result json))
    (c : llm_cache) : llm_cache :=
  if (now - lc_ts c <? 300 * tick) && json_truthy (lc_endpoint c) then c
  else
    let '(endpoint, model) := discover content in
    {| lc_ts := now; lc_endpoint := endpoint; lc_model := model |}.
End Clock.

(** ** GET /search *)

Record text_hit : Type := {
  th_arxiv_id : string;
  th_title : string;
  th_published : string
}.

Inductive search_results : Type :=
| Semantic (hits : list json)
| Text (hits : list text_hit).

Record search_response : Type := {
  sr_count : Z;
  sr_results : search_results
}.

(** The [method] entry of the response. *)
Definition sr_method (r : search_response) : string :=
  match sr_results r with Semantic _ => "semantic" | Text _ => "text" end.



(** The WHERE clause of the text search. *)
Definition text_match (q : string) (r : paper_row) : bool :=
  let pat := "%" +:+ q +:+ "%" in
  SqlExt.like pat (title r)
  || match abstract r with Some a => SqlExt.like pat a | None => false end.


End ArxivExt.

(* ================================================================== *)
(** * openclaw_client: sending a message *)
(* ================================================================== *)

Module OpenClawExt.
Import Py Json OpenClaw.

(** The dict [payload]. *)
Definition payload (message : string) (room channel : option string)
    : list (string * string) :=
  [("message", message)]
  ++ (match room with
      | Some r => if truthy r then [("room", r)] else []
      | None => []
      end)
  ++ (match channel with
      | Some c => if truthy c then [("channel", c)] else []
      | None => []
      end).

Section Send.
Variable repr : json -> string.
(** [urllib.request.urlopen] on the request: the response status, or an
    exception. *)
Variable urlopen : string -> list (string * string) -> result Z.

Definition message_url (e : env) : string :=
  get_gateway_url repr e +:+ "/api/v1/message".

(** [send_message_sync]; [send_message] has the same body. *)
Definition send_message_sync (e : env) (message : string)
    (room channel : option string) : bool :=
  match urlopen (message_url e) (payload message room channel) with
  | Ok st => st =? 200
  | Raise _ => false
  end.
End Send.

End OpenClawExt.

(* ================================================================== *)
(** * Vocabulary of the further properties *)
(* ================================================================== *)

Module PropsExt.
Import Py.

(** A string without the given character. *)
Fixpoint free_of (ch : ascii) (s : string) : Prop :=
  match s with
  | EmptyString => True
  | String c r => c <> ch /\ free_of ch r
  end.

(** Equality of strings up to the case of ASCII letters. *)
Fixpoint ci_eq (a b : string) : Prop :=
  match a, b with
  | EmptyString, EmptyString => True
  | String c a', String d b' => lower_char c = lower_char d /\ ci_eq a' b'
  | _, _ => False
  end.

(** [n] slashes. *)
Fixpoint slashes (n : nat) : string :=
  match n with O => EmptyString | S k => String "/" (slashes k) end.

(** The characters of a string. *)
Definition chars (s : string) : list ascii := list_ascii_of_string s.

(** TEXT values in ascending order of SQLite's BINARY collation. *)
Definition ascending (l : list string) : Prop :=
  StronglySorted (fun a b => text_le a b = true) l.

(** The entry of [_get_articles_for_period] for a row. *)
Definition article_of_row (e : Finviz.env) (w : Finviz.world) (r : Finviz.article_row)
    : Finviz.article :=
  {| Finviz.a_title := Finviz.title r; Finviz.a_url := Finviz.url r;
     Finviz.a_date := Finviz.publish_at r;
     Finviz.a_content := slice_to 3000 <$> Finviz.read_article e w r |}.

(** The hexadecimal digits of a digest. *)
Definition hex_digits : list ascii := list_ascii_of_string "0123456789abcdef".

(** The id of an entry of a provider's model list, when the entry is a
    dict whose id is a string. *)
Definition model_id (m : Json.json) : option string :=
  match m with
  | Json.JObj kv =>
      match default (Json.JStr "") (Json.assoc_last "id" kv) with
      | Json.JStr s => Some s
      | _ => None
      end
  | _ => None
  end.

(** Whether a model id names a sonnet model. *)
Definition is_sonnet (i : string) : bool := ArxivExt.contains "sonnet" (lower i).

(** The [baseUrl] of a provider, when the provider is a dict. *)
Definition base_url (p : Json.json) : option Json.json :=
  match p with
  | Json.JObj kv => Some (default (Json.JStr "") (Json.assoc_last "baseUrl" kv))
  | _ => None
  end.

(** A provider the search passes over: a dict without a usable baseUrl. *)
Definition passed_over (p : Json.json) : Prop :=
  exists b, base_url p = Some b /\ ArxivExt.json_truthy b = false.


(** A pattern made of percent signs only. *)
Fixpoint only_percent (p : string) : Prop :=
  match p with
  | EmptyString => True
  | String c r => c = "%"%char /\ only_percent r
  end.



End PropsExt.

(* ================================================================== *)
(** * Further sample data *)
(* ================================================================== *)

Module SamplesExt.
Import Py.

(** The arxiv-kb settings of [Samples.kb_env] with an LLM endpoint that
    does not answer. *)
Definition kb_env_down : ArxivKB.env :=
  {| ArxivKB.data_dir := "/srv/kb";
     ArxivKB.language_rows := Some [Some " German "];
     ArxivKB.llm_content := fun _ _ => None |}.

(** Providers of an openclaw.json: one without [baseUrl], then two with. *)
Definition provider_bare : string * Json.json := ("local", Json.JObj []).

Definition provider_llm : Json.json :=
  Json.JObj [("baseUrl", Json.JStr "http://llm.example:4000")].

Definition provider_other : string * Json.json :=
  ("other", Json.JObj [("baseUrl", Json.JStr "http://other.example")]).

(** The model list of a provider. *)
Definition model_list : list Json.json :=
  [ Json.JObj [("id", Json.JStr "gpt-4o")];
    Json.JObj [("id", Json.JStr "Claude-Sonnet-4")];
    Json.JObj [("id", Json.JStr "claude-haiku")] ].


(** A gateway that accepts messages at the URL of [Samples.env_url]. *)
Definition urlopen_gw (u : string) (body : list (string * string)) : result Z :=
  if String.eqb u "http://gw.example:8080/api/v1/message" then Ok 200
  else Raise (Exception "connection refused").

(** A request body whose only symbol is the reserved name. *)
Definition market_body : option (list Finviz.ticker_item) :=
  Some [ {| Finviz.ti_symbol := Some " market "; Finviz.ti_keywords := None |} ].

End SamplesExt.

(* ================================================================== *)
(** * The library models run on known values *)
(* ================================================================== *)

Module Checks.
Import Py DateTime.

(** The test suite of RFC 1321. *)
Example md5_rfc1321 :
  MD5.hexdigest "" = "d41d8cd98f00b204e9800998ecf8427e" /\
  MD5.hexdigest "a" = "0cc175b9c0f1b6a831c399e269772661" /\
  MD5.hexdigest "abc" = "900150983cd24fb0d6963f7d28e17f72" /\
  MD5.hexdigest "message digest" = "f96b697d7cb7938d525a2f31aaf161d0" /\
  MD5.hexdigest "abcdefghijklmnopqrstuvwxyz" = "c3fcd3d76192e4007dfb496cca67e13b".
Proof. vm_compute. repeat split. Qed.

(** ISO weeks around the turn of a year: 2024-12-30 already belongs to
    week 1, 2021-01-01 still to week 53. *)
Example isoweek_samples :
  isoweek (mk_datetime 2024 12 30 0 0 0 0) = 1 /\
  isoweek (mk_datetime 2024 1 1 0 0 0 0) = 1 /\
  isoweek (mk_datetime 2021 1 1 0 0 0 0) = 53 /\
  isoweek (mk_datetime 2026 11 4 0 0 0 0) = 45.
Proof. vm_compute. repeat split. Qed.

Example cutoff_samples :
  isoformat (sub_hours (mk_datetime 2024 3 1 5 0 0 123) 720)
    = "2024-01-31T05:00:00.000123+00:00" /\
  isoformat (sub_hours (mk_datetime 2024 1 1 0 0 0 0) 1)
    = "2023-12-31T23:00:00+00:00".
Proof. vm_compute. repeat split. Qed.

Example strip_upper_samples :
  upper (strip "  nvda ") = "NVDA" /\
  split "," "a,,b" = ["a"; ""; "b"] /\
  rstrip_char "/" "http://h:1//" = "http://h:1" /\
  path_join "/data" ["pdfs"; "x.pdf"] = "/data/pdfs/x.pdf".
Proof. vm_compute. repeat split. Qed.

End Checks.

(* ================================================================== *)
(** * Facts about the Python primitives *)
(* ================================================================== *)

Module PyFacts.
Import Py.

Lemma truthy_true (s : string) : truthy s = true <-> s <> "".
Proof. destruct s; simpl; split; congruence. Qed.

Lemma truthy_false (s : string) : truthy s = false <-> s = "".
Proof. destruct s; simpl; split; congruence. Qed.













Lemma slice_to_length (n : nat) (s : string) :
  (n <= String.length s)%nat -> String.length (slice_to n s) = n.
Proof.
  revert s. induction n as [|n IH]; intros [|c s]; simpl; intros H;
    try reflexivity; try lia.
  f_equal. apply IH. lia.
Qed.

End PyFacts.

(* ================================================================== *)
(** * Tickers: POST /tickers and DELETE /tickers *)
(* ================================================================== *)

Module TickerFacts.
Import Py Finviz Props PyFacts.



Lemma add_one_cases (now : DateTime.datetime) (tbl : gmap string ticker_row)
    (added : list string) (t : ticker_item) :
  (accepted [t] = [] /\ add_one now (tbl, added) t = (tbl, added)) \/
  (accepted [t] = [normalise t] /\
   exists row, add_one now (tbl, added) t =
               (<[normalise t := row]> tbl, added ++ [normalise t])).
Proof.
  unfold accepted, add_one, normalise. simpl.
  destruct (truthy _) eqn:E1; simpl.
  - destruct (String.eqb _ "MARKET") eqn:E2; simpl; [left; auto|].
    right. split; [reflexivity|]. eexists. reflexivity.
  - left; auto.
Qed.

Lemma accepted_cons (t : ticker_item) (ts : list ticker_item) :
  accepted (t :: ts) = accepted [t] ++ accepted ts.
Proof.
  unfold accepted. simpl.
  destruct (truthy _ && negb _); reflexivity.
Qed.

(** What the loop of [add_tickers] leaves behind. *)
Lemma add_loop_spec (clock : nat -> DateTime.datetime) (ts : list ticker_item) :
  forall (i : nat) (tbl : gmap string ticker_row) (added : list string),
    snd (add_loop clock i (tbl, added) ts) = added ++ accepted ts /\
    (forall sym, In sym (accepted ts) ->
                 is_Some (fst (add_loop clock i (tbl, added) ts) !! sym)) /\
    (forall sym, ~ In sym (accepted ts) ->
                 fst (add_loop clock i (tbl, added) ts) !! sym = tbl !! sym).
Proof.
  induction ts as [|t ts IH]; intros i tbl added.
  - simpl. rewrite app_nil_r. split; [reflexivity|]. split; [intros ? []|reflexivity].
  - cbn [add_loop]. rewrite accepted_cons.
    destruct (add_one_cases (clock i) tbl added t) as [[Ea ->]|[Ea [row ->]]];
      rewrite Ea; specialize (IH (S i)).
    + exact (IH tbl added).
    + destruct (IH (<[normalise t := row]> tbl) (added ++ [normalise t]))
        as (H1 & H2 & H3).
      split; [|split].
      * rewrite H1, <- app_assoc. reflexivity.
      * intros sym [<-|Hin]; [|now apply H2].
        destruct (in_dec string_dec (normalise t) (accepted ts)) as [Hin|Hnin];
          [now apply H2|].
        rewrite H3 by assumption. rewrite lookup_insert_eq. eauto.
      * intros sym Hn. simpl in Hn.
        rewrite H3 by tauto. apply lookup_insert_ne. tauto.
Qed.



Lemma add_tickers_unfold (clock : nat -> DateTime.datetime)
    (data : option (list ticker_item)) (w : world) :
  add_tickers clock data w =
  match default [] data with
  | [] => (Raise (HTTPException 400 "No tickers provided"), w)
  | _ =>
      (Ok {| add_ok := true;
             added := snd (add_loop clock 0 (tickers w, []) (default [] data)) |},
       set_tickers (fst (add_loop clock 0 (tickers w, []) (default [] data))) w)
  end.
Proof.
  unfold add_tickers. destruct (default [] data) as [|t ts]; [reflexivity|].
  destruct (add_loop clock 0 (tickers w, []) (t :: ts)). reflexivity.
Qed.

End TickerFacts.


(* ================================================================== *)
(** * The summary cache *)
(* ================================================================== *)

Module CacheFacts.
Import Py DateTime Finviz Props PyFacts.

Lemma hex_word_length (w : Z) (k : string) :
  String.length (MD5.hex_word w k) = (8 + String.length k)%nat.
Proof. reflexivity. Qed.

(** A digest always prints as 32 hexadecimal digits. *)
Lemma hexdigest_length (s : string) : String.length (MD5.hexdigest s) = 32%nat.
Proof.
  unfold MD5.hexdigest. destruct (MD5.digest _) as [[[a b] c] d].
  rewrite !hex_word_length. reflexivity.
Qed.

Lemma cache_key_length (now : datetime) (period language topic : string) :
  String.length (_cache_key now period language topic) = 12%nat.
Proof.
  unfold _cache_key. apply slice_to_length. rewrite hexdigest_length. lia.
Qed.

Lemma same_date_strftime (t1 t2 : datetime) :
  same_date t1 t2 -> strftime_ymd t1 = strftime_ymd t2.
Proof. intros (Hy & Hm & Hd). unfold strftime_ymd. now rewrite Hy, Hm, Hd. Qed.

(** The bucket text is a function of the bucket of the description. *)
Lemma same_bucket_text (period : string) (t1 t2 : datetime) :
  same_bucket period t1 t2 -> bucket period t1 = bucket period t2.
Proof.
  unfold same_bucket, bucket.
  destruct (String.eqb period "weekly").
  - intros [-> ->]. reflexivity.
  - destruct (String.eqb period "24h"); intros [Hd ->];
      now rewrite (same_date_strftime _ _ Hd).
Qed.

Lemma same_bucket_key (period language topic : string) (t1 t2 : datetime) :
  same_bucket period t1 t2 ->
  _cache_key t1 period language topic = _cache_key t2 period language topic.
Proof. intros H. unfold _cache_key. now rewrite (same_bucket_text _ _ _ H). Qed.

Lemma get_after_save (t : datetime) (w : world)
    (period language summary : string) (n : Z) (topic : string) :
  _get_cached_summary t
    (snd (_save_cached_summary t w period language summary n topic))
    period language topic
  = Some (fst (_save_cached_summary t w period language summary n topic)).
Proof.
  unfold _get_cached_summary, _save_cached_summary. simpl.
  now rewrite lookup_insert_eq.
Qed.

Lemma save_generating (t : datetime) (w : world)
    (period language summary : string) (n : Z) (topic : string) :
  _generating (snd (_save_cached_summary t w period language summary n topic))
  = _generating w.
Proof. reflexivity. Qed.

(** Every path through [try]/[except] ends in exactly one save. *)
Lemma generate_body_saves (e : env) (t_fetch t_save : datetime) (w : world)
    (period language topic : string) :
  generate_body e t_fetch t_save w period language topic =
  let '(summary, n) :=
    expected_summary topic
      (_get_articles_for_period e w t_fetch (_period_to_hours period) topic 200)
      (llm_reply e) in
  snd (_save_cached_summary t_save w period language summary n topic).
Proof.
  unfold generate_body, generate_try, expected_summary.
  destruct (_get_articles_for_period _ _ _ _ _ _) as [[|a arts]|ex]; simpl;
    try reflexivity.
  destruct (llm_reply e); reflexivity.
Qed.

End CacheFacts.

(** C2. The summary cache key is periodic.  Two clock readings in the same
    bucket of a period (year and ISO week for "weekly", date and hour//6
    for "24h", date and hour//3 otherwise) give the same key for the same
    period, language and topic; the key has 12 characters; and a summary
    saved at one reading is what [_get_cached_summary] returns at any
    other reading of the bucket. *)
Theorem cache_key_periodic :
  forall (period language topic : string) (t1 t2 : DateTime.datetime),
    Props.same_bucket period t1 t2 ->
    Finviz._cache_key t1 period language topic
      = Finviz._cache_key t2 period language topic /\
    String.length (Finviz._cache_key t1 period language topic) = 12%nat /\
    (forall (w : Finviz.world) (summary : string) (n : Z),
        Finviz._get_cached_summary t2
          (snd (Finviz._save_cached_summary t1 w period language summary n topic))
          period language topic
        = Some (fst (Finviz._save_cached_summary t1 w period language summary n topic))).
Proof.
  intros period language topic t1 t2 H.
  pose proof (CacheFacts.same_bucket_key period language topic t1 t2 H) as Hk.
  split; [exact Hk|]. split; [apply CacheFacts.cache_key_length|].
  intros w summary n.
  rewrite <- (CacheFacts.get_after_save t1 w period language summary n topic).
  unfold Finviz._get_cached_summary. now rewrite Hk.
Qed.

(** C3. [_do_generate] always caches a result and always releases the
    guard.  Whatever the database, the files and the LLM answer, the world
    it leaves has no entry for the key in [_generating], and the cache
    file of the current bucket holds the LLM summary with the number of
    fetched articles on success, the "No articles found" message with
    count 0 when no article matches, and "Error: ..." with count 0 when
    the fetch or the LLM call raises. *)
Theorem do_generate_caches_and_releases :
  forall (e : Finviz.env) (t_fetch t_save : DateTime.datetime) (w : Finviz.world)
         (period language topic : string),
    let w' := Finviz._do_generate e t_fetch t_save w period language topic in
    let fetched :=
      Finviz._get_articles_for_period e w t_fetch
        (Finviz._period_to_hours period) topic 200 in
    Finviz._generating w' !! Finviz.generating_key period language topic = None /\
    Finviz.cache w'
      !! Finviz.cache_file_name (Finviz._cache_key t_save period language topic)
    = Some (Finviz.Doc
              {| Finviz.sd_period := period; Finviz.sd_language := language;
                 Finviz.sd_topic := topic;
                 Finviz.sd_summary :=
                   fst (Props.expected_summary topic fetched (Finviz.llm_reply e));
                 Finviz.sd_article_count :=
                   snd (Props.expected_summary topic fetched (Finviz.llm_reply e));
                 Finviz.sd_generated_at := DateTime.isoformat t_save |}).
Proof.
  intros e t_fetch t_save w period language topic. cbv zeta.
  unfold Finviz._do_generate. rewrite CacheFacts.generate_body_saves.
  destruct (Props.expected_summary _ _ _) as [summary n]. simpl.
  split; [apply lookup_delete_eq | apply lookup_insert_eq].
Qed.

(* ================================================================== *)
(** * SQL fragments: ORDER BY ... DESC and LIMIT *)
(* ================================================================== *)

Module SqlFacts.
Import Py Props.

Lemma text_le_iff (a b : string) :
  text_le a b = true <-> a = b \/ String_as_OT.lt a b.
Proof.
  unfold text_le, String.leb.
  destruct (String.compare a b) eqn:E; split; intros H; try reflexivity.
  - left. now apply String_as_OT.cmp_eq.
  - right. now apply String_as_OT.cmp_lt.
  - discriminate.
  - destruct H as [H|H].
    + apply String_as_OT.cmp_eq in H. unfold String_as_OT.cmp in H. congruence.
    + apply String_as_OT.cmp_lt in H. unfold String_as_OT.cmp in H. congruence.
Qed.

Lemma text_le_trans (a b c : string) :
  text_le a b = true -> text_le b c = true -> text_le a c = true.
Proof.
  rewrite !text_le_iff. intros [->|H1] [->|H2]; auto.
  right. eapply String_as_OT.lt_trans; eassumption.
Qed.

Lemma text_le_total (a b : string) : text_le a b = false -> text_le b a = true.
Proof.
  intros H. destruct (String.leb_total a b) as [H'|H']; [|exact H'].
  unfold text_le in H. congruence.
Qed.

Section Limit.
Context {A : Type}.

Lemma firstn_In (n : nat) (l : list A) (x : A) : In x (firstn n l) -> In x l.
Proof.
  revert l. induction n as [|n IH]; intros [|y l]; simpl; try tauto.
  intros [->|H]; [now left | right; now apply IH].
Qed.

Lemma firstn_sorted (R : A -> A -> Prop) (n : nat) (l : list A) :
  StronglySorted R l -> StronglySorted R (firstn n l).
Proof.
  intros H. revert n. induction H as [|x l Hs IH Hx]; intros [|n]; simpl;
    try constructor; [apply IH|].
  rewrite List.Forall_forall in Hx |- *. intros y Hy. apply Hx.
  eapply firstn_In; eassumption.
Qed.

Lemma limit_sorted (R : A -> A -> Prop) (n : Z) (l : list A) :
  StronglySorted R l -> StronglySorted R (Sql.limit n l).
Proof. unfold Sql.limit. destruct (n <? 0); [auto | apply firstn_sorted]. Qed.

Lemma limit_In (n : Z) (l : list A) (x : A) : In x (Sql.limit n l) -> In x l.
Proof. unfold Sql.limit. destruct (n <? 0); [auto | apply firstn_In]. Qed.

Lemma limit_length (n : Z) (l : list A) :
  0 <= n -> Z.of_nat (List.length (Sql.limit n l)) <= n.
Proof.
  intros H. unfold Sql.limit. destruct (n <? 0) eqn:E; [lia|].
  rewrite length_firstn. lia.
Qed.

End Limit.

Section Rows.
Context {A : Type} (key : A -> string).

Lemma insert_desc_In (x y : A) (l : list A) :
  In y (Sql.insert_desc key x l) <-> y = x \/ In y l.
Proof.
  induction l as [|z l IH]; simpl; [intuition|].
  destruct (text_le (key z) (key x)); simpl; [intuition|].
  rewrite IH. intuition.
Qed.

Lemma order_by_desc_In (y : A) (l : list A) :
  In y (Sql.order_by_desc key l) <-> In y l.
Proof.
  induction l as [|x l IH]; simpl; [reflexivity|].
  rewrite insert_desc_In, IH. intuition.
Qed.

Lemma insert_desc_length (x : A) (l : list A) :
  List.length (Sql.insert_desc key x l) = S (List.length l).
Proof.
  induction l as [|z l IH]; simpl; [reflexivity|].
  destruct (text_le (key z) (key x)); simpl; congruence.
Qed.

Lemma order_by_desc_length (l : list A) :
  List.length (Sql.order_by_desc key l) = List.length l.
Proof.
  induction l as [|x l IH]; simpl; [reflexivity|].
  now rewrite insert_desc_length, IH.
Qed.

Lemma insert_desc_sorted (x : A) (l : list A) :
  StronglySorted (Props.above key) l -> StronglySorted (Props.above key) (Sql.insert_desc key x l).
Proof.
  induction 1 as [|z l Hs IH Hz]; simpl.
  - constructor; constructor.
  - destruct (text_le (key z) (key x)) eqn:E.
    + constructor; [now constructor|].
      constructor; [exact E|].
      rewrite List.Forall_forall in Hz |- *. intros y Hy.
      unfold Props.above in *. eapply text_le_trans; [apply (Hz y Hy) | exact E].
    + constructor; [exact IH|].
      rewrite List.Forall_forall in Hz |- *. intros y Hy.
      apply insert_desc_In in Hy as [->|Hy]; [|now apply Hz].
      now apply text_le_total.
Qed.

Lemma order_by_desc_sorted (l : list A) :
  StronglySorted (Props.above key) (Sql.order_by_desc key l).
Proof.
  induction l as [|x l IH]; simpl; [constructor | now apply insert_desc_sorted].
Qed.

Lemma sorted_map_key (l : list A) :
  StronglySorted (Props.above key) l -> descending (map key l).
Proof.
  unfold descending. induction 1 as [|x l Hs IH Hx]; simpl; constructor; [exact IH|].
  rewrite List.Forall_forall in Hx |- *. intros k Hk.
  apply in_map_iff in Hk as [y [<- Hy]]. now apply Hx.
Qed.
End Rows.

End SqlFacts.

(** C5. GET /headlines is filtered and paginated.  With hours in [1,720],
    limit in [1,500] and the database in place, the endpoint answers with
    at most [limit] headlines; the [publish_at] of each is at or after the
    ISO text of the current UTC time minus [hours] in SQLite's TEXT
    order; the headlines come in descending [publish_at]; [count] is their
    number; and each headline is a row of the table. *)
Theorem headlines_filtered_paginated :
  forall (now : DateTime.datetime) (w : Finviz.world)
         (rows : list Finviz.article_row) (hours limit : Z),
    1 <= hours <= 720 -> 1 <= limit <= 500 ->
    Finviz.db w = Some rows ->
    exists resp,
      Finviz.finviz_headlines now w hours limit = Py.Ok resp /\
      Z.of_nat (List.length (Finviz.headlines resp)) <= limit /\
      Forall (fun h => Py.text_le (DateTime.isoformat (DateTime.sub_hours now hours))
                                  (Finviz.h_date h) = true)
             (Finviz.headlines resp) /\
      Props.descending (map Finviz.h_date (Finviz.headlines resp)) /\
      Finviz.count resp = Z.of_nat (List.length (Finviz.headlines resp)) /\
      (forall h, In h (Finviz.headlines resp) ->
         exists r, In r rows /\ Finviz.h_title h = Finviz.title r /\
                   Finviz.h_url h = Finviz.url r /\
                   Finviz.h_date h = Finviz.publish_at r).
Proof.
  intros now w rows hours limit Hh Hl Hdb.
  unfold Finviz.finviz_headlines, Finviz.query_int, Finviz._db_conn.
  replace ((1 <=? hours) && (hours <=? 720)) with true by lia.
  replace ((1 <=? limit) && (limit <=? 500)) with true by lia.
  rewrite Hdb. cbn [Py.bind]. unfold Finviz.cutoff.
  set (cut := DateTime.isoformat (DateTime.sub_hours now hours)).
  set (sel := Sql.limit limit _).
  assert (Hin : forall r, In r sel ->
            In r rows /\ Py.text_le cut (Finviz.publish_at r) = true).
  { intros r Hr. apply SqlFacts.limit_In in Hr.
    apply SqlFacts.order_by_desc_In in Hr. apply List.filter_In in Hr. exact Hr. }
  eexists. split; [reflexivity|]. cbn [Finviz.headlines Finviz.count].
  rewrite length_map, map_map. cbn [Finviz.h_date].
  split; [apply SqlFacts.limit_length; clear - Hl; lia|].
  split; [|split; [|split; [reflexivity|]]].
  - apply List.Forall_forall. intros h Hh'. apply in_map_iff in Hh' as [r [<- Hr]].
    cbn [Finviz.h_date]. apply (Hin r Hr).
  - apply SqlFacts.sorted_map_key. apply SqlFacts.limit_sorted.
    apply SqlFacts.order_by_desc_sorted.
  - intros h Hh'. apply in_map_iff in Hh' as [r [<- Hr]].
    exists r. split; [apply (Hin r Hr) | repeat split].
Qed.

(* ================================================================== *)
(** * GET /summary/{period}: validation of the period *)
(* ================================================================== *)

Module SummaryFacts.
Import Py DateTime Finviz Props PyFacts.

Lemma valid_period_iff (period : string) :
  valid_period period = true <->
  period = "12h" \/ period = "24h" \/ period = "weekly".
Proof.
  unfold valid_period. rewrite !orb_true_iff, !String.eqb_eq. tauto.
Qed.

Lemma summary_invalid (e : env) (now : datetime) (w : world)
    (period : string) (regenerate : Z) (topic : string) :
  valid_period period = false ->
  finviz_summary e now w period regenerate topic =
  (Raise (HTTPException 400 "Period must be 12h, 24h, or weekly"), w, None).
Proof. intros H. unfold finviz_summary. now rewrite H. Qed.

(** For an accepted period the handler always answers. *)
Lemma summary_valid_ok (e : env) (now : datetime) (w : world)
    (period : string) (regenerate : Z) (topic : string) :
  valid_period period = true ->
  exists resp, fst (fst (finviz_summary e now w period regenerate topic)) = Ok resp.
Proof.
  intros H. unfold finviz_summary. rewrite H. cbn [negb].
  destruct (_get_cached_summary _ _ _ _ _) as [d|];
    destruct (regenerate =? 0); try (eexists; reflexivity);
    destruct (is_generating _ _); eexists; reflexivity.
Qed.

Lemma period_filter_cut (cut topic : string) (r : article_row) :
  period_filter cut topic r = true -> text_le cut (publish_at r) = true.
Proof.
  unfold period_filter. destruct (text_le cut (publish_at r)); [reflexivity|].
  intros H. discriminate H.
Qed.

(** Articles selected for a window of [hours] are not older than it. *)
Lemma articles_within_window (e : env) (w : world) (now : datetime)
    (hours : Z) (topic : string) (limit : Z) (arts : list article) :
  _get_articles_for_period e w now hours topic limit = Ok arts ->
  Forall (fun a => text_le (cutoff now hours) (a_date a) = true) arts.
Proof.
  unfold _get_articles_for_period, _db_conn.
  destruct (db w) as [tbl|]; [|discriminate]. cbn [bind].
  intros [= <-]. apply List.Forall_forall. intros a Ha.
  apply in_map_iff in Ha as [r [<- Hr]]. cbn [a_date].
  apply SqlFacts.limit_In in Hr. apply SqlFacts.order_by_desc_In in Hr.
  apply List.filter_In in Hr. destruct Hr as [_ Hr].
  exact (period_filter_cut _ _ _ Hr).
Qed.

End SummaryFacts.

(** C8. GET /summary/{period} raises HTTP 400 exactly when the period is
    none of "12h", "24h", "weekly" (and answers otherwise); the look-back
    window of the accepted periods is 12, 24 and 168 hours, and the
    articles a generation selects were published at or after the clock
    reading minus that window. *)
Theorem summary_period_validation :
  (forall (e : Finviz.env) (now : DateTime.datetime) (w : Finviz.world)
          (period : string) (regenerate : Z) (topic : string),
      ((exists detail,
          fst (fst (Finviz.finviz_summary e now w period regenerate topic))
          = Py.Raise (Py.HTTPException 400 detail))
       <-> ~ (period = "12h" \/ period = "24h" \/ period = "weekly")) /\
      ((exists resp,
          fst (fst (Finviz.finviz_summary e now w period regenerate topic))
          = Py.Ok resp)
       <-> (period = "12h" \/ period = "24h" \/ period = "weekly"))) /\
  Finviz._period_to_hours "12h" = 12 /\
  Finviz._period_to_hours "24h" = 24 /\
  Finviz._period_to_hours "weekly" = 168 /\
  (forall (e : Finviz.env) (w : Finviz.world) (now : DateTime.datetime)
          (period topic : string) (arts : list Finviz.article),
      Finviz._get_articles_for_period e w now
        (Finviz._period_to_hours period) topic 200 = Py.Ok arts ->
      Forall (fun a =>
                Py.text_le (Finviz.cutoff now (Finviz._period_to_hours period))
                           (Finviz.a_date a) = true) arts).
Proof.
  split; [|split; [reflexivity|split; [reflexivity|split; [reflexivity|]]]].
  - intros e now w period regenerate topic.
    rewrite <- SummaryFacts.valid_period_iff.
    destruct (Finviz.valid_period period) eqn:Hv.
    + destruct (SummaryFacts.summary_valid_ok e now w period regenerate topic Hv)
        as [resp Hr].
      split; split.
      * intros [d Hd]. rewrite Hr in Hd. discriminate.
      * intros H. now contradiction H.
      * reflexivity.
      * intros _. eauto.
    + rewrite (SummaryFacts.summary_invalid _ _ _ _ _ _ Hv). cbn [fst].
      split; split.
      * intros _. discriminate.
      * intros _. eauto.
      * intros [resp Hr]. discriminate.
      * discriminate.
  - intros e w now period topic arts H.
    exact (SummaryFacts.articles_within_window _ _ _ _ _ _ _ H).
Qed.

(* ================================================================== *)
(** * The paper endpoints of the Science KB *)
(* ================================================================== *)

Module PaperFacts.
Import Py ArxivKB PyFacts.

Lemma fetchone_filter_none {A : Type} (f : A -> bool) (l : list A) :
  (forall x, In x l -> f x = false) -> Sql.fetchone (List.filter f l) = None.
Proof.
  induction l as [|x l IH]; intros H; simpl; [reflexivity|].
  rewrite (H x (or_introl eq_refl)). apply IH. intros y Hy. apply H. now right.
Qed.


Lemma find_paper_absent (d : database) (aid : string) :
  (forall r, In r (papers d) -> arxiv_id r <> aid) -> find_paper d aid = None.
Proof.
  intros H. apply fetchone_filter_none. intros r Hr.
  apply String.eqb_neq. now apply H.
Qed.


Lemma find_paper_insert (d : database) (r : translation_row) (aid : string) :
  find_paper (insert_translation d r) aid = find_paper d aid.
Proof. reflexivity. Qed.

End PaperFacts.

(** C9. The two paper endpoints differ on a missing paper.  When no row
    of [papers] has the requested arxiv_id, GET /paper/{arxiv_id} raises
    HTTP 404 "Paper not found", while GET /paper/{arxiv_id}/translate
    answers normally with [translated] null.  The translate endpoint
    answers the same, leaving the database alone and sending nothing to
    the LLM, when the paper has no abstract (NULL or empty) or when no
    target language is configured. *)
Theorem missing_paper_behaviour :
  (forall (e : ArxivKB.env) (w : ArxivKB.world) (d : ArxivKB.database) (aid : string),
      ArxivKB.db w = Some d ->
      (forall r, In r (ArxivKB.papers d) -> ArxivKB.arxiv_id r <> aid) ->
      ArxivKB.science_paper e w aid
        = Py.Raise (Py.HTTPException 404 "Paper not found") /\
      ArxivKB.science_paper_translate e w aid
        = (Py.Ok {| ArxivKB.translated := None; ArxivKB.tr_language := None |}, w, [])) /\
  (forall (e : ArxivKB.env) (w : ArxivKB.world) (d : ArxivKB.database) (aid : string)
          (row : ArxivKB.paper_row),
      ArxivKB.db w = Some d ->
      ArxivKB.find_paper d aid = Some row ->
      ArxivKB.abstract row = None \/ ArxivKB.abstract row = Some "" \/
      ArxivKB._get_translate_language e = "" ->
      ArxivKB.science_paper_translate e w aid
        = (Py.Ok {| ArxivKB.translated := None; ArxivKB.tr_language := None |}, w, [])).
Proof.
  split.
  - intros e w d aid Hdb Habs.
    pose proof (PaperFacts.find_paper_absent d aid Habs) as Hf.
    unfold ArxivKB.science_paper, ArxivKB.science_paper_translate, ArxivKB._db_conn.
    rewrite Hdb. cbn [Py.bind]. rewrite Hf. split; reflexivity.
  - intros e w d aid row Hdb Hf H.
    unfold ArxivKB.science_paper_translate, ArxivKB._db_conn.
    rewrite Hdb, Hf.
    destruct H as [H|[H|H]].
    + rewrite H. reflexivity.
    + rewrite H. reflexivity.
    + destruct (negb (Py.truthy_opt (ArxivKB.abstract row))); [reflexivity|].
      rewrite H. reflexivity.
Qed.

(* ================================================================== *)
(** * Static files: GET /pdf/{arxiv_id} and GET /article *)
(* ================================================================== *)

Module FileFacts.
Import Py PyFacts.

Lemma append_pdfs (x : string) :
  truthy (x +:+ "pdfs") = true /\ endswith_char "/" (x +:+ "pdfs") = false.
Proof.
  induction x as [|c x [IH1 IH2]]; [split; reflexivity|].
  split; [reflexivity|].
  change (String c x +:+ "pdfs") with (String c (x +:+ "pdfs")).
  destruct (x +:+ "pdfs") as [|d r] eqn:E; [discriminate IH1|].
  exact IH2.
Qed.

Lemma append_assoc (a b c : string) : (a +:+ b) +:+ c = a +:+ (b +:+ c).
Proof.
  induction a as [|x a IH]; [reflexivity|].
  change (String x ((a +:+ b) +:+ c) = String x (a +:+ (b +:+ c))).
  now rewrite IH.
Qed.

(** The joined path is the plain concatenation for a data directory
    without a trailing slash and an identifier without a leading one. *)
Lemma pdf_path_literal (e : ArxivKB.env) (aid : string) :
  truthy (ArxivKB.data_dir e) = true ->
  endswith_char "/" (ArxivKB.data_dir e) = false ->
  startswith_char "/" aid = false ->
  ArxivKB._pdf_path e aid = ArxivKB.data_dir e +:+ "/pdfs/" +:+ aid +:+ ".pdf".
Proof.
  intros H1 H2 H3.
  unfold ArxivKB._pdf_path, ArxivKB._get_data_dir, path_join. cbn [fold_left].
  assert (E1 : path_join2 (ArxivKB.data_dir e) "pdfs"
               = (ArxivKB.data_dir e +:+ "/") +:+ "pdfs").
  { unfold path_join2. cbn [startswith_char Ascii.eqb Bool.eqb].
    rewrite H1, H2. cbn [negb orb]. now rewrite append_assoc. }
  rewrite E1. unfold path_join2.
  destruct (append_pdfs (ArxivKB.data_dir e +:+ "/")) as [T1 T2].
  rewrite T1, T2. cbn [negb orb].
  replace (startswith_char "/" (aid +:+ ".pdf")) with false
    by (destruct aid; [reflexivity | symmetry; exact H3]).
  rewrite !append_assoc. reflexivity.
Qed.

Lemma exists_file_iff (w : ArxivKB.world) (p : string) :
  ArxivKB.exists_file w p = true <-> is_Some (ArxivKB.files w !! p).
Proof.
  unfold ArxivKB.exists_file. destruct (ArxivKB.files w !! p); split;
    intros H; try reflexivity; try discriminate; eauto.
  destruct H as [? H]. discriminate H.
Qed.

End FileFacts.

(** C6. Static file serving.  GET /pdf/{arxiv_id} answers with the file
    [os.path.join(data_dir, "pdfs", arxiv_id + ".pdf")] and media type
    application/pdf when that file exists and raises HTTP 404 "PDF not
    found" when it does not; the path is [{data_dir}/pdfs/{arxiv_id}.pdf]
    for a data directory without trailing slash and an identifier
    without leading slash.  GET /article, for a stored article, returns
    the text of the file at [article_path] under the articles directory
    as [content] when that file exists, and [content] null when the path
    is NULL or empty or the file is missing. *)
Theorem static_files_served :
  (forall (e : ArxivKB.env) (w : ArxivKB.world) (aid : string),
      (is_Some (ArxivKB.files w !! ArxivKB._pdf_path e aid) ->
       exists resp,
         ArxivKB.science_pdf e w aid = Py.Ok resp /\
         ArxivKB.fr_path resp = ArxivKB._pdf_path e aid /\
         ArxivKB.fr_media_type resp = "application/pdf") /\
      (ArxivKB.files w !! ArxivKB._pdf_path e aid = None ->
       ArxivKB.science_pdf e w aid
         = Py.Raise (Py.HTTPException 404 "PDF not found")) /\
      (Py.truthy (ArxivKB.data_dir e) = true ->
       Py.endswith_char "/" (ArxivKB.data_dir e) = false ->
       Py.startswith_char "/" aid = false ->
       ArxivKB._pdf_path e aid
         = ArxivKB.data_dir e +:+ "/pdfs/" +:+ aid +:+ ".pdf")) /\
  (forall (e : Finviz.env) (w : Finviz.world) (rows : list Finviz.article_row)
          (u : string) (row : Finviz.article_row),
      Finviz.db w = Some rows ->
      Sql.fetchone (List.filter (fun r => String.eqb (Finviz.url r) u) rows) = Some row ->
      exists resp,
        Finviz.finviz_article e w u = Py.Ok resp /\
        Finviz.ar_title resp = Finviz.title row /\
        Finviz.ar_url resp = Finviz.url row /\
        Finviz.ar_date resp = Finviz.publish_at row /\
        (forall p text,
            Finviz.article_path row = Some p -> p <> "" ->
            Finviz.files w !! Py.path_join (Finviz.articles_dir e) [p] = Some text ->
            Finviz.ar_content resp = Some text) /\
        (Finviz.article_path row = None \/ Finviz.article_path row = Some "" ->
         Finviz.ar_content resp = None) /\
        (forall p,
            Finviz.article_path row = Some p ->
            Finviz.files w !! Py.path_join (Finviz.articles_dir e) [p] = None ->
            Finviz.ar_content resp = None)).
Proof.
  split.
  - intros e w aid. unfold ArxivKB.science_pdf. split; [|split].
    + intros H. apply FileFacts.exists_file_iff in H. rewrite H. cbn [negb].
      eexists. split; [reflexivity|]. split; reflexivity.
    + intros H. unfold ArxivKB.exists_file. rewrite H. reflexivity.
    + apply FileFacts.pdf_path_literal.
  - intros e w rows u row Hdb Hrow.
    unfold Finviz.finviz_article, Finviz._db_conn. rewrite Hdb. cbn [Py.bind].
    rewrite Hrow. eexists. split; [reflexivity|].
    cbn [Finviz.ar_title Finviz.ar_url Finviz.ar_date Finviz.ar_content].
    split; [reflexivity|]. split; [reflexivity|]. split; [reflexivity|].
    unfold Finviz.read_article. split; [|split].
    + intros p text Hp Hne Hf. rewrite Hp.
      apply PyFacts.truthy_true in Hne. rewrite Hne. exact Hf.
    + intros [H|H]; rewrite H; reflexivity.
    + intros p Hp Hf. rewrite Hp. destruct (Py.truthy p); [exact Hf | reflexivity].
Qed.


(* ================================================================== *)
(** * Discovery of the gateway URL *)
(* ================================================================== *)

Module GatewayFacts.
Import Py Json OpenClaw Props.

Section Discovery.
Variable repr : json -> string.

Lemma url_of_well_shaped (cfg : json) :
  well_shaped cfg -> url_of_config repr cfg = Ok (config_url repr cfg).
Proof.
  unfold well_shaped, url_of_config, config_url, gateway_entry, dict_get.
  destruct cfg as [| | | | | |kv]; try contradiction.
  cbn [bind]. destruct (assoc_last "gateway" kv) as [[| | | | | |g]|];
    try contradiction; intros _; reflexivity.
Qed.

Lemma url_of_ill_shaped (cfg : json) :
  ~ well_shaped cfg -> exists ex, url_of_config repr cfg = Raise ex.
Proof.
  unfold well_shaped, url_of_config, dict_get.
  destruct cfg as [| | | | | |kv]; try (intros _; eexists; reflexivity).
  cbn [bind]. destruct (assoc_last "gateway" kv) as [[| | | | | |g]|];
    try (intros _; eexists; reflexivity); intros H; now contradiction H.
Qed.

Lemma env_unset (e : env) :
  ~ env_url_set e ->
  get_gateway_url repr e =
  match config_file e with
  | Some content =>
      match bind content (url_of_config repr) with
      | Ok u => u
      | Raise _ => "http://localhost:18789"
      end
  | None => "http://localhost:18789"
  end.
Proof.
  unfold env_url_set, get_gateway_url.
  destruct (OPENCLAW_GATEWAY_URL e) as [[|c r]|]; try reflexivity.
  intros H. exfalso. apply H. eexists. split; [reflexivity | discriminate].
Qed.
End Discovery.

End GatewayFacts.

(** C7 as the code has it.  [get_gateway_url] returns the environment
    variable with its trailing slashes stripped whenever it is set and not
    empty; otherwise, when the configuration file exists and parses to an
    object whose gateway entry is absent or an object, it returns
    http://{host}:{port} from that section (host 127.0.0.1 and port 18789
    by default); in every other case (no file, a file that cannot be read
    or parsed, or one of another shape) it returns http://localhost:18789. *)
Theorem gateway_url_precedence :
  forall (repr : Json.json -> string) (e : OpenClaw.env),
    (forall url,
        OpenClaw.OPENCLAW_GATEWAY_URL e = Some url -> url <> "" ->
        OpenClaw.get_gateway_url repr e = Py.rstrip_char "/" url) /\
    (~ Props.env_url_set e ->
     (forall cfg,
         OpenClaw.config_file e = Some (Py.Ok cfg) -> Props.well_shaped cfg ->
         OpenClaw.get_gateway_url repr e = Props.config_url repr cfg) /\
     (forall cfg,
         OpenClaw.config_file e = Some (Py.Ok cfg) -> ~ Props.well_shaped cfg ->
         OpenClaw.get_gateway_url repr e = "http://localhost:18789") /\
     (forall ex,
         OpenClaw.config_file e = Some (Py.Raise ex) ->
         OpenClaw.get_gateway_url repr e = "http://localhost:18789") /\
     (OpenClaw.config_file e = None ->
      OpenClaw.get_gateway_url repr e = "http://localhost:18789")).
Proof.
  intros repr e. split.
  - intros url Hu Hne. unfold OpenClaw.get_gateway_url. rewrite Hu.
    destruct url; [now contradiction Hne | reflexivity].
  - intros Hunset. rewrite (GatewayFacts.env_unset repr e Hunset).
    split; [|split; [|split]].
    + intros cfg -> Hs. cbn [Py.bind].
      now rewrite (GatewayFacts.url_of_well_shaped repr cfg Hs).
    + intros cfg -> Hs. cbn [Py.bind].
      destruct (GatewayFacts.url_of_ill_shaped repr cfg Hs) as [ex ->]. reflexivity.
    + intros ex ->. reflexivity.
    + intros ->. reflexivity.
Qed.

(* ================================================================== *)
(** * The generation guard of GET /summary/{period} *)
(* ================================================================== *)

Module GuardFacts.
Import Py DateTime Finviz Props PyFacts.

Lemma is_generating_insert (key k : string) (g : gmap string bool) (w : world) :
  is_generating k (set_generating (<[key := true]> g) w) = true
  <-> k = key \/ is_generating k (set_generating g w) = true.
Proof.
  unfold is_generating. cbn [set_generating _generating].
  destruct (decide (key = k)) as [->|Hne].
  - rewrite lookup_insert_eq. tauto.
  - rewrite lookup_insert_ne by assumption.
    split; [tauto | intros [->|H]; [now contradiction Hne | exact H]].
Qed.

Lemma is_generating_delete (key k : string) (w : world) :
  is_generating k (set_generating (delete key (_generating w)) w) = true
  <-> k <> key /\ is_generating k w = true.
Proof.
  unfold is_generating. cbn [set_generating _generating].
  destruct (decide (key = k)) as [->|Hne].
  - rewrite lookup_delete_eq. split; [discriminate | tauto].
  - rewrite lookup_delete_ne by assumption. split; [|tauto].
    intros H. split; [congruence | exact H].
Qed.

Lemma is_generating_set_cache (k : string) (c : gmap string cache_file) (w : world) :
  is_generating k (set_cache c w) = is_generating k w.
Proof. reflexivity. Qed.

Lemma generate_body_generating (e : env) (t1 t2 : datetime) (w : world)
    (p l t : string) :
  _generating (generate_body e t1 t2 w p l t) = _generating w.
Proof.
  rewrite CacheFacts.generate_body_saves.
  destruct (expected_summary _ _ _). reflexivity.
Qed.

(** The three ways GET /summary/{period} ends for an accepted period. *)
Lemma summary_cases (e : env) (now : datetime) (w : world)
    (period : string) (regenerate : Z) (topic : string) :
  valid_period period = true ->
  let language := prefs_language e in
  let key := generating_key period language topic in
  exists c,
    let w1 := set_cache c w in
    (exists d,
        regenerate = 0 /\ c = cache w /\
        _get_cached_summary now w period language topic = Some d /\
        finviz_summary e now w period regenerate topic
        = (Ok (Ready d (is_generating key w)), w1, None)) \/
    ((regenerate <> 0 \/ _get_cached_summary now w period language topic = None) /\
     is_generating key w = true /\
     finviz_summary e now w period regenerate topic
     = (Ok (InProgress period language topic), w1, None)) \/
    ((regenerate <> 0 \/ _get_cached_summary now w period language topic = None) /\
     is_generating key w = false /\
     finviz_summary e now w period regenerate topic
     = (Ok (InProgress period language topic),
        set_generating (<[key := true]> (_generating w1)) w1,
        Some (period, language, topic))).
Proof.
  intros Hv language key. unfold finviz_summary. rewrite Hv. cbn [negb].
  fold language. fold key.
  destruct (regenerate =? 0) eqn:Er.
  - apply Z.eqb_eq in Er. exists (cache w).
    replace (set_cache (cache w) w) with w by (destruct w; reflexivity).
    destruct (_get_cached_summary now w period language topic) as [d|] eqn:Ec.
    + left. exists d. auto.
    + right. destruct (is_generating key w) eqn:Eg; [left | right]; auto.
  - apply Z.eqb_neq in Er.
    exists (delete (cache_file_name (_cache_key now period language topic)) (cache w)).
    cbv zeta. rewrite is_generating_set_cache.
    set (w1 := set_cache _ w). right.
    destruct (_get_cached_summary now w1 period language topic);
      destruct (is_generating key w) eqn:Eg; [left|right|left|right];
      (split; [left; exact Er|]); (split; [reflexivity|]); reflexivity.
Qed.

Lemma keys_insert (l : list thread) :
  forall (i : nat) (th0 th : thread),
    l !! i = Some th0 -> th_key th = th_key th0 ->
    map th_key (<[i := th]> l) = map th_key l.
Proof.
  induction l as [|x l IH]; intros [|i] th0 th Hi Hk; try discriminate Hi.
  - injection Hi as ->. cbn. now rewrite Hk.
  - cbn. f_equal. exact (IH i th0 th Hi Hk).
Qed.

Lemma lookup_key_In (l : list thread) :
  forall (i : nat) (th : thread), l !! i = Some th -> In (th_key th) (map th_key l).
Proof.
  induction l as [|x l IH]; intros [|i] th Hi; try discriminate Hi.
  - injection Hi as ->. now left.
  - right. exact (IH i th Hi).
Qed.

Lemma keys_delete (l : list thread) :
  forall (i : nat) (th : thread),
    l !! i = Some th -> List.NoDup (map th_key l) ->
    List.NoDup (map th_key (delete i l)) /\
    (forall k, In k (map th_key (delete i l))
               <-> In k (map th_key l) /\ k <> th_key th).
Proof.
  induction l as [|x l IH]; intros [|i] th Hi Hnd; try discriminate Hi.
  - injection Hi as ->. cbn. inversion Hnd as [|? ? Hx Hl]; subst.
    split; [exact Hl|]. intros k. split.
    + intros Hk. split; [now right|]. intros ->. contradiction.
    + intros [[<-|Hk] Hne]; [now contradiction Hne | exact Hk].
  - cbn. inversion Hnd as [|? ? Hx Hl]; subst.
    destruct (IH i th Hi Hl) as [H1 H2]. split.
    + constructor; [|exact H1]. intros Hin. apply H2 in Hin. tauto.
    + intros k. cbn. rewrite H2. split.
      * intros [<-|Hk]; [|tauto]. split; [now left|].
        intros E. apply Hx. rewrite E. exact (lookup_key_In l i th Hi).
      * intros [[<-|Hk] Hne]; [now left | right; tauto].
Qed.

Lemma nodup_snoc (l : list string) (x : string) :
  List.NoDup l -> ~ In x l -> List.NoDup (l ++ [x]).
Proof.
  induction 1 as [|y l Hy Hl IH]; intros Hx; cbn.
  - constructor; [intros [] | constructor].
  - constructor.
    + rewrite in_app_iff. cbn. intros [H|[H|[]]]; [contradiction|].
      apply Hx. now left.
    + apply IH. intros H. apply Hx. now right.
Qed.

Lemma boot_invariant (w : world) : guard_invariant (boot w).
Proof.
  split; [constructor|]. intros key. unfold is_generating. cbn.
  rewrite lookup_empty. split; [discriminate | contradiction].
Qed.

(** Every event keeps the guard and the running threads in step. *)
Lemma exec_invariant (s s' : system) (ev : event) :
  guard_invariant s -> exec s ev = Some s' -> guard_invariant s'.
Proof.
  intros [Hnd Hiff] Hex. destruct ev as [e now period regenerate topic
                                        |i e t1 t2|i|db' files'];
    cbn [exec] in Hex.
  - destruct (valid_period period) eqn:Hv.
    + destruct (summary_cases e now (sys_world s) period regenerate topic Hv)
        as [c [(d & _ & _ & _ & E)|[(_ & _ & E)|(_ & Hg & E)]]];
        rewrite E in Hex; injection Hex as <-; unfold guard_invariant, thread_keys;
        cbn [sys_threads sys_world spawned].
      * rewrite app_nil_r. split; [exact Hnd|]. intros key.
        rewrite is_generating_set_cache. apply Hiff.
      * rewrite app_nil_r. split; [exact Hnd|]. intros key.
        rewrite is_generating_set_cache. apply Hiff.
      * rewrite map_app. cbn [map]. split.
        -- apply nodup_snoc; [exact Hnd|].
           intros Hin. apply Hiff in Hin. unfold th_key in Hin.
           cbn [th_period th_language th_topic] in Hin. congruence.
        -- intros key. rewrite is_generating_insert.
           change (is_generating key (set_generating _ _))
             with (is_generating key (sys_world s)).
           rewrite in_app_iff, Hiff. cbn [In]. unfold th_key at 2.
           cbn [th_period th_language th_topic]. intuition.
    + rewrite (SummaryFacts.summary_invalid _ _ _ _ _ _ Hv) in Hex.
      injection Hex as <-. unfold guard_invariant, thread_keys. cbn.
      rewrite app_nil_r. split; [exact Hnd | exact Hiff].
  - destruct (sys_threads s !! i) as [[p l t [|]]|] eqn:Hi; try discriminate Hex.
    injection Hex as <-. unfold guard_invariant, thread_keys.
    cbn [sys_threads sys_world].
    rewrite (keys_insert _ i _ {| th_period := p; th_language := l; th_topic := t;
                                  th_phase := Saved |} Hi eq_refl).
    split; [exact Hnd|]. intros key. unfold is_generating.
    rewrite generate_body_generating. apply Hiff.
  - destruct (sys_threads s !! i) as [[p l t [|]]|] eqn:Hi; try discriminate Hex.
    injection Hex as <-. unfold guard_invariant, thread_keys.
    cbn [sys_threads sys_world].
    destruct (keys_delete _ _ _ Hi Hnd) as [H1 H2].
    split; [exact H1|]. intros key. unfold generate_finally.
    rewrite is_generating_delete, H2, Hiff. unfold th_key. cbn. tauto.
  - injection Hex as <-. split; [exact Hnd | exact Hiff].
Qed.

Lemma run_invariant (evs : list event) :
  forall s s', guard_invariant s -> run s evs = Some s' -> guard_invariant s'.
Proof.
  induction evs as [|ev evs IH]; intros s s' Hs Hr; cbn [run] in Hr.
  - now injection Hr as <-.
  - destruct (exec s ev) as [s1|] eqn:E; [|discriminate Hr].
    exact (IH s1 s' (exec_invariant _ _ _ Hs E) Hr).
Qed.

Lemma reachable_invariant (s : system) : reachable s -> guard_invariant s.
Proof. intros (w & evs & H). exact (run_invariant evs _ _ (boot_invariant w) H). Qed.

Lemma nodup_filter_key (key : string) (l : list thread) :
  List.NoDup (map th_key l) ->
  (List.length (List.filter (fun t => String.eqb (th_key t) key) l) <= 1)%nat.
Proof.
  induction l as [|x l IH]; intros Hnd; cbn; [lia|].
  inversion Hnd as [|? ? Hx Hl]; subst.
  destruct (String.eqb (th_key x) key) eqn:E; [|now apply IH].
  apply String.eqb_eq in E.
  assert (Hnone : List.filter (fun t => String.eqb (th_key t) key) l = []).
  { destruct (List.filter _ l) as [|y r] eqn:Ef; [reflexivity|].
    exfalso. assert (Hy : In y (List.filter (fun t => String.eqb (th_key t) key) l))
      by (rewrite Ef; now left).
    apply List.filter_In in Hy as [Hy Hk]. apply String.eqb_eq in Hk.
    apply Hx. rewrite E, <- Hk. now apply in_map. }
  rewrite Hnone. cbn. lia.
Qed.

Lemma in_progress_nonempty (key : string) (s : system) :
  in_progress key s <> [] <-> In key (thread_keys s).
Proof.
  unfold in_progress, thread_keys. split.
  - destruct (List.filter _ _) as [|y r] eqn:Ef; [congruence|]. intros _.
    assert (Hy : In y (List.filter (fun t => String.eqb (th_key t) key)
                                   (sys_threads s))) by (rewrite Ef; now left).
    apply List.filter_In in Hy as [Hy Hk]. apply String.eqb_eq in Hk.
    rewrite <- Hk. now apply in_map.
  - intros Hin. apply in_map_iff in Hin as [t [Hk Ht]].
    assert (Hy : In t (List.filter (fun t => String.eqb (th_key t) key)
                                   (sys_threads s))).
    { apply List.filter_In. split; [exact Ht | now apply String.eqb_eq]. }
    intros E. rewrite E in Hy. exact Hy.
Qed.

End GuardFacts.

(** C1 as the code has it.  For an accepted period, a request whose key
    "period:language:topic" is marked in [_generating] never starts a
    thread and leaves the guard as it is; it answers "generating", except
    that with [regenerate = 0] and a cached summary for the current bucket
    it answers that summary with status "ready" and [generating = true].
    A thread is started only by a request that finds its key absent, and
    that request marks the key.  Hence, in every state the server can
    reach, at most one generation per key is in progress, and a key is
    marked exactly while its generation is. *)
Theorem summary_generation_guard :
  (forall (e : Finviz.env) (now : DateTime.datetime) (w : Finviz.world)
          (period : string) (regenerate : Z) (topic : string),
      Finviz.valid_period period = true ->
      let language := Finviz.prefs_language e in
      let key := Finviz.generating_key period language topic in
      Finviz.is_generating key w = true ->
      exists resp w',
        Finviz.finviz_summary e now w period regenerate topic = (Py.Ok resp, w', None) /\
        Finviz._generating w' = Finviz._generating w /\
        (regenerate <> 0 \/
         Finviz._get_cached_summary now w period language topic = None ->
         resp = Finviz.InProgress period language topic /\
         Finviz.response_status resp = "generating") /\
        (forall d,
            regenerate = 0 ->
            Finviz._get_cached_summary now w period language topic = Some d ->
            resp = Finviz.Ready d true)) /\
  (forall (e : Finviz.env) (now : DateTime.datetime) (w : Finviz.world)
          (period : string) (regenerate : Z) (topic : string)
          r w' args,
      Finviz.finviz_summary e now w period regenerate topic = (r, w', Some args) ->
      let key := Finviz.generating_key period (Finviz.prefs_language e) topic in
      args = (period, Finviz.prefs_language e, topic) /\
      Finviz.is_generating key w = false /\
      Finviz.is_generating key w' = true) /\
  (forall (s : Finviz.system),
      Finviz.reachable s ->
      forall key,
        (List.length (Finviz.in_progress key s) <= 1)%nat /\
        (Finviz.is_generating key (Finviz.sys_world s) = true
         <-> Finviz.in_progress key s <> [])).
Proof.
  split; [|split].
  - intros e now w period regenerate topic Hv language key Hg.
    destruct (GuardFacts.summary_cases e now w period regenerate topic Hv)
      as [c [(d & Hr & Hc & Hd & E)|[(Hm & _ & E)|(_ & Hg' & _)]]].
    + fold language key in E. rewrite Hg in E. do 2 eexists.
      split; [exact E|]. split; [reflexivity|]. split.
      * intros [H|H]; [now contradiction H|].
        fold language in Hd. rewrite Hd in H. discriminate H.
      * intros d' _ Hd'. fold language in Hd. rewrite Hd in Hd'.
        now injection Hd' as ->.
    + do 2 eexists. split; [exact E|]. split; [reflexivity|]. split.
      * intros _. split; reflexivity.
      * intros d Hr Hd. exfalso. destruct Hm as [Hm|Hm]; [exact (Hm Hr)|].
        fold language in Hm. unfold language in *. rewrite Hm in Hd. discriminate Hd.
    + fold language key in Hg'. rewrite Hg in Hg'. discriminate Hg'.
  - intros e now w period regenerate topic r w' args E key.
    destruct (Finviz.valid_period period) eqn:Hv.
    + destruct (GuardFacts.summary_cases e now w period regenerate topic Hv)
        as [c [(d & _ & _ & _ & E')|[(_ & _ & E')|(_ & Hg & E')]]];
        rewrite E' in E; try discriminate E.
      injection E as <- <- <-. split; [reflexivity|]. split; [exact Hg|].
      apply GuardFacts.is_generating_insert. now left.
    + rewrite (SummaryFacts.summary_invalid _ _ _ _ _ _ Hv) in E. discriminate E.
  - intros s Hs key.
    destruct (GuardFacts.reachable_invariant s Hs) as [Hnd Hiff].
    split.
    + apply GuardFacts.nodup_filter_key. exact Hnd.
    + rewrite GuardFacts.in_progress_nonempty. apply Hiff.
Qed.

(** C1, counterexample to the claim as stated.  After a request has
    started the generation for "12h:English:Market" and its thread has
    saved the summary but not yet released the guard, the key is still
    marked, and yet the next request is answered with status "ready", not
    "generating". *)
Lemma ready_while_generating :
  exists s,
    Finviz.run (Finviz.boot Samples.world0) Samples.trace_saved = Some s /\
    Finviz.valid_period "12h" = true /\
    Finviz.is_generating
      (Finviz.generating_key "12h" (Finviz.prefs_language Samples.env0) "Market")
      (Finviz.sys_world s) = true /\
    exists d,
      fst (fst (Finviz.finviz_summary Samples.env0 Samples.t1
                  (Finviz.sys_world s) "12h" 0 "Market"))
      = Py.Ok (Finviz.Ready d true) /\
      Finviz.response_status (Finviz.Ready d true) = "ready" /\
      Finviz.response_status (Finviz.Ready d true) <> "generating".
Proof.
  let r := eval vm_compute in (Finviz.run (Finviz.boot Samples.world0) Samples.trace_saved) in
  match r with Some ?s => exists s end.
  split; [vm_compute; reflexivity|]. split; [reflexivity|].
  split; [vm_compute; reflexivity|].
  exists {| Finviz.sd_period := "12h"; Finviz.sd_language := "English";
            Finviz.sd_topic := "Market"; Finviz.sd_summary := "Markets were calm.";
            Finviz.sd_article_count := 2;
            Finviz.sd_generated_at := "2026-11-04T07:21:00+00:00" |}.
  split; [vm_compute; reflexivity|]. split; [reflexivity | discriminate].
Qed.

(** C1, the theorem run on a world in which the key is marked: a
    regenerating request starts no thread and answers "generating". *)
Lemma summary_generation_guard_witness :
  Finviz.valid_period "12h" = true /\
  Finviz.is_generating "12h:English:Market" Samples.world_marked = true /\
  exists resp w',
    Finviz.finviz_summary Samples.env0 Samples.t0 Samples.world_marked "12h" 1 "Market"
    = (Py.Ok resp, w', None) /\
    Finviz._generating w' = Finviz._generating Samples.world_marked /\
    Finviz.response_status resp = "generating".
Proof.
  split; [reflexivity|]. split; [reflexivity|].
  destruct (proj1 summary_generation_guard Samples.env0 Samples.t0
              Samples.world_marked "12h" 1 "Market" eq_refl eq_refl)
    as (resp & w' & E & Hg & Hs & _).
  exists resp, w'. split; [exact E|]. split; [exact Hg|].
  apply Hs. left. discriminate.
Defined.

(** C2 on two readings of the bucket 2026-11-04, hours 6 to 8. *)
Lemma cache_key_periodic_witness :
  Props.same_bucket "12h" Samples.t0 Samples.t1 /\
  Finviz._cache_key Samples.t0 "12h" "English" "Market"
  = Finviz._cache_key Samples.t1 "12h" "English" "Market".
Proof.
  assert (H : Props.same_bucket "12h" Samples.t0 Samples.t1).
  { cbv. repeat split. }
  split; [exact H|].
  exact (proj1 (cache_key_periodic "12h" "English" "Market" Samples.t0 Samples.t1 H)).
Defined.

(** The key of that bucket, as [hashlib] computes it. *)
Example cache_key_sample :
  Finviz._cache_key Samples.t0 "12h" "English" "Market" = "c4452f834a53".
Proof. vm_compute. reflexivity. Qed.


(** C5 on the sample table. *)
Lemma headlines_filtered_paginated_witness :
  1 <= 24 <= 720 /\ 1 <= 2 <= 500 /\
  exists resp,
    Finviz.finviz_headlines Samples.t0 Samples.world0 24 2 = Py.Ok resp /\
    Z.of_nat (List.length (Finviz.headlines resp)) <= 2 /\
    Finviz.count resp = Z.of_nat (List.length (Finviz.headlines resp)).
Proof.
  assert (Hh : 1 <= 24 <= 720) by lia. assert (Hl : 1 <= 2 <= 500) by lia.
  split; [exact Hh|]. split; [exact Hl|].
  destruct (headlines_filtered_paginated Samples.t0 Samples.world0 Samples.rows
              24 2 Hh Hl eq_refl) as (resp & E & Hn & _ & _ & Hc & _).
  exists resp. split; [exact E|]. split; [exact Hn | exact Hc].
Defined.

(** C6 on the sample files. *)
Lemma static_files_served_witness :
  (exists resp,
      ArxivKB.science_pdf Samples.kb_env Samples.kb_world "2401.00001" = Py.Ok resp /\
      ArxivKB.fr_path resp = "/srv/kb/pdfs/2401.00001.pdf" /\
      ArxivKB.fr_media_type resp = "application/pdf") /\
  ArxivKB.science_pdf Samples.kb_env Samples.kb_world "2401.99999"
  = Py.Raise (Py.HTTPException 404 "PDF not found") /\
  (exists resp,
      Finviz.finviz_article Samples.env0 Samples.world0 "https://n.example/a"
      = Py.Ok resp /\
      Finviz.ar_content resp = Some "The Federal Reserve held rates.").
Proof.
  pose proof (proj1 static_files_served Samples.kb_env Samples.kb_world "2401.00001")
    as (Hpdf & _ & Hpath).
  pose proof (proj1 static_files_served Samples.kb_env Samples.kb_world "2401.99999")
    as (_ & Hmiss & _).
  split; [|split].
  - destruct (Hpdf (ex_intro _ _ eq_refl)) as (resp & E & Hp & Hm).
    exists resp. split; [exact E|]. split; [|exact Hm].
    rewrite Hp. exact (Hpath eq_refl eq_refl eq_refl).
  - exact (Hmiss eq_refl).
  - destruct (proj2 static_files_served Samples.env0 Samples.world0 Samples.rows
                "https://n.example/a" _ eq_refl eq_refl)
      as (resp & E & _ & _ & _ & Hc & _).
    exists resp. split; [exact E|].
    apply (Hc "a.txt"); [reflexivity | discriminate | reflexivity].
Defined.

(** C7, counterexample to the claim as stated.  With the environment
    variable unset and a configuration file that exists and parses to
    [{"gateway": null}], the claim promises the URL built from the
    defaults, http://127.0.0.1:18789; [get_gateway_url] returns
    http://localhost:18789 instead. *)
Lemma null_gateway_section :
  OpenClaw.OPENCLAW_GATEWAY_URL Samples.env_null_gateway = None /\
  OpenClaw.config_file Samples.env_null_gateway
    = Some (Py.Ok (Json.JObj [("gateway", Json.JNull)])) /\
  Props.config_url Samples.repr0 (Json.JObj [("gateway", Json.JNull)])
    = "http://127.0.0.1:18789" /\
  OpenClaw.get_gateway_url Samples.repr0 Samples.env_null_gateway
    = "http://localhost:18789" /\
  OpenClaw.get_gateway_url Samples.repr0 Samples.env_null_gateway
    <> Props.config_url Samples.repr0 (Json.JObj [("gateway", Json.JNull)]).
Proof.
  split; [reflexivity|]. split; [reflexivity|]. split; [reflexivity|].
  split; [reflexivity|]. vm_compute. discriminate.
Qed.

(** C7 on the sample environments: the variable wins and loses its
    trailing slashes; a configuration with only a port uses the default
    host. *)
Lemma gateway_url_precedence_witness :
  OpenClaw.get_gateway_url Samples.repr0 Samples.env_url = "http://gw.example:8080" /\
  OpenClaw.get_gateway_url Samples.repr0 Samples.env_cfg_port = "http://127.0.0.1:9000".
Proof.
  split.
  - apply (proj1 (gateway_url_precedence Samples.repr0 Samples.env_url)
             "http://gw.example:8080//" eq_refl).
    discriminate.
  - assert (Hu : ~ Props.env_url_set Samples.env_cfg_port).
    { intros [url [H _]]. discriminate H. }
    exact (proj1 (proj2 (gateway_url_precedence Samples.repr0 Samples.env_cfg_port) Hu)
             Samples.cfg_port eq_refl I).
Defined.

(** C8 on the sample table: the 12-hour window. *)
Lemma summary_period_validation_witness :
  exists arts,
    Finviz._get_articles_for_period Samples.env0 Samples.world0 Samples.t0
      (Finviz._period_to_hours "12h") "Market" 200 = Py.Ok arts /\
    Forall (fun a =>
              Py.text_le (Finviz.cutoff Samples.t0 (Finviz._period_to_hours "12h"))
                         (Finviz.a_date a) = true) arts.
Proof.
  let r := eval vm_compute in
    (Finviz._get_articles_for_period Samples.env0 Samples.world0 Samples.t0
       (Finviz._period_to_hours "12h") "Market" 200) in
  match r with Py.Ok ?a => exists a end.
  assert (E : Finviz._get_articles_for_period Samples.env0 Samples.world0 Samples.t0
                (Finviz._period_to_hours "12h") "Market" 200
              = Py.Ok
                  [ {| Finviz.a_title := "Fed holds rates";
                       Finviz.a_url := "https://n.example/a";
                       Finviz.a_date := "2026-11-04T05:00:00+00:00";
                       Finviz.a_content := Some "The Federal Reserve held rates." |};
                    {| Finviz.a_title := "Oil slips";
                       Finviz.a_url := "https://n.example/d";
                       Finviz.a_date := "2026-11-03T22:10:00+00:00";
                       Finviz.a_content := None |} ])
    by (vm_compute; reflexivity).
  split; [exact E|].
  exact (proj2 (proj2 (proj2 (proj2 summary_period_validation)))
           Samples.env0 Samples.world0 Samples.t0 "12h" "Market" _ E).
Defined.

(** C9 on the sample database: an unknown identifier. *)
Lemma missing_paper_behaviour_witness :
  ArxivKB.science_paper Samples.kb_env Samples.kb_world "0000.00000"
    = Py.Raise (Py.HTTPException 404 "Paper not found") /\
  ArxivKB.science_paper_translate Samples.kb_env Samples.kb_world "0000.00000"
    = (Py.Ok {| ArxivKB.translated := None; ArxivKB.tr_language := None |},
       Samples.kb_world, []).
Proof.
  apply (proj1 missing_paper_behaviour Samples.kb_env Samples.kb_world
           Samples.kb_database "0000.00000" eq_refl).
  intros r [<-|[]]. discriminate.
Defined.


(* ================================================================== *)
(** * Further properties: listings and counts of finviz-market *)
(* ================================================================== *)

Module ListingFacts.
Import Py DateTime Finviz FinvizExt Props PropsExt.

Section Rows.
Context {A : Type} (key : A -> string).

Lemma insert_desc_perm (x : A) (l : list A) :
  Permutation (Sql.insert_desc key x l) (x :: l).
Proof.
  induction l as [|y l IH]; cbn; [reflexivity|].
  destruct (text_le (key y) (key x)); [reflexivity|].
  rewrite IH. apply perm_swap.
Qed.

(** Sorting loses and invents no row. *)
Lemma order_by_desc_perm (l : list A) : Permutation (Sql.order_by_desc key l) l.
Proof.
  induction l as [|x l IH]; cbn; [reflexivity|].
  rewrite insert_desc_perm. now constructor.
Qed.

Lemma insert_asc_perm (x : A) (l : list A) :
  Permutation (SqlExt.insert_asc key x l) (x :: l).
Proof.
  induction l as [|y l IH]; cbn; [reflexivity|].
  destruct (text_le (key x) (key y)); [reflexivity|].
  rewrite IH. apply perm_swap.
Qed.

Lemma order_by_asc_perm (l : list A) : Permutation (SqlExt.order_by_asc key l) l.
Proof.
  induction l as [|x l IH]; cbn; [reflexivity|].
  rewrite insert_asc_perm. now constructor.
Qed.

Lemma insert_asc_sorted (x : A) (l : list A) :
  StronglySorted (fun a b => text_le (key a) (key b) = true) l ->
  StronglySorted (fun a b => text_le (key a) (key b) = true) (SqlExt.insert_asc key x l).
Proof.
  induction 1 as [|z l Hs IH Hz]; cbn.
  - constructor; constructor.
  - destruct (text_le (key x) (key z)) eqn:E.
    + constructor; [now constructor|].
      constructor; [exact E|].
      rewrite List.Forall_forall in Hz |- *. intros y Hy.
      eapply SqlFacts.text_le_trans; [exact E | apply (Hz y Hy)].
    + constructor; [exact IH|].
      rewrite List.Forall_forall in Hz |- *. intros y Hy.
      apply (Permutation_in _ (insert_asc_perm x l)) in Hy.
      destruct Hy as [<-|Hy]; [|now apply Hz].
      now apply SqlFacts.text_le_total.
Qed.

Lemma order_by_asc_sorted (l : list A) :
  StronglySorted (fun a b => text_le (key a) (key b) = true) (SqlExt.order_by_asc key l).
Proof.
  induction l as [|x l IH]; cbn; [constructor | now apply insert_asc_sorted].
Qed.

Lemma sorted_map_asc (l : list A) :
  StronglySorted (fun a b => text_le (key a) (key b) = true) l ->
  ascending (map key l).
Proof.
  unfold ascending. induction 1 as [|x l Hs IH Hx]; cbn; constructor; [exact IH|].
  rewrite List.Forall_forall in Hx |- *. intros k Hk.
  apply in_map_iff in Hk as [y [<- Hy]]. now apply Hx.
Qed.
End Rows.

Section Split.
Context {A : Type}.

(** In a sorted list everything kept by [LIMIT] precedes everything cut. *)
Lemma sorted_app_cross (R : A -> A -> Prop) (l1 l2 : list A) :
  StronglySorted R (l1 ++ l2) ->
  forall a b, In a l1 -> In b l2 -> R a b.
Proof.
  induction l1 as [|x l1 IH]; cbn; intros Hs a b Ha Hb; [contradiction|].
  inversion Hs as [|? ? Hs' Hx]; subst.
  destruct Ha as [<-|Ha].
  - rewrite List.Forall_forall in Hx. apply Hx. apply in_or_app. now right.
  - exact (IH Hs' a b Ha Hb).
Qed.

(** A non-negative [LIMIT] keeps a prefix. *)
Lemma limit_split (n : Z) (l : list A) :
  0 <= n ->
  exists rest, l = Sql.limit n l ++ rest /\
               Z.of_nat (List.length (Sql.limit n l)) = Z.min n (Z.of_nat (List.length l)).
Proof.
  intros Hn. unfold Sql.limit. replace (n <? 0) with false by lia.
  exists (skipn (Z.to_nat n) l). split; [symmetry; apply firstn_skipn|].
  rewrite length_firstn. lia.
Qed.

Lemma filter_length_le (f : A -> bool) (l : list A) :
  (List.length (List.filter f l) <= List.length l)%nat.
Proof.
  induction l as [|x l IH]; cbn; [lia|]. destruct (f x); cbn; lia.
Qed.
End Split.

(** The rows a headline request selects, and those it cuts off. *)
Lemma headlines_selection (now : datetime) (w : world)
    (rows : list article_row) (hours limit : Z) :
  1 <= hours <= 720 -> 1 <= limit <= 500 -> db w = Some rows ->
  exists sel rest,
    finviz_headlines now w hours limit
    = Ok {| count := Z.of_nat (List.length sel);
            headlines := map headline_of_row sel |} /\
    Sql.order_by_desc publish_at
      (List.filter (fun r => text_le (cutoff now hours) (publish_at r)) rows)
    = sel ++ rest /\
    Z.of_nat (List.length sel)
    = Z.min limit
        (Z.of_nat (List.length
           (List.filter (fun r => text_le (cutoff now hours) (publish_at r)) rows))).
Proof.
  intros Hh Hl Hdb.
  unfold finviz_headlines, query_int, _db_conn.
  replace ((1 <=? hours) && (hours <=? 720)) with true by lia.
  replace ((1 <=? limit) && (limit <=? 500)) with true by lia.
  rewrite Hdb. cbn [bind].
  set (sorted := Sql.order_by_desc publish_at _).
  destruct (limit_split limit sorted) as (rest & E & Hlen); [clear - Hl; lia|].
  exists (Sql.limit limit sorted), rest.
  split; [reflexivity|]. split; [exact E|].
  rewrite Hlen. unfold sorted. now rewrite SqlFacts.order_by_desc_length.
Qed.

End ListingFacts.

(** X1. GET /headlines returns the most recent matching rows: the rows
    with [publish_at] at or after the cut-off are, up to order, the
    returned ones followed by the ones left out; the number returned is
    the smaller of [limit] and the number of matching rows; and no row
    left out is newer (in TEXT order) than a returned one. *)
Theorem headlines_most_recent :
  forall (now : DateTime.datetime) (w : Finviz.world)
         (rows : list Finviz.article_row) (hours limit : Z),
    1 <= hours <= 720 -> 1 <= limit <= 500 ->
    Finviz.db w = Some rows ->
    exists sel rest,
      Finviz.finviz_headlines now w hours limit
      = Py.Ok {| Finviz.count := Z.of_nat (List.length sel);
                 Finviz.headlines := map FinvizExt.headline_of_row sel |} /\
      Permutation
        (List.filter (fun r => Py.text_le (Finviz.cutoff now hours) (Finviz.publish_at r))
                     rows)
        (sel ++ rest) /\
      Z.of_nat (List.length sel)
      = Z.min limit
          (Z.of_nat (List.length
             (List.filter (fun r => Py.text_le (Finviz.cutoff now hours)
                                               (Finviz.publish_at r)) rows))) /\
      (forall a b, In a sel -> In b rest ->
         Py.text_le (Finviz.publish_at b) (Finviz.publish_at a) = true).
Proof.
  intros now w rows hours limit Hh Hl Hdb.
  destruct (ListingFacts.headlines_selection now w rows hours limit Hh Hl Hdb)
    as (sel & rest & E & Hs & Hn).
  exists sel, rest. split; [exact E|]. split; [|split; [exact Hn|]].
  - rewrite <- Hs. symmetry. apply ListingFacts.order_by_desc_perm.
  - pose proof (SqlFacts.order_by_desc_sorted Finviz.publish_at
                  (List.filter (fun r => Py.text_le (Finviz.cutoff now hours)
                                                    (Finviz.publish_at r)) rows)) as Hsort.
    rewrite Hs in Hsort.
    exact (ListingFacts.sorted_app_cross _ sel rest Hsort).
Qed.

(** X2. GET /stats and GET /headlines agree.  With the database in place
    the statistics are counts of the table, so [with_content] and
    [last_24h] lie between 0 and [total]; and at the same clock reading a
    headline request for 24 hours reports as [count] the smaller of its
    limit and [last_24h]. *)
Theorem stats_agree_with_headlines :
  forall (now : DateTime.datetime) (w : Finviz.world) (rows : list Finviz.article_row),
    Finviz.db w = Some rows ->
    exists st,
      FinvizExt.finviz_stats now w = Py.Ok st /\
      FinvizExt.total st = Z.of_nat (List.length rows) /\
      0 <= FinvizExt.with_content st <= FinvizExt.total st /\
      0 <= FinvizExt.last_24h st <= FinvizExt.total st /\
      (forall limit, 1 <= limit <= 500 ->
         exists resp,
           Finviz.finviz_headlines now w 24 limit = Py.Ok resp /\
           Finviz.count resp = Z.min limit (FinvizExt.last_24h st)).
Proof.
  intros now w rows Hdb.
  unfold FinvizExt.finviz_stats, Finviz._db_conn. rewrite Hdb. cbn [Py.bind].
  eexists. split; [reflexivity|].
  cbn [FinvizExt.total FinvizExt.with_content FinvizExt.last_24h].
  unfold FinvizExt.count_where.
  split; [reflexivity|].
  split; [|split].
  - pose proof (ListingFacts.filter_length_le
                  (fun r : Finviz.article_row =>
                     match Finviz.article_path r with Some _ => true | None => false end)
                  rows). lia.
  - pose proof (ListingFacts.filter_length_le
                  (fun r => Py.text_le (Finviz.cutoff now 24) (Finviz.publish_at r))
                  rows). lia.
  - intros limit Hl.
    destruct (ListingFacts.headlines_selection now w rows 24 limit ltac:(lia) Hl Hdb)
      as (sel & rest & E & _ & Hn).
    eexists. split; [exact E|]. exact Hn.
Qed.

(* ================================================================== *)
(** * Further properties: the counts per ticker *)
(* ================================================================== *)

Module CountFacts.
Import Py DateTime Finviz FinvizExt Props PropsExt.

Section Dict.
Context {V : Type}.

Lemma get_set (k k' : string) (v : V) (d : list (string * V)) :
  PyDict.get k (PyDict.set k' v d) = if String.eqb k' k then Some v else PyDict.get k d.
Proof.
  induction d as [|[k0 v0] d IH]; cbn.
  - reflexivity.
  - destruct (String.eqb k0 k') eqn:E0; cbn.
    + apply String.eqb_eq in E0. subst k0.
      destruct (String.eqb k' k); reflexivity.
    + destruct (String.eqb k0 k) eqn:E1.
      * apply String.eqb_eq in E1. subst k0.
        rewrite String.eqb_sym in E0. now rewrite E0.
      * exact IH.
Qed.

(** After a run of assignments a key holds its last assigned value. *)
Lemma get_fold_set (k : string) (l : list (string * V)) :
  forall d,
    PyDict.get k (fold_left (fun d r => PyDict.set (fst r) (snd r) d) l d)
    = match PyDict.get k (rev l) with
      | Some v => Some v
      | None => PyDict.get k d
      end.
Proof.
  induction l as [|[k0 v0] l IH]; intros d; cbn [fold_left rev]; [reflexivity|].
  rewrite IH. cbn [fst snd].
  assert (Happ : forall a b : list (string * V),
             PyDict.get k (a ++ b)
             = match PyDict.get k a with Some v => Some v | None => PyDict.get k b end).
  { induction a as [|[ka va] a IHa]; intros b; cbn; [reflexivity|].
    destruct (String.eqb ka k); [reflexivity | apply IHa]. }
  rewrite Happ. destruct (PyDict.get k (rev l)); [reflexivity|].
  cbn. rewrite get_set. destruct (String.eqb k0 k); reflexivity.
Qed.

Lemma get_tabulate_in (c : string -> V) (k : string) (l : list string) :
  In k l -> PyDict.get k (map (fun t => (t, c t)) l) = Some (c k).
Proof.
  induction l as [|x l IH]; cbn; [contradiction|]. intros H.
  destruct (String.eqb x k) eqn:E.
  - apply String.eqb_eq in E. now subst x.
  - apply String.eqb_neq in E. destruct H as [H|H]; [contradiction | now apply IH].
Qed.

Lemma get_tabulate_out (c : string -> V) (k : string) (l : list string) :
  ~ In k l -> PyDict.get k (map (fun t => (t, c t)) l) = None.
Proof.
  induction l as [|x l IH]; cbn; [reflexivity|]. intros H.
  destruct (String.eqb x k) eqn:E.
  - apply String.eqb_eq in E. tauto.
  - apply IH. tauto.
Qed.
End Dict.

Lemma distinct_In (x : string) (l : list string) : In x (SqlExt.distinct l) <-> In x l.
Proof.
  induction l as [|y l IH]; cbn; [reflexivity|].
  rewrite List.filter_In, IH, negb_true_iff, String.eqb_neq.
  destruct (string_dec y x) as [->|Hne]; [tauto|].
  split; [tauto|]. intros [H|H]; [contradiction|]. right. split; [exact H | congruence].
Qed.

Lemma filter_filter_length {A : Type} (f g h : A -> bool) (l : list A) :
  (forall x, f x && g x = h x) ->
  List.length (List.filter g (List.filter f l)) = List.length (List.filter h l).
Proof.
  intros E. induction l as [|x l IH]; cbn; [reflexivity|].
  rewrite <- (E x). destruct (f x); cbn; [destruct (g x); cbn; congruence | exact IH].
Qed.

Lemma filter_nonempty {A : Type} (f : A -> bool) (l : list A) :
  (0 <? Z.of_nat (List.length (List.filter f l))) = true
  <-> exists x, In x l /\ f x = true.
Proof.
  rewrite Z.ltb_lt. split.
  - destruct (List.filter f l) as [|x r] eqn:E; cbn; [lia|]. intros _.
    exists x. apply List.filter_In. rewrite E. now left.
  - intros [x Hx]. apply List.filter_In in Hx.
    destruct (List.filter f l); [contradiction | cbn; lia].
Qed.

(** The keys of the grouped rows are the non-empty tickers present. *)
Lemma ticker_counts_get (now : datetime) (hours : Z) (tbl : list article_row)
    (t : string) :
  t <> "" ->
  PyDict.get t (rev (ticker_counts now hours tbl))
  = let n := count_where
               (fun r => in_window now hours r && is_done r && has_ticker t r) tbl in
    if 0 <? n then Some n else None.
Proof.
  intros Ht. unfold ticker_counts.
  set (sel := List.filter _ tbl).
  rewrite <- map_rev.
  assert (Hn : count_where (has_ticker t) sel
               = count_where (fun r => in_window now hours r && is_done r && has_ticker t r)
                             tbl).
  { unfold count_where, sel. f_equal. apply filter_filter_length.
    intros r. unfold has_ticker, tickered.
    destruct (ticker r) as [t'|]; [|now rewrite !andb_false_r].
    destruct (String.eqb t' t) eqn:E; [|now rewrite !andb_false_r].
    apply String.eqb_eq in E. subst t'.
    replace (String.eqb t "") with false by (symmetry; now apply String.eqb_neq).
    cbn [negb]. now rewrite !andb_true_r. }
  cbv zeta. rewrite <- Hn.
  set (keys := rev _).
  destruct (in_dec string_dec t keys) as [Hin|Hnin]; unfold keys in *.
  - rewrite (get_tabulate_in _ _ _ Hin). rewrite <- in_rev in Hin.
    apply (Permutation_in _ (ListingFacts.order_by_asc_perm id _)) in Hin.
    apply (proj1 (distinct_In _ _)) in Hin. apply in_map_iff in Hin as [r [Hr Hin]].
    replace (0 <? count_where (has_ticker t) sel) with true; [reflexivity|].
    symmetry. apply filter_nonempty. exists r. split; [exact Hin|].
    unfold has_ticker. destruct (ticker r) as [t'|]; cbn in Hr;
      [subst t'; apply String.eqb_refl | congruence].
  - rewrite (get_tabulate_out _ _ _ Hnin).
    destruct (0 <? count_where (has_ticker t) sel) eqn:E; [|reflexivity].
    exfalso. apply Hnin. apply filter_nonempty in E as [r [Hin Hr]].
    rewrite <- in_rev.
    apply (Permutation_in _ (Permutation_sym (ListingFacts.order_by_asc_perm id _))).
    apply (proj2 (distinct_In _ _)). apply in_map_iff. exists r. split; [|exact Hin].
    unfold has_ticker in Hr. destruct (ticker r) as [t'|]; [|discriminate Hr].
    apply String.eqb_eq in Hr. now subst.
Qed.

Lemma ticker_counts_no_empty (now : datetime) (hours : Z) (tbl : list article_row) :
  PyDict.get "" (rev (ticker_counts now hours tbl)) = None.
Proof.
  unfold ticker_counts. set (sel := List.filter _ tbl).
  rewrite <- map_rev. apply get_tabulate_out. intros Hin.
  rewrite <- in_rev in Hin.
  apply (Permutation_in _ (ListingFacts.order_by_asc_perm id _)) in Hin.
  apply (proj1 (distinct_In _ _)) in Hin. apply in_map_iff in Hin as [r [Hr Hin]].
  apply List.filter_In in Hin as [_ Hf].
  apply andb_true_iff in Hf as [Hf _]. apply andb_true_iff in Hf as [_ Hf].
  unfold tickered in Hf. destruct (ticker r) as [t'|]; [|discriminate Hf].
  cbn in Hr. subst t'. discriminate Hf.
Qed.

End CountFacts.

(** X3. GET /article-counts, with hours in [0, 8760] and the database in
    place, answers a dict in which every ticker other than "" and
    "Market" is present exactly when some done article of the window
    carries it, with the number of those articles; "" is never a key;
    "Market" is always a key and holds the number of done articles
    without ticker, unless articles carry the ticker "Market" itself, in
    which case their count replaces it. *)
Theorem article_counts_by_ticker :
  forall (now : DateTime.datetime) (w : Finviz.world)
         (rows : list Finviz.article_row) (hours : Z),
    0 <= hours <= 8760 -> Finviz.db w = Some rows ->
    exists counts,
      FinvizExt.finviz_article_counts now w hours = Py.Ok counts /\
      (forall t, t <> "" -> t <> "Market" ->
         PyDict.get t counts
         = let n := FinvizExt.count_where
                      (fun r => FinvizExt.in_window now hours r && FinvizExt.is_done r
                                && FinvizExt.has_ticker t r) rows in
           if 0 <? n then Some n else None) /\
      PyDict.get "" counts = None /\
      PyDict.get "Market" counts
      = let n := FinvizExt.count_where
                   (fun r => FinvizExt.in_window now hours r && FinvizExt.is_done r
                             && FinvizExt.has_ticker "Market" r) rows in
        Some (if 0 <? n then n
              else FinvizExt.count_where
                     (fun r => FinvizExt.in_window now hours r && FinvizExt.untickered r
                               && FinvizExt.is_done r) rows).
Proof.
  intros now w rows hours Hh Hdb.
  unfold FinvizExt.finviz_article_counts, Finviz.query_int, Finviz._db_conn.
  replace ((0 <=? hours) && (hours <=? 8760)) with true by lia.
  rewrite Hdb. cbn [Py.bind]. eexists. split; [reflexivity|].
  split; [|split].
  - intros t Ht Hm. rewrite CountFacts.get_fold_set.
    rewrite (CountFacts.ticker_counts_get now hours rows t Ht). cbv zeta.
    destruct (0 <? _); [reflexivity|]. cbn [PyDict.get].
    replace (String.eqb "Market" t) with false; [reflexivity|].
    symmetry. apply String.eqb_neq. congruence.
  - rewrite CountFacts.get_fold_set, CountFacts.ticker_counts_no_empty. reflexivity.
  - rewrite CountFacts.get_fold_set.
    rewrite (CountFacts.ticker_counts_get now hours rows "Market") by discriminate.
    cbv zeta. destruct (0 <? _); reflexivity.
Qed.

(* ================================================================== *)
(** * Further properties: the tickers API *)
(* ================================================================== *)

Module TickerExtFacts.
Import Py DateTime Finviz FinvizExt Props PropsExt PyFacts.

Lemma get_tickers_In (w : world) (sym : string) (kw : Json.json) :
  In {| te_symbol := sym; te_keywords := kw |} (get_tickers w)
  <-> exists row, tickers w !! sym = Some row /\ keywords row = kw.
Proof.
  unfold get_tickers. rewrite in_map_iff. split.
  - intros [[s row] [E Hin]]. cbn in E. injection E as -> <-.
    apply (Permutation_in _ (ListingFacts.order_by_asc_perm fst _)) in Hin.
    apply list_elem_of_In, elem_of_map_to_list in Hin. eauto.
  - intros (row & Hl & <-). exists (sym, row). split; [reflexivity|].
    apply (Permutation_in _ (Permutation_sym (ListingFacts.order_by_asc_perm fst _))).
    now apply list_elem_of_In, elem_of_map_to_list.
Qed.

Lemma get_tickers_symbols (w : world) :
  map te_symbol (get_tickers w)
  = map fst (SqlExt.order_by_asc fst (map_to_list (tickers w))).
Proof. unfold get_tickers. rewrite map_map. reflexivity. Qed.

Lemma table_keys_nodup (w : world) : List.NoDup (map fst (map_to_list (tickers w))).
Proof. apply NoDup_ListNoDup. exact (NoDup_fst_map_to_list (tickers w)). Qed.










Lemma upper_empty (s : string) : upper s = "" -> s = "".
Proof. destruct s; [reflexivity | discriminate]. Qed.

End TickerExtFacts.

(** X4. GET /tickers lists the table: its symbols come in ascending TEXT
    order, each once, and an entry (symbol, keywords) is listed exactly
    when the table holds that symbol with those keywords. *)
Theorem get_tickers_lists_table :
  forall (w : Finviz.world),
    PropsExt.ascending (map FinvizExt.te_symbol (FinvizExt.get_tickers w)) /\
    List.NoDup (map FinvizExt.te_symbol (FinvizExt.get_tickers w)) /\
    (forall sym kw,
        In {| FinvizExt.te_symbol := sym; FinvizExt.te_keywords := kw |}
           (FinvizExt.get_tickers w)
        <-> exists row, Finviz.tickers w !! sym = Some row /\ Finviz.keywords row = kw).
Proof.
  intros w. rewrite TickerExtFacts.get_tickers_symbols.
  split; [|split].
  - apply ListingFacts.sorted_map_asc. apply ListingFacts.order_by_asc_sorted.
  - eapply Permutation_NoDup; [|apply TickerExtFacts.table_keys_nodup].
    apply Permutation_map. symmetry. apply ListingFacts.order_by_asc_perm.
  - intros sym kw. apply TickerExtFacts.get_tickers_In.
Qed.


(** X6. Edge cases of POST /tickers.  A body without a [tickers] entry or
    with an empty list is refused with HTTP 400 and changes nothing.  A
    non-empty list whose symbols are all empty or "MARKET" after
    normalisation is accepted: the answer is [ok] with an empty [added]
    list, and the table is left as it was. *)
Theorem add_tickers_edge_cases :
  forall (clock : nat -> DateTime.datetime) (data : option (list Finviz.ticker_item))
         (w : Finviz.world),
    (default [] data = [] ->
     Finviz.add_tickers clock data w
     = (Py.Raise (Py.HTTPException 400 "No tickers provided"), w)) /\
    (default [] data <> [] -> Props.accepted (default [] data) = [] ->
     exists w',
       Finviz.add_tickers clock data w
       = (Py.Ok {| Finviz.add_ok := true; Finviz.added := [] |}, w') /\
       Finviz.tickers w' = Finviz.tickers w).
Proof.
  intros clock data w. rewrite TickerFacts.add_tickers_unfold. split.
  - intros ->. reflexivity.
  - intros Hne Hacc.
    destruct (default [] data) as [|t0 ts] eqn:Ed; [now contradiction Hne|].
    destruct (TickerFacts.add_loop_spec clock (t0 :: ts) 0 (Finviz.tickers w) [])
      as (H1 & _ & H3).
    eexists. split.
    + rewrite H1, Hacc. reflexivity.
    + cbn [Finviz.set_tickers Finviz.tickers]. apply map_eq. intros sym.
      apply H3. rewrite Hacc. intros [].
Qed.


(* ================================================================== *)
(** * Further properties: the summary cache and its guard *)
(* ================================================================== *)

Module CacheExtFacts.
Import Py DateTime Finviz FinvizExt Props PropsExt PyFacts.

Lemma summary_ready (e : env) (now : datetime) (w : world)
    (period topic : string) (d : summary_data) :
  valid_period period = true ->
  _get_cached_summary now w period (prefs_language e) topic = Some d ->
  finviz_summary e now w period 0 topic
  = (Ok (Ready d (is_generating (generating_key period (prefs_language e) topic) w)),
     w, None).
Proof.
  intros Hv Hc. unfold finviz_summary. rewrite Hv. cbn [negb].
  change (0 =? 0) with true. cbv iota. rewrite Hc. reflexivity.
Qed.

Lemma summary_starts (e : env) (now : datetime) (w : world) (period topic : string) :
  valid_period period = true ->
  _get_cached_summary now w period (prefs_language e) topic = None ->
  is_generating (generating_key period (prefs_language e) topic) w = false ->
  finviz_summary e now w period 0 topic
  = (Ok (InProgress period (prefs_language e) topic),
     set_generating
       (<[generating_key period (prefs_language e) topic := true]> (_generating w)) w,
     Some (period, prefs_language e, topic)).
Proof.
  intros Hv Hc Hg. unfold finviz_summary. rewrite Hv. cbn [negb].
  change (0 =? 0) with true. cbv iota. rewrite Hc, Hg. reflexivity.
Qed.

Lemma summary_regenerate (e : env) (now : datetime) (w : world)
    (period : string) (regenerate : Z) (topic : string) :
  valid_period period = true -> regenerate <> 0 ->
  let language := prefs_language e in
  let key := generating_key period language topic in
  let w1 := set_cache
              (delete (cache_file_name (_cache_key now period language topic)) (cache w))
              w in
  finviz_summary e now w period regenerate topic
  = (Ok (InProgress period language topic),
     (if is_generating key w then w1
      else set_generating (<[key := true]> (_generating w)) w1),
     (if is_generating key w then None else Some (period, language, topic))).
Proof.
  intros Hv Hr language key w1. unfold finviz_summary. rewrite Hv. cbn [negb].
  replace (regenerate =? 0) with false by (symmetry; now apply Z.eqb_neq).
  cbv iota. fold language. fold key. fold w1.
  change (is_generating key w1) with (is_generating key w).
  destruct (_get_cached_summary now w1 period language topic);
    destruct (is_generating key w); reflexivity.
Qed.

(** The summary that a finished generation leaves in the cache. *)
Lemma do_generate_cached (e : env) (t_fetch t_save now : datetime) (w : world)
    (period language topic : string) :
  same_bucket period t_save now ->
  _get_cached_summary now (_do_generate e t_fetch t_save w period language topic)
    period language topic
  = Some {| sd_period := period; sd_language := language; sd_topic := topic;
            sd_summary :=
              fst (expected_summary topic
                     (_get_articles_for_period e w t_fetch (_period_to_hours period)
                        topic 200) (llm_reply e));
            sd_article_count :=
              snd (expected_summary topic
                     (_get_articles_for_period e w t_fetch (_period_to_hours period)
                        topic 200) (llm_reply e));
            sd_generated_at := isoformat t_save |}.
Proof.
  intros Hb. unfold _do_generate. rewrite CacheFacts.generate_body_saves.
  destruct (expected_summary _ _ _) as [summary n].
  unfold _get_cached_summary, generate_finally, _save_cached_summary.
  cbn [snd fst set_generating set_cache cache].
  rewrite <- (CacheFacts.same_bucket_key period language topic t_save now Hb).
  rewrite lookup_insert_eq. reflexivity.
Qed.

Lemma do_generate_released (e : env) (t_fetch t_save : datetime) (w : world)
    (period language topic : string) :
  is_generating (generating_key period language topic)
    (_do_generate e t_fetch t_save w period language topic) = false.
Proof.
  unfold _do_generate, generate_finally, is_generating.
  cbn [set_generating _generating]. now rewrite lookup_delete_eq.
Qed.

Lemma hex_digit_in (n : Z) : In (MD5.hex_digit n) hex_digits.
Proof.
  unfold MD5.hex_digit, hex_digits.
  destruct (nth_in_or_default (Z.to_nat n)
              (list_ascii_of_string "0123456789abcdef") "0"%char) as [H|H].
  - exact H.
  - rewrite H. now left.
Qed.

Lemma hex_word_chars (w : Z) (k : string) :
  Forall (fun c => In c hex_digits) (chars k) ->
  Forall (fun c => In c hex_digits) (chars (MD5.hex_word w k)).
Proof.
  intros H. unfold MD5.hex_word, MD5.hex_byte, chars. cbn [list_ascii_of_string].
  repeat (constructor; [apply hex_digit_in|]). exact H.
Qed.

Lemma hexdigest_chars (s : string) :
  Forall (fun c => In c hex_digits) (chars (MD5.hexdigest s)).
Proof.
  unfold MD5.hexdigest. destruct (MD5.digest _) as [[[a b] c] d].
  repeat apply hex_word_chars. constructor.
Qed.

Lemma slice_to_chars (P : ascii -> Prop) (n : nat) (s : string) :
  Forall P (chars s) -> Forall P (chars (slice_to n s)).
Proof.
  revert s. induction n as [|n IH]; intros [|c s] H; cbn; try constructor.
  - now inversion H.
  - apply IH. now inversion H.
Qed.


Lemma free_of_app (ch : ascii) (a b : string) :
  free_of ch a -> free_of ch b -> free_of ch (a +:+ b).
Proof.
  induction a as [|c a IH]; intros Ha Hb; [exact Hb|].
  change (free_of ch (String c (a +:+ b))). destruct Ha as [H1 H2].
  split; [exact H1 | now apply IH].
Qed.

Lemma hex_free_slash (s : string) :
  Forall (fun c => In c hex_digits) (chars s) -> free_of "/" s.
Proof.
  induction s as [|c s IH]; intros H; cbn; [exact I|].
  inversion H as [|? ? Hc Hs]; subst. split; [|now apply IH].
  intros ->. cbv in Hc. intuition discriminate.
Qed.

(** Cutting two texts at their first occurrence of a character. *)
Lemma cut_unique (ch : ascii) (a b x y : string) :
  free_of ch a -> free_of ch b ->
  a +:+ String ch x = b +:+ String ch y -> a = b /\ x = y.
Proof.
  revert b. induction a as [|c a IH]; intros [|d b] Ha Hb E.
  - change (String ch x = String ch y) in E. now injection E as ->.
  - change (String ch x = String d (b +:+ String ch y)) in E.
    injection E as -> _. destruct Hb as [Hb _]. now contradiction Hb.
  - change (String c (a +:+ String ch x) = String ch y) in E.
    injection E as -> _. destruct Ha as [Ha _]. now contradiction Ha.
  - change (String c (a +:+ String ch x) = String d (b +:+ String ch y)) in E.
    injection E as -> E. destruct Ha as [_ Ha]. destruct Hb as [_ Hb].
    destruct (IH b Ha Hb E) as [-> ->]. auto.
Qed.

Lemma fetch_selection (e : env) (w : world) (rows : list article_row)
    (now : datetime) (hours : Z) (topic : string) (limit : Z) :
  db w = Some rows ->
  _get_articles_for_period e w now hours topic limit
  = Ok (map (article_of_row e w)
            (Sql.limit limit
               (Sql.order_by_desc publish_at
                  (List.filter (period_filter (cutoff now hours) topic) rows)))).
Proof.
  intros Hdb. unfold _get_articles_for_period, _db_conn. rewrite Hdb. reflexivity.
Qed.

Lemma fetch_length (e : env) (w : world) (now : datetime) (hours : Z)
    (topic : string) (limit : Z) (arts : list article) :
  0 <= limit ->
  _get_articles_for_period e w now hours topic limit = Ok arts ->
  Z.of_nat (List.length arts) <= limit.
Proof.
  intros Hl. destruct (db w) as [rows|] eqn:Hdb.
  - rewrite (fetch_selection e w rows now hours topic limit Hdb).
    intros [= <-]. rewrite length_map. now apply SqlFacts.limit_length.
  - unfold _get_articles_for_period, _db_conn. rewrite Hdb. discriminate.
Qed.


End CacheExtFacts.

(** X8. A regenerating request never answers from the cache.  For an
    accepted period and [regenerate] other than 0 the answer is
    "generating"; the cache file of the current bucket is gone
    afterwards and no other cache file is touched; a thread is started
    exactly when the key was not marked.  With [regenerate = 0] the
    handler leaves the cache directory as it is. *)
Theorem regenerate_discards_cache :
  forall (e : Finviz.env) (now : DateTime.datetime) (w : Finviz.world)
         (period : string) (regenerate : Z) (topic : string),
    Finviz.valid_period period = true ->
    let language := Finviz.prefs_language e in
    let key := Finviz.generating_key period language topic in
    let file := Finviz.cache_file_name (Finviz._cache_key now period language topic) in
    (regenerate <> 0 ->
     exists w' started,
       Finviz.finviz_summary e now w period regenerate topic
       = (Py.Ok (Finviz.InProgress period language topic), w', started) /\
       Finviz.cache w' !! file = None /\
       (forall f, f <> file -> Finviz.cache w' !! f = Finviz.cache w !! f) /\
       (started = None <-> Finviz.is_generating key w = true)) /\
    (regenerate = 0 ->
     Finviz.cache (snd (fst (Finviz.finviz_summary e now w period regenerate topic)))
     = Finviz.cache w).
Proof.
  intros e now w period regenerate topic Hv language key file. split.
  - intros Hr.
    rewrite (CacheExtFacts.summary_regenerate e now w period regenerate topic Hv Hr).
    fold language. fold key. fold file.
    do 2 eexists. split; [reflexivity|].
    destruct (Finviz.is_generating key w);
      cbn [Finviz.cache Finviz.set_cache Finviz.set_generating].
    + split; [apply lookup_delete_eq|]. split.
      * intros f Hf. apply lookup_delete_ne. congruence.
      * tauto.
    + split; [apply lookup_delete_eq|]. split.
      * intros f Hf. apply lookup_delete_ne. congruence.
      * split; discriminate.
  - intros ->. unfold Finviz.finviz_summary. rewrite Hv. cbn [negb].
    change (0 =? 0) with true. cbv iota.
    destruct (Finviz._get_cached_summary _ _ _ _ _); [reflexivity|].
    destruct (Finviz.is_generating _ _); reflexivity.
Qed.

(** X9. A generation round trip.  From a world in which the key is not
    marked and no summary is cached, a request starts one thread; once
    that thread has run its body and its [finally] clause no thread is
    left, and a request at any clock reading of the bucket in which the
    thread saved is answered "ready", with [generating] false, by the
    summary and article count that the thread's fetch and LLM call
    produced. *)
Theorem generation_round_trip :
  forall (e e' : Finviz.env) (now t_fetch t_save now' : DateTime.datetime)
         (w : Finviz.world) (period topic : string),
    Finviz.valid_period period = true ->
    let language := Finviz.prefs_language e in
    Finviz.is_generating (Finviz.generating_key period language topic) w = false ->
    Finviz._get_cached_summary now w period language topic = None ->
    Props.same_bucket period t_save now' ->
    exists s,
      Finviz.run {| Finviz.sys_world := w; Finviz.sys_threads := [] |}
        [ Finviz.Request e now period 0 topic;
          Finviz.ThreadBody 0 e' t_fetch t_save;
          Finviz.ThreadExit 0 ] = Some s /\
      Finviz.sys_threads s = [] /\
      exists d,
        Finviz.finviz_summary e now' (Finviz.sys_world s) period 0 topic
        = (Py.Ok (Finviz.Ready d false), Finviz.sys_world s, None) /\
        (Finviz.sd_summary d, Finviz.sd_article_count d)
        = Props.expected_summary topic
            (Finviz._get_articles_for_period e' w t_fetch
               (Finviz._period_to_hours period) topic 200)
            (Finviz.llm_reply e').
Proof.
  intros e e' now t_fetch t_save now' w period topic Hv language Hg Hc Hb.
  set (key := Finviz.generating_key period language topic) in *.
  set (w1 := Finviz.set_generating (<[key := true]> (Finviz._generating w)) w).
  exists {| Finviz.sys_world :=
              Finviz._do_generate e' t_fetch t_save w1 period language topic;
            Finviz.sys_threads := [] |}.
  split; [|split; [reflexivity|]].
  - cbn [Finviz.run Finviz.exec Finviz.sys_world Finviz.sys_threads].
    rewrite (CacheExtFacts.summary_starts e now w period topic Hv Hc Hg).
    fold language. fold key. fold w1. reflexivity.
  - cbn [Finviz.sys_world].
    pose proof (CacheExtFacts.do_generate_cached e' t_fetch t_save now' w1
                  period language topic Hb) as Hd.
    pose proof (CacheExtFacts.do_generate_released e' t_fetch t_save w1
                  period language topic) as Hrel.
    eexists. split.
    + rewrite (CacheExtFacts.summary_ready e now' _ period topic _ Hv Hd).
      fold language. fold key. fold key in Hrel. rewrite Hrel. reflexivity.
    + cbn [Finviz.sd_summary Finviz.sd_article_count].
      change (Finviz._get_articles_for_period e' w1 t_fetch
                (Finviz._period_to_hours period) topic 200)
        with (Finviz._get_articles_for_period e' w t_fetch
                (Finviz._period_to_hours period) topic 200).
      destruct (Props.expected_summary _ _ _). reflexivity.
Qed.

(** X10. [_do_generate] touches one cache file and one guard entry.  It
    leaves the articles database, the article files and the tickers
    table as they are, every cache file other than the one of the
    current bucket, and every entry of [_generating] other than its own
    key. *)
Theorem do_generate_frame :
  forall (e : Finviz.env) (t_fetch t_save : DateTime.datetime) (w : Finviz.world)
         (period language topic : string),
    let w' := Finviz._do_generate e t_fetch t_save w period language topic in
    Finviz.db w' = Finviz.db w /\
    Finviz.files w' = Finviz.files w /\
    Finviz.tickers w' = Finviz.tickers w /\
    (forall f,
        f <> Finviz.cache_file_name (Finviz._cache_key t_save period language topic) ->
        Finviz.cache w' !! f = Finviz.cache w !! f) /\
    (forall k,
        k <> Finviz.generating_key period language topic ->
        Finviz._generating w' !! k = Finviz._generating w !! k).
Proof.
  intros e t_fetch t_save w period language topic. cbv zeta.
  unfold Finviz._do_generate. rewrite CacheFacts.generate_body_saves.
  destruct (Props.expected_summary _ _ _) as [summary n].
  unfold Finviz.generate_finally, Finviz._save_cached_summary.
  cbn [snd Finviz.set_generating Finviz.set_cache Finviz.db Finviz.files
       Finviz.tickers Finviz.cache Finviz._generating].
  split; [reflexivity|]. split; [reflexivity|]. split; [reflexivity|]. split.
  - intros f Hf. apply lookup_insert_ne. congruence.
  - intros k Hk. apply lookup_delete_ne. congruence.
Qed.

(** X11. The name of a cache file is safe whatever the topic and the
    language are: the key consists of hexadecimal digits only, so the
    file name [key.json] contains no slash. *)
Theorem cache_file_name_is_hex :
  forall (now : DateTime.datetime) (period language topic : string),
    Forall (fun c => In c PropsExt.hex_digits)
           (PropsExt.chars (Finviz._cache_key now period language topic)) /\
    PropsExt.free_of "/"
      (Finviz.cache_file_name (Finviz._cache_key now period language topic)).
Proof.
  intros now period language topic.
  assert (H : Forall (fun c => In c PropsExt.hex_digits)
                (PropsExt.chars (Finviz._cache_key now period language topic))).
  { unfold Finviz._cache_key. apply CacheExtFacts.slice_to_chars.
    apply CacheExtFacts.hexdigest_chars. }
  split; [exact H|]. unfold Finviz.cache_file_name.
  apply CacheExtFacts.free_of_app; [now apply CacheExtFacts.hex_free_slash|].
  cbn. repeat split; discriminate.
Qed.

(** X12. The guard key tells requests apart.  For periods and languages
    without a colon (the accepted periods have none), two requests have
    the same key "period:language:topic" only if they agree on period,
    language and topic. *)
Theorem generating_key_injective :
  forall (p1 l1 t1 p2 l2 t2 : string),
    PropsExt.free_of ":" p1 -> PropsExt.free_of ":" p2 ->
    PropsExt.free_of ":" l1 -> PropsExt.free_of ":" l2 ->
    Finviz.generating_key p1 l1 t1 = Finviz.generating_key p2 l2 t2 ->
    p1 = p2 /\ l1 = l2 /\ t1 = t2.
Proof.
  intros p1 l1 t1 p2 l2 t2 Hp1 Hp2 Hl1 Hl2 E. unfold Finviz.generating_key in E.
  change (p1 +:+ String ":" (l1 +:+ String ":" t1)
          = p2 +:+ String ":" (l2 +:+ String ":" t2)) in E.
  destruct (CacheExtFacts.cut_unique ":" p1 p2 _ _ Hp1 Hp2 E) as [-> E'].
  destruct (CacheExtFacts.cut_unique ":" l1 l2 _ _ Hl1 Hl2 E') as [-> ->].
  auto.
Qed.


(** X14. The article count of a cached summary lies between 0 and 200:
    whatever the database holds, the entry that [_do_generate] writes
    counts at most the 200 articles fetched. *)
Theorem cached_article_count_bounded :
  forall (e : Finviz.env) (t_fetch t_save : DateTime.datetime) (w : Finviz.world)
         (period language topic : string),
    exists d,
      Finviz.cache (Finviz._do_generate e t_fetch t_save w period language topic)
        !! Finviz.cache_file_name (Finviz._cache_key t_save period language topic)
      = Some (Finviz.Doc d) /\
      0 <= Finviz.sd_article_count d <= 200.
Proof.
  intros e t_fetch t_save w period language topic.
  unfold Finviz._do_generate. rewrite CacheFacts.generate_body_saves.
  pose proof (CacheExtFacts.fetch_length e w t_fetch
                (Finviz._period_to_hours period) topic 200) as Hlen.
  destruct (Finviz._get_articles_for_period _ _ _ _ _ _) as [arts|ex];
    [specialize (Hlen arts ltac:(lia) eq_refl)|clear Hlen];
    unfold Props.expected_summary.
  - destruct arts as [|a arts]; [|destruct (Finviz.llm_reply e)];
      (eexists; split; [apply lookup_insert_eq|]);
      cbn [Finviz.sd_article_count]; clear - Hlen; lia.
  - eexists. split; [apply lookup_insert_eq|]. cbn [Finviz.sd_article_count]. lia.
Qed.

(* ================================================================== *)
(** * Further properties: papers, translations and their cache *)
(* ================================================================== *)

Module PaperExtFacts.
Import Py Json ArxivKB ArxivExt PropsExt PyFacts.

Lemma fetchone_filter_some {A : Type} (f : A -> bool) (l : list A) (x : A) :
  Sql.fetchone (List.filter f l) = Some x -> In x l /\ f x = true.
Proof.
  intros H. apply List.filter_In. destruct (List.filter f l) as [|y r]; [discriminate|].
  injection H as ->. now left.
Qed.

Lemma find_paper_id (d : database) (aid : string) (row : paper_row) :
  find_paper d aid = Some row -> arxiv_id row = aid.
Proof.
  intros H. apply fetchone_filter_some in H as [_ H]. now apply String.eqb_eq.
Qed.

(** The handler past its guards, for a paper with an abstract and a
    configured language. *)
Lemma translate_step (e : env) (w : world) (d : database) (aid text : string)
    (row : paper_row) :
  db w = Some d -> find_paper d aid = Some row ->
  abstract row = Some text -> text <> "" -> _get_translate_language e <> "" ->
  science_paper_translate e w aid =
  match find_translation d (id row) (_get_translate_language e) with
  | Some tr =>
      (Ok {| translated := tr_abstract tr;
             tr_language := Some (_get_translate_language e) |}, w, [])
  | None =>
      (Ok {| translated := _translate e text (_get_translate_language e);
             tr_language := Some (_get_translate_language e) |},
       (if truthy_opt (_translate e text (_get_translate_language e)) then
          {| db := Some (insert_translation d
                           {| paper_id := id row;
                              language := _get_translate_language e;
                              tr_abstract :=
                                _translate e text (_get_translate_language e) |});
             files := files w |}
        else w),
       [(text, _get_translate_language e)])
  end.
Proof.
  intros Hdb Hp Ha Hne Hl.
  apply truthy_true in Hne. apply truthy_true in Hl.
  unfold science_paper_translate, _db_conn.
  rewrite Hdb, Hp, Ha. cbn [truthy_opt default]. rewrite Hne. cbn [negb].
  rewrite Hl. cbn [negb]. reflexivity.
Qed.


End PaperExtFacts.


(** X16. [has_pdf] of GET /paper agrees with GET /pdf.  For a paper of
    the table the detail endpoint answers with the requested identifier
    and reports [has_pdf] exactly when the PDF endpoint serves a file
    for that identifier. *)
Theorem has_pdf_agrees_with_pdf_route :
  forall (e : ArxivKB.env) (w : ArxivKB.world) (d : ArxivKB.database)
         (aid : string) (row : ArxivKB.paper_row),
    ArxivKB.db w = Some d ->
    ArxivKB.find_paper d aid = Some row ->
    exists r,
      ArxivKB.science_paper e w aid = Py.Ok r /\
      ArxivKB.pr_arxiv_id r = aid /\
      (ArxivKB.pr_has_pdf r = true <-> exists f, ArxivKB.science_pdf e w aid = Py.Ok f).
Proof.
  intros e w d aid row Hdb Hp.
  pose proof (PaperExtFacts.find_paper_id d aid row Hp) as Hid.
  unfold ArxivKB.science_paper, ArxivKB._db_conn. rewrite Hdb. cbn [Py.bind].
  rewrite Hp. eexists. split; [reflexivity|].
  cbn [ArxivKB.pr_arxiv_id ArxivKB.pr_has_pdf]. split; [exact Hid|].
  rewrite Hid. unfold ArxivKB.science_pdf.
  destruct (ArxivKB.exists_file w (ArxivKB._pdf_path e aid)); cbn [negb]; split.
  - intros _. eexists. reflexivity.
  - reflexivity.
  - discriminate.
  - intros [f Hf]. discriminate Hf.
Qed.

(** X17. A failed translation is not cached.  On a cache miss, when the
    LLM call fails or returns an empty text, the translate endpoint
    still answers normally, with that outcome as [translated] and the
    language, after one LLM request, and leaves the database as it was,
    so that the next request asks the LLM again. *)
Theorem failed_translation_not_stored :
  forall (e : ArxivKB.env) (w : ArxivKB.world) (d : ArxivKB.database)
         (aid text : string) (row : ArxivKB.paper_row),
    ArxivKB.db w = Some d ->
    ArxivKB.find_paper d aid = Some row ->
    ArxivKB.abstract row = Some text -> text <> "" ->
    ArxivKB._get_translate_language e <> "" ->
    ArxivKB.find_translation d (ArxivKB.id row) (ArxivKB._get_translate_language e)
      = None ->
    ArxivKB._translate e text (ArxivKB._get_translate_language e) = None \/
    ArxivKB._translate e text (ArxivKB._get_translate_language e) = Some "" ->
    ArxivKB.science_paper_translate e w aid
    = (Py.Ok {| ArxivKB.translated :=
                  ArxivKB._translate e text (ArxivKB._get_translate_language e);
                ArxivKB.tr_language := Some (ArxivKB._get_translate_language e) |},
       w, [(text, ArxivKB._get_translate_language e)]).
Proof.
  intros e w d aid text row Hdb Hp Ha Hne Hl Hmiss Hfail.
  rewrite (PaperExtFacts.translate_step e w d aid text row Hdb Hp Ha Hne Hl), Hmiss.
  destruct Hfail as [-> | ->]; reflexivity.
Qed.

(** X18. The translate endpoint writes nothing but translations.  It
    never changes the files, sends at most one request to the LLM, keeps
    a missing database missing, keeps the [papers] table as it is, and
    either leaves [translations] alone or appends one row whose text is
    not empty. *)
Theorem translate_writes_only_translations :
  forall (e : ArxivKB.env) (w : ArxivKB.world) (aid : string),
    let w' := snd (fst (ArxivKB.science_paper_translate e w aid)) in
    let calls := snd (ArxivKB.science_paper_translate e w aid) in
    ArxivKB.files w' = ArxivKB.files w /\
    (List.length calls <= 1)%nat /\
    match ArxivKB.db w with
    | None => ArxivKB.db w' = None
    | Some d =>
        exists d',
          ArxivKB.db w' = Some d' /\
          ArxivKB.papers d' = ArxivKB.papers d /\
          (ArxivKB.translations d' = ArxivKB.translations d \/
           exists r t,
             ArxivKB.translations d' = ArxivKB.translations d ++ [r] /\
             ArxivKB.tr_abstract r = Some t /\ t <> "")
    end.
Proof.
  intros e w aid. cbv zeta. unfold ArxivKB.science_paper_translate, ArxivKB._db_conn.
  destruct (ArxivKB.db w) as [d|] eqn:Hdb; cbn [fst snd];
    [|rewrite Hdb; cbn; auto].
  assert (Hsame : exists d', Some d = Some d' /\ ArxivKB.papers d' = ArxivKB.papers d /\
                    (ArxivKB.translations d' = ArxivKB.translations d \/
                     exists r t,
                       ArxivKB.translations d' = ArxivKB.translations d ++ [r] /\
                       ArxivKB.tr_abstract r = Some t /\ t <> ""))
    by (exists d; auto).
  destruct (ArxivKB.find_paper d aid) as [row|]; cbn [fst snd];
    [|rewrite Hdb; cbn; auto].
  destruct (negb (Py.truthy_opt (ArxivKB.abstract row))); cbn [fst snd];
    [rewrite Hdb; cbn; auto|].
  destruct (negb (Py.truthy (ArxivKB._get_translate_language e))); cbn [fst snd];
    [rewrite Hdb; cbn; auto|].
  destruct (ArxivKB.find_translation d _ _); cbn [fst snd];
    [rewrite Hdb; cbn; auto|].
  destruct (ArxivKB._translate e _ _) as [t|] eqn:Et; cbn [Py.truthy_opt];
    [|rewrite Hdb; cbn; auto].
  destruct (Py.truthy t) eqn:Ett; [|rewrite Hdb; cbn; auto].
  cbn [ArxivKB.files ArxivKB.db]. split; [reflexivity|]. split; [cbn; lia|].
  eexists. split; [reflexivity|]. split; [reflexivity|]. right.
  do 2 eexists. split; [reflexivity|]. split; [reflexivity|].
  now apply PyFacts.truthy_true.
Qed.

(* ================================================================== *)
(** * Further properties: discovery of the LLM endpoint and model *)
(* ================================================================== *)

Module LlmFacts.
Import Py Json ArxivKB ArxivExt PropsExt.

Lemma pick_model_cons (m : json) (r : list json) (i model : string) :
  model_id m = Some i ->
  pick_model (m :: r) model = if is_sonnet i then i else pick_model r i.
Proof.
  unfold model_id, is_sonnet. destruct m as [| | | | | |kv]; try discriminate.
  cbn [pick_model].
  destruct (default (JStr "") (assoc_last "id" kv)); try discriminate.
  now intros [= ->].
Qed.

Lemma last_cons_default (x : string) (l : list string) (d d' : string) :
  List.last (x :: l) d = List.last (x :: l) d'.
Proof.
  revert x. induction l as [|y l IH]; intros x; [reflexivity|].
  change (List.last (y :: l) d = List.last (y :: l) d'). apply IH.
Qed.

Lemma pick_provider_passed (p : string * json) (r : list (string * json))
    (st : json * string) :
  passed_over (snd p) -> pick_provider (p :: r) st = pick_provider r st.
Proof.
  destruct p as [name v]. intros (b & Hb & Hf). cbn [snd] in Hb.
  unfold base_url in Hb. destruct v as [| | | | | |kv]; try discriminate.
  injection Hb as <-. cbn [pick_provider]. now rewrite Hf.
Qed.

Lemma pick_provider_skip (pre rest : list (string * json)) (st : json * string) :
  Forall (fun np => passed_over (snd np)) pre ->
  pick_provider (pre ++ rest) st = pick_provider rest st.
Proof.
  induction 1 as [|p pre Hp _ IH]; [reflexivity|].
  cbn [app]. now rewrite pick_provider_passed.
Qed.

Lemma pick_provider_truthy (items : list (string * json)) (st : json * string) :
  json_truthy (fst st) = true -> json_truthy (fst (pick_provider items st)) = true.
Proof.
  intros Hst. induction items as [|[name v] items IH]; [exact Hst|].
  destruct v as [| | | | | |kv]; try exact Hst. cbn [pick_provider].
  destruct (json_truthy (default (JStr "") (assoc_last "baseUrl" kv))) eqn:E;
    [exact E | exact IH].
Qed.

Lemma discover_truthy (content : option (result json)) :
  json_truthy (fst (discover content)) = true.
Proof.
  unfold discover.
  destruct content as [[[| | | | | |kv]|ex]|]; try reflexivity.
  destruct (default (JObj []) (assoc_last "models" kv)) as [| | | | | |mk];
    try reflexivity.
  destruct (default (JObj []) (assoc_last "providers" mk)) as [| | | | | |pk];
    try reflexivity.
  now apply pick_provider_truthy.
Qed.

End LlmFacts.

(** X19. Which provider [_get_llm_config] takes.  Going through the
    providers in the order of the file, the search passes over dicts
    whose [baseUrl] is absent or falsy; the first provider with a truthy
    [baseUrl] gives the endpoint, whatever follows it; a provider that is
    not a dict ends the search with the values found so far, so later
    providers are not looked at; with no usable provider the values stay
    as they were.  For a configuration whose [models.providers] is an
    object the search starts from the defaults. *)
Theorem llm_endpoint_first_provider :
  forall (pre post : list (string * Json.json)) (st : Json.json * string),
    Forall (fun np => PropsExt.passed_over (snd np)) pre ->
    ArxivExt.pick_provider pre st = st /\
    (forall name p b,
        PropsExt.base_url p = Some b -> ArxivExt.json_truthy b = true ->
        fst (ArxivExt.pick_provider (pre ++ (name, p) :: post) st) = b) /\
    (forall name p,
        PropsExt.base_url p = None ->
        ArxivExt.pick_provider (pre ++ (name, p) :: post) st = st) /\
    (forall kv mk pk,
        Json.assoc_last "models" kv = Some (Json.JObj mk) ->
        Json.assoc_last "providers" mk = Some (Json.JObj pk) ->
        ArxivExt.discover (Some (Py.Ok (Json.JObj kv)))
        = ArxivExt.pick_provider (PyDict.of_members pk)
            (ArxivExt.default_endpoint, ArxivExt.default_model)).
Proof.
  intros pre post st Hpre. split; [|split; [|split]].
  - rewrite <- (app_nil_r pre). now rewrite LlmFacts.pick_provider_skip.
  - intros name p b Hb Ht. rewrite (LlmFacts.pick_provider_skip pre _ st Hpre).
    unfold PropsExt.base_url in Hb. destruct p as [| | | | | |kv]; try discriminate.
    injection Hb as <-. cbn [ArxivExt.pick_provider]. now rewrite Ht.
  - intros name p Hb. rewrite (LlmFacts.pick_provider_skip pre _ st Hpre).
    unfold PropsExt.base_url in Hb. destruct p as [| | | | | |kv];
      try reflexivity. discriminate.
  - intros kv mk pk Hm Hp. unfold ArxivExt.discover. rewrite Hm.
    cbn [default from_option id]. rewrite Hp. reflexivity.
Qed.

(** X20. Which model [_get_llm_config] takes from the chosen provider.
    When every entry of the provider's model list is a dict with a
    string id: the model is the first id that contains "sonnet" (in any
    case of letters) if there is one; otherwise it is the id of the last
    entry of the list, and the value it had when the list is empty. *)
Theorem llm_model_choice :
  forall (ms : list Json.json) (ids : list string) (model : string),
    map PropsExt.model_id ms = map Some ids ->
    (forall pre i post,
        ids = pre ++ i :: post ->
        Forall (fun j => PropsExt.is_sonnet j = false) pre ->
        PropsExt.is_sonnet i = true ->
        ArxivExt.pick_model ms model = i) /\
    (Forall (fun j => PropsExt.is_sonnet j = false) ids ->
     ArxivExt.pick_model ms model = List.last ids model).
Proof.
  intros ms. induction ms as [|m ms IH]; intros ids model Hids.
  - destruct ids; [|discriminate]. split.
    + intros [|? ?] i post E; discriminate E.
    + reflexivity.
  - destruct ids as [|i0 ids]; [discriminate|].
    cbn [map] in Hids. injection Hids as Hm Hrest.
    rewrite (LlmFacts.pick_model_cons m ms i0 model Hm).
    destruct (IH ids i0 Hrest) as [IH1 IH2]. split.
    + intros pre i post E Hpre Hi. destruct pre as [|j pre].
      * cbn in E. injection E as -> _. now rewrite Hi.
      * cbn in E. injection E as -> E. inversion Hpre as [|? ? Hj Hpre']; subst.
        rewrite Hj. exact (IH1 pre i post eq_refl Hpre' Hi).
    + intros Hall. inversion Hall as [|? ? Hj Hall']; subst. rewrite Hj.
      rewrite (IH2 Hall'). destruct ids as [|i1 ids']; [reflexivity|].
      change (List.last (i1 :: ids') i0 = List.last (i1 :: ids') model).
      apply LlmFacts.last_cons_default.
Qed.

(** X21. The five-minute cache of [_get_llm_config].  Whatever the
    configuration file holds, the cache a call leaves has a truthy
    endpoint; hence a later call less than 300 seconds after the stored
    time stamp returns the cache unchanged without regard to the file,
    and a call at or after 300 seconds reads the file again and stamps
    the cache with its own time. *)
Theorem llm_config_cached_five_minutes :
  forall (tick now : Z) (content : option (Py.result Json.json))
         (c : ArxivExt.llm_cache),
    let c' := ArxivExt._get_llm_config tick now content c in
    ArxivExt.json_truthy (ArxivExt.lc_endpoint c') = true /\
    (forall now2 content2,
        now2 - ArxivExt.lc_ts c' < 300 * tick ->
        ArxivExt._get_llm_config tick now2 content2 c' = c') /\
    (forall now2 content2,
        300 * tick <= now2 - ArxivExt.lc_ts c' ->
        ArxivExt._get_llm_config tick now2 content2 c'
        = {| ArxivExt.lc_ts := now2;
             ArxivExt.lc_endpoint := fst (ArxivExt.discover content2);
             ArxivExt.lc_model := snd (ArxivExt.discover content2) |}).
Proof.
  intros tick now content c c'.
  assert (Ht : ArxivExt.json_truthy (ArxivExt.lc_endpoint c') = true).
  { unfold c', ArxivExt._get_llm_config.
    destruct ((now - ArxivExt.lc_ts c <? 300 * tick)
              && ArxivExt.json_truthy (ArxivExt.lc_endpoint c)) eqn:E.
    - now apply andb_true_iff in E.
    - pose proof (LlmFacts.discover_truthy content) as Hd.
      destruct (ArxivExt.discover content). exact Hd. }
  split; [exact Ht|]. split.
  - intros now2 content2 H. unfold ArxivExt._get_llm_config at 1.
    rewrite Ht. replace (now2 - ArxivExt.lc_ts c' <? 300 * tick) with true by lia.
    reflexivity.
  - intros now2 content2 H. unfold ArxivExt._get_llm_config at 1.
    replace (now2 - ArxivExt.lc_ts c' <? 300 * tick) with false by lia.
    cbn [andb]. destruct (ArxivExt.discover content2). reflexivity.
Qed.

(* ================================================================== *)
(** * Further properties: the text search and SQLite's LIKE *)
(* ================================================================== *)

Module LikeFacts.
Import Py ArxivKB ArxivExt PropsExt.

Lemma append_nil_r (s : string) : s +:+ "" = s.
Proof.
  induction s as [|c s IH]; [reflexivity|].
  change (String c (s +:+ "") = String c s). now rewrite IH.
Qed.

(** A leading [%] either matches nothing or swallows one character. *)
Lemma like_percent_eq (p t : string) :
  SqlExt.like (String "%" p) t
  = SqlExt.like p t
    || match t with
       | EmptyString => false
       | String _ t' => SqlExt.like (String "%" p) t'
       end.
Proof. destruct t; reflexivity. Qed.

Lemma like_percent (p t : string) :
  SqlExt.like (String "%" p) t = true
  <-> exists pre post, t = pre +:+ post /\ SqlExt.like p post = true.
Proof.
  induction t as [|c t IH]; rewrite like_percent_eq, orb_true_iff.
  - split.
    + intros [H|H]; [|discriminate]. exists "", "". auto.
    + intros (pre & post & E & H). left.
      destruct pre; [|discriminate]. change (("" : string) = post) in E. now subst.
  - rewrite IH. split.
    + intros [H|(pre & post & -> & H)].
      * exists "", (String c t). auto.
      * exists (String c pre), post. auto.
    + intros (pre & post & E & H). destruct pre as [|d pre].
      * left. change (String c t = post) in E. now subst.
      * right. change (String c t = String d (pre +:+ post)) in E.
        injection E as -> ->. eauto.
Qed.

Lemma like_char (c : ascii) (p t : string) :
  c <> "%"%char -> c <> "_"%char ->
  SqlExt.like (String c p) t = true
  <-> exists d t', t = String d t' /\ lower_char c = lower_char d /\
                   SqlExt.like p t' = true.
Proof.
  intros H1 H2. cbn [SqlExt.like].
  replace (Ascii.eqb c "%") with false by (symmetry; now apply Ascii.eqb_neq).
  destruct t as [|d t'].
  - split; [discriminate | intros (? & ? & E & _); discriminate E].
  - replace (Ascii.eqb c "_") with false by (symmetry; now apply Ascii.eqb_neq).
    cbn [orb]. rewrite andb_true_iff, Ascii.eqb_eq. split.
    + intros [Hc Hl]. eauto.
    + intros (d' & t'' & E & Hc & Hl). injection E as -> ->. auto.
Qed.

(** A pattern that begins with plain text matches texts that begin with
    the same characters, up to the case of ASCII letters. *)
Lemma like_plain (q p t : string) :
  free_of "%" q -> free_of "_" q ->
  SqlExt.like (q +:+ p) t = true
  <-> exists mid rest, t = mid +:+ rest /\ ci_eq q mid /\ SqlExt.like p rest = true.
Proof.
  revert t. induction q as [|c q IH]; intros t Hq1 Hq2.
  - change ("" +:+ p) with p. split.
    + intros H. exists "", t. cbn. auto.
    + intros (mid & rest & E & Hci & H). destruct mid; [|contradiction].
      change (t = rest) in E. now subst.
  - destruct Hq1 as [Hc1 Hq1]. destruct Hq2 as [Hc2 Hq2].
    change (String c q +:+ p) with (String c (q +:+ p)).
    rewrite (like_char c _ t Hc1 Hc2). split.
    + intros (d & t' & -> & Hcd & H). apply (IH t' Hq1 Hq2) in H
        as (mid & rest & -> & Hci & H).
      exists (String d mid), rest. cbn. auto.
    + intros (mid & rest & E & Hci & H). destruct mid as [|d mid]; [contradiction|].
      destruct Hci as [Hcd Hci]. change (t = String d (mid +:+ rest)) in E.
      exists d, (mid +:+ rest). split; [exact E|]. split; [exact Hcd|].
      apply (IH _ Hq1 Hq2). eauto.
Qed.

Lemma like_any (t : string) : SqlExt.like "%" t = true.
Proof. apply like_percent. exists t, "". split; [now rewrite append_nil_r | reflexivity]. Qed.

Lemma like_only_percent (p : string) :
  only_percent p -> p <> "" -> forall t, SqlExt.like p t = true.
Proof.
  induction p as [|c p IH]; intros Hp Hne t; [now contradiction Hne|].
  destruct Hp as [-> Hp]. destruct p as [|d p'].
  - apply like_any.
  - rewrite like_percent_eq. rewrite (IH Hp ltac:(discriminate) t). reflexivity.
Qed.

Lemma only_percent_app (a b : string) :
  only_percent a -> only_percent b -> only_percent (a +:+ b).
Proof.
  induction a as [|c a IH]; intros Ha Hb; [exact Hb|].
  change (only_percent (String c (a +:+ b))). destruct Ha as [-> Ha].
  split; [reflexivity | now apply IH].
Qed.

(** The pattern of the text search on one column. *)
Lemma like_contains (q t : string) :
  free_of "%" q -> free_of "_" q ->
  SqlExt.like ("%" +:+ q +:+ "%") t = true
  <-> exists pre mid post, t = pre +:+ mid +:+ post /\ ci_eq q mid.
Proof.
  intros H1 H2. change ("%" +:+ q +:+ "%") with (String "%" (q +:+ "%")).
  rewrite like_percent. split.
  - intros (pre & post & -> & H). apply (like_plain q "%" post H1 H2) in H
      as (mid & rest & -> & Hci & _). eauto.
  - intros (pre & mid & post & -> & Hci). exists pre, (mid +:+ post).
    split; [reflexivity|]. apply (like_plain q "%" _ H1 H2).
    exists mid, post. split; [reflexivity|]. split; [exact Hci | apply like_any].
Qed.


End LikeFacts.


(** X23. What the text search matches.  A query without [%] and [_]
    matches a paper exactly when the query occurs in its title or in its
    abstract, up to the case of ASCII letters; a paper without abstract
    is matched on its title alone.  A query made of percent signs only
    matches every paper: the query text is used as a LIKE pattern. *)
Theorem text_search_is_substring_match :
  (forall (q : string) (r : ArxivKB.paper_row),
      PropsExt.free_of "%" q -> PropsExt.free_of "_" q ->
      ArxivExt.text_match q r = true
      <-> (exists pre mid post,
              ArxivKB.title r = pre +:+ mid +:+ post /\ PropsExt.ci_eq q mid) \/
          (exists a pre mid post,
              ArxivKB.abstract r = Some a /\
              a = pre +:+ mid +:+ post /\ PropsExt.ci_eq q mid)) /\
  (forall (q : string) (r : ArxivKB.paper_row),
      PropsExt.only_percent q -> ArxivExt.text_match q r = true).
Proof.
  split.
  - intros q r H1 H2. unfold ArxivExt.text_match. cbv zeta.
    rewrite orb_true_iff, (LikeFacts.like_contains q (ArxivKB.title r) H1 H2).
    destruct (ArxivKB.abstract r) as [a|].
    + rewrite (LikeFacts.like_contains q a H1 H2). split.
      * intros [H|(pre & mid & post & E & H)]; [now left|].
        right. exists a, pre, mid, post. auto.
      * intros [H|(a' & pre & mid & post & [= <-] & E & H)]; [now left|].
        right. eauto.
    + split.
      * intros [H|H]; [now left | discriminate].
      * intros [H|(a' & ? & ? & ? & E & _)]; [now left | discriminate].
  - intros q r Hq. unfold ArxivExt.text_match. cbv zeta.
    rewrite (LikeFacts.like_only_percent ("%" +:+ q +:+ "%")); [reflexivity| |].
    + change ("%" +:+ q +:+ "%") with (String "%" (q +:+ "%")).
      split; [reflexivity|]. apply LikeFacts.only_percent_app; [exact Hq|].
      cbn. auto.
    + discriminate.
Qed.

(* ================================================================== *)
(** * Further properties: the gateway URL of a message *)
(* ================================================================== *)

Module SendFacts.
Import Py OpenClaw OpenClawExt PropsExt.

(** [rstrip("/")] removes a run of slashes at the end and nothing else. *)
Lemma rstrip_slash_spec (s : string) :
  endswith_char "/" (rstrip_char "/" s) = false /\
  exists n, s = rstrip_char "/" s +:+ slashes n.
Proof.
  induction s as [|c s [IH1 [n IH2]]]; [split; [reflexivity | exists 0%nat; reflexivity]|].
  cbn [rstrip_char]. destruct (rstrip_char "/" s) as [|d r] eqn:E.
  - change (String c s = "" +:+ slashes n) in IH2 || idtac.
    destruct (Ascii.eqb c "/") eqn:Ec.
    + apply Ascii.eqb_eq in Ec. subst c. split; [reflexivity|].
      exists (S n). change (s = slashes n) in IH2. now rewrite IH2 at 1.
    + split; [cbn; exact Ec|]. exists n. change (s = slashes n) in IH2.
      change (String c s = String c (slashes n)). now rewrite IH2 at 1.
  - split.
    + exact IH1.
    + exists n. change (String c s = String c (String d r +:+ slashes n)).
      now rewrite IH2 at 1.
Qed.

End SendFacts.

(** X24. A gateway taken from the environment never ends in a slash.
    When OPENCLAW_GATEWAY_URL is set and not empty, the URL returned is
    the variable without the slashes at its end, and nothing else is
    removed; a message is therefore posted to that URL followed by
    /api/v1/message, and [send_message_sync] is true exactly when that
    request is answered with status 200. *)
Theorem gateway_from_env_no_trailing_slash :
  forall (repr : Json.json -> string) (e : OpenClaw.env) (url : string),
    OpenClaw.OPENCLAW_GATEWAY_URL e = Some url -> url <> "" ->
    Py.endswith_char "/" (OpenClaw.get_gateway_url repr e) = false /\
    (exists n, url = OpenClaw.get_gateway_url repr e +:+ PropsExt.slashes n) /\
    (forall (urlopen : string -> list (string * string) -> Py.result Z)
            (message : string) (room channel : option string),
        OpenClawExt.send_message_sync repr urlopen e message room channel = true
        <-> urlopen (OpenClaw.get_gateway_url repr e +:+ "/api/v1/message")
                    (OpenClawExt.payload message room channel) = Py.Ok 200).
Proof.
  intros repr e url Hu Hne.
  assert (Hg : OpenClaw.get_gateway_url repr e = Py.rstrip_char "/" url).
  { unfold OpenClaw.get_gateway_url. rewrite Hu.
    destruct url; [now contradiction Hne | reflexivity]. }
  rewrite Hg. destruct (SendFacts.rstrip_slash_spec url) as [H1 H2].
  split; [exact H1|]. split; [exact H2|].
  intros urlopen message room channel.
  unfold OpenClawExt.send_message_sync, OpenClawExt.message_url. rewrite Hg.
  destruct (urlopen _ _) as [st|ex].
  - rewrite Z.eqb_eq. split; [now intros -> | now intros [= ->]].
  - split; discriminate.
Qed.

(* ================================================================== *)
(** * The further properties on the sample data *)
(* ================================================================== *)

(** X1 on the sample table: three rows of the last 24 hours, two
    returned. *)
Lemma headlines_most_recent_witness :
  1 <= 24 <= 720 /\ 1 <= 2 <= 500 /\
  exists sel rest,
    Finviz.finviz_headlines Samples.t0 Samples.world0 24 2
    = Py.Ok {| Finviz.count := Z.of_nat (List.length sel);
               Finviz.headlines := map FinvizExt.headline_of_row sel |} /\
    Z.of_nat (List.length sel) = 2 /\
    (forall a b, In a sel -> In b rest ->
       Py.text_le (Finviz.publish_at b) (Finviz.publish_at a) = true).
Proof.
  assert (Hh : 1 <= 24 <= 720) by lia. assert (Hl : 1 <= 2 <= 500) by lia.
  split; [exact Hh|]. split; [exact Hl|].
  destruct (headlines_most_recent Samples.t0 Samples.world0 Samples.rows 24 2
              Hh Hl eq_refl) as (sel & rest & E & _ & Hn & Ho).
  exists sel, rest. split; [exact E|]. split; [|exact Ho].
  rewrite Hn. vm_compute. reflexivity.
Defined.

(** X2 on the sample table. *)
Lemma stats_agree_with_headlines_witness :
  exists st resp,
    FinvizExt.finviz_stats Samples.t0 Samples.world0 = Py.Ok st /\
    FinvizExt.total st = 4 /\
    Finviz.finviz_headlines Samples.t0 Samples.world0 24 2 = Py.Ok resp /\
    Finviz.count resp = Z.min 2 (FinvizExt.last_24h st).
Proof.
  destruct (stats_agree_with_headlines Samples.t0 Samples.world0 Samples.rows eq_refl)
    as (st & E & Ht & _ & _ & Hh).
  assert (Hl : 1 <= 2 <= 500) by lia.
  destruct (Hh 2 Hl) as (resp & Er & Hc).
  exists st, resp. split; [exact E|]. split; [exact Ht|]. split; [exact Er | exact Hc].
Defined.

(** X3 on the sample table: one NVDA article and two articles without
    ticker in the last 24 hours. *)
Lemma article_counts_by_ticker_witness :
  0 <= 24 <= 8760 /\
  exists counts,
    FinvizExt.finviz_article_counts Samples.t0 Samples.world0 24 = Py.Ok counts /\
    PyDict.get "NVDA" counts = Some 1 /\
    PyDict.get "TSLA" counts = None /\
    PyDict.get "Market" counts = Some 2.
Proof.
  assert (Hh : 0 <= 24 <= 8760) by lia. split; [exact Hh|].
  destruct (article_counts_by_ticker Samples.t0 Samples.world0 Samples.rows 24
              Hh eq_refl) as (counts & E & Ht & _ & Hm).
  exists counts. split; [exact E|]. split; [|split].
  - rewrite (Ht "NVDA"); [vm_compute; reflexivity | discriminate | discriminate].
  - rewrite (Ht "TSLA"); [vm_compute; reflexivity | discriminate | discriminate].
  - rewrite Hm. vm_compute. reflexivity.
Defined.


(** X6 on a body that names only the reserved symbol. *)
Lemma add_tickers_edge_cases_witness :
  Finviz.add_tickers (fun _ => Samples.t0) None Samples.world0
  = (Py.Raise (Py.HTTPException 400 "No tickers provided"), Samples.world0) /\
  exists w',
    Finviz.add_tickers (fun _ => Samples.t0) SamplesExt.market_body Samples.world0
    = (Py.Ok {| Finviz.add_ok := true; Finviz.added := [] |}, w') /\
    Finviz.tickers w' = Finviz.tickers Samples.world0.
Proof.
  split.
  - exact (proj1 (add_tickers_edge_cases (fun _ => Samples.t0) None Samples.world0)
             eq_refl).
  - apply (proj2 (add_tickers_edge_cases (fun _ => Samples.t0) SamplesExt.market_body
                    Samples.world0)); [discriminate | reflexivity].
Defined.


(** X8 on the sample world: a regenerating request for 12h/Market. *)
Lemma regenerate_discards_cache_witness :
  Finviz.valid_period "12h" = true /\
  exists w' started,
    Finviz.finviz_summary Samples.env0 Samples.t0 Samples.world0 "12h" 1 "Market"
    = (Py.Ok (Finviz.InProgress "12h" (Finviz.prefs_language Samples.env0) "Market"),
       w', started) /\
    Finviz.cache w'
      !! Finviz.cache_file_name
           (Finviz._cache_key Samples.t0 "12h"
              (Finviz.prefs_language Samples.env0) "Market") = None.
Proof.
  split; [reflexivity|].
  assert (Hr : 1 <> 0) by discriminate.
  destruct (proj1 (regenerate_discards_cache Samples.env0 Samples.t0 Samples.world0
                     "12h" 1 "Market" eq_refl) Hr)
    as (w' & started & E & Hc & _).
  exists w', started. split; [exact E | exact Hc].
Defined.

(** X9 on the sample world: the summary generated at 07:21 is served at
    08:59 of the same bucket. *)
Lemma generation_round_trip_witness :
  Props.same_bucket "12h" Samples.t0 Samples.t1 /\
  exists s d,
    Finviz.run {| Finviz.sys_world := Samples.world0; Finviz.sys_threads := [] |}
      [ Finviz.Request Samples.env0 Samples.t0 "12h" 0 "Market";
        Finviz.ThreadBody 0 Samples.env0 Samples.t0 Samples.t0;
        Finviz.ThreadExit 0 ] = Some s /\
    Finviz.sys_threads s = [] /\
    Finviz.finviz_summary Samples.env0 Samples.t1 (Finviz.sys_world s) "12h" 0 "Market"
    = (Py.Ok (Finviz.Ready d false), Finviz.sys_world s, None) /\
    Finviz.sd_summary d = "Markets were calm." /\
    Finviz.sd_article_count d = 2.
Proof.
  assert (Hb : Props.same_bucket "12h" Samples.t0 Samples.t1).
  { cbv. repeat split. }
  split; [exact Hb|].
  assert (Hg : Finviz.is_generating
                 (Finviz.generating_key "12h" (Finviz.prefs_language Samples.env0)
                    "Market") Samples.world0 = false)
    by (vm_compute; reflexivity).
  assert (Hc : Finviz._get_cached_summary Samples.t0 Samples.world0 "12h"
                 (Finviz.prefs_language Samples.env0) "Market" = None)
    by (vm_compute; reflexivity).
  destruct (generation_round_trip Samples.env0 Samples.env0 Samples.t0 Samples.t0
              Samples.t0 Samples.t1 Samples.world0 "12h" "Market" eq_refl Hg Hc Hb)
    as (s & Hrun & Hth & d & Hs & Hd).
  exists s, d. split; [exact Hrun|]. split; [exact Hth|]. split; [exact Hs|].
  assert (Hx : Props.expected_summary "Market"
                 (Finviz._get_articles_for_period Samples.env0 Samples.world0
                    Samples.t0 (Finviz._period_to_hours "12h") "Market" 200)
                 (Finviz.llm_reply Samples.env0)
               = ("Markets were calm.", 2))
    by (vm_compute; reflexivity).
  rewrite Hx in Hd. injection Hd as H1 H2. split; [exact H1 | exact H2].
Defined.

(** X12 on two requests with the same key. *)
Lemma generating_key_injective_witness :
  Finviz.generating_key "12h" "English" "a:b" = "12h:English:a:b" /\
  forall p l t,
    PropsExt.free_of ":" p -> PropsExt.free_of ":" l ->
    Finviz.generating_key p l t = "12h:English:a:b" ->
    p = "12h" /\ l = "English" /\ t = "a:b".
Proof.
  split; [reflexivity|]. intros p l t Hp Hl E.
  assert (H1 : PropsExt.free_of ":" "12h") by (cbn; repeat split; discriminate).
  assert (H2 : PropsExt.free_of ":" "English") by (cbn; repeat split; discriminate).
  exact (generating_key_injective p l t "12h" "English" "a:b" Hp H1 Hl H2 E).
Defined.



(** X16 on the sample paper, whose PDF is on disk. *)
Lemma has_pdf_agrees_with_pdf_route_witness :
  exists r,
    ArxivKB.science_paper Samples.kb_env Samples.kb_world "2401.00001" = Py.Ok r /\
    ArxivKB.pr_arxiv_id r = "2401.00001" /\
    ArxivKB.pr_has_pdf r = true.
Proof.
  destruct (has_pdf_agrees_with_pdf_route Samples.kb_env Samples.kb_world
              Samples.kb_database "2401.00001" Samples.paper eq_refl eq_refl)
    as (r & E & Hid & Hpdf).
  exists r. split; [exact E|]. split; [exact Hid|].
  apply Hpdf. eexists. vm_compute. reflexivity.
Defined.

(** X17 on the sample paper with the LLM endpoint down. *)
Lemma failed_translation_not_stored_witness :
  ArxivKB.science_paper_translate SamplesExt.kb_env_down Samples.kb_world "2401.00001"
  = (Py.Ok {| ArxivKB.translated := None; ArxivKB.tr_language := Some "German" |},
     Samples.kb_world, [("We study caches.", "German")]).
Proof.
  assert (Hl : ArxivKB._get_translate_language SamplesExt.kb_env_down <> "")
    by (vm_compute; discriminate).
  assert (Ht : "We study caches." <> "") by discriminate.
  exact (failed_translation_not_stored SamplesExt.kb_env_down Samples.kb_world
           Samples.kb_database "2401.00001" "We study caches." Samples.paper
           eq_refl eq_refl eq_refl Ht Hl eq_refl (or_introl eq_refl)).
Defined.

(** X19 on the sample providers: the first one has no [baseUrl], the
    second gives the endpoint, the third is not looked at. *)
Lemma llm_endpoint_first_provider_witness :
  Forall (fun np => PropsExt.passed_over (snd np)) [SamplesExt.provider_bare] /\
  fst (ArxivExt.pick_provider
         ([SamplesExt.provider_bare]
            ++ ("llm", SamplesExt.provider_llm) :: [SamplesExt.provider_other])
         (ArxivExt.default_endpoint, ArxivExt.default_model))
  = Json.JStr "http://llm.example:4000".
Proof.
  assert (Hp : Forall (fun np => PropsExt.passed_over (snd np))
                 [SamplesExt.provider_bare]).
  { constructor; [|constructor]. exists (Json.JStr ""). split; reflexivity. }
  split; [exact Hp|].
  exact (proj1 (proj2 (llm_endpoint_first_provider [SamplesExt.provider_bare]
                         [SamplesExt.provider_other]
                         (ArxivExt.default_endpoint, ArxivExt.default_model) Hp))
           "llm" SamplesExt.provider_llm (Json.JStr "http://llm.example:4000")
           eq_refl eq_refl).
Defined.

(** X20 on the sample model list: the sonnet model is taken, whatever
    its case and whatever follows it. *)
Lemma llm_model_choice_witness :
  map PropsExt.model_id SamplesExt.model_list
  = map Some ["gpt-4o"; "Claude-Sonnet-4"; "claude-haiku"] /\
  ArxivExt.pick_model SamplesExt.model_list ArxivExt.default_model = "Claude-Sonnet-4".
Proof.
  assert (Hm : map PropsExt.model_id SamplesExt.model_list
               = map Some ["gpt-4o"; "Claude-Sonnet-4"; "claude-haiku"])
    by reflexivity.
  split; [exact Hm|].
  apply (proj1 (llm_model_choice SamplesExt.model_list _ ArxivExt.default_model Hm)
           ["gpt-4o"] "Claude-Sonnet-4" ["claude-haiku"] eq_refl).
  - constructor; [vm_compute; reflexivity | constructor].
  - vm_compute. reflexivity.
Defined.


(** X23 on the sample paper: "CACHE" occurs in the title "On caches" up
    to case. *)
Lemma text_search_is_substring_match_witness :
  ArxivExt.text_match "CACHE" Samples.paper = true /\
  ArxivExt.text_match "%%" Samples.paper = true.
Proof.
  split.
  - apply (proj1 text_search_is_substring_match "CACHE" Samples.paper).
    + cbn. repeat split; discriminate.
    + cbn. repeat split; discriminate.
    + left. exists "On ", "cache", "s". split; [reflexivity|].
      cbn. repeat split; reflexivity.
  - apply (proj2 text_search_is_substring_match "%%" Samples.paper).
    cbn. repeat split; reflexivity.
Defined.

(** X24 on the sample environment: the variable ends in two slashes. *)
Lemma gateway_from_env_no_trailing_slash_witness :
  OpenClaw.OPENCLAW_GATEWAY_URL Samples.env_url = Some "http://gw.example:8080//" /\
  Py.endswith_char "/" (OpenClaw.get_gateway_url Samples.repr0 Samples.env_url) = false /\
  OpenClawExt.send_message_sync Samples.repr0 SamplesExt.urlopen_gw Samples.env_url
    "hello" (Some "ops") None = true.
Proof.
  split; [reflexivity|].
  assert (Hne : "http://gw.example:8080//" <> "") by discriminate.
  destruct (gateway_from_env_no_trailing_slash Samples.repr0 Samples.env_url
              "http://gw.example:8080//" eq_refl Hne) as (H1 & _ & H3).
  split; [exact H1|]. apply H3. vm_compute. reflexivity.
Defined.
